(** * Attendance / assignment data-consistency model of the classroom portal

    A shallow embedding of the event handlers that write to the document
    store (collections [attendees], [deleted_attendees], [attendance],
    [assignments], [submissions]) and of the client-side aggregation.
    Every handler is a function from the store (and the page state it reads)
    to the store after the handler has run. *)

From Stdlib Require Import ZArith DecimalString.
From Stdlib Require PrimFloat FloatOps SpecFloat Uint63 OrdersEx.
From stdpp Require Import gmap strings list fin_maps sorting.

Open Scope string_scope.

(** ** lib/types *)

(** A Firestore [Timestamp]; [serverTimestamp()] is resolved by the store at
    the moment of the write, which the handlers below receive as [now]. *)
Definition Timestamp := nat.

(** [a || b] on an optional string ([undefined] and the empty string are
    falsy). *)
Definition or_str (o : option string) (d : string) : string :=
  match o with
  | Some s => if decide (s = EmptyString) then d else s
  | None => d
  end.

(** [a || b] on a string. *)
Definition or_else (s d : string) : string := if decide (s = EmptyString) then d else s.

Inductive AttendanceStatus := Present | Absent | Leave.

Global Instance AttendanceStatus_eq_dec : EqDecision AttendanceStatus.
Proof. solve_decision. Defined.

Definition attendanceStatuses : list AttendanceStatus := [Present; Absent; Leave].

Inductive AssignmentStatus := Assigned | Submitted | Graded.

Global Instance AssignmentStatus_eq_dec : EqDecision AssignmentStatus.
Proof. solve_decision. Defined.

Definition assignmentStatuses : list AssignmentStatus := [Assigned; Submitted; Graded].

Module Student.
Record t := mk {
  id : string;
  name : string;
  email : string;
  createdAt : option Timestamp;
  restoredAt : option Timestamp
}.
End Student.

Module ArchivedStudent.
Record t := mk {
  id : string;
  originalId : string;
  name : string;
  email : string;
  createdAt : option Timestamp;
  deletedAt : Timestamp;
  restoredAt : option Timestamp
}.
End ArchivedStudent.

Module AttendanceRecord.
Record t := mk {
  id : string;
  studentId : string;
  studentName : string;
  email : string;
  date : string;
  status : AttendanceStatus;
  note : option string;
  updatedAt : Timestamp
}.
End AttendanceRecord.

Module Summary.
Record t := mk { present : nat; absent : nat; leave : nat; total : nat }.
End Summary.

Module AttendanceDoc.
Record t := mk {
  date : string;
  records : gmap string AttendanceRecord.t;
  summary : Summary.t
}.
End AttendanceDoc.

(** An entry of an assignment's [statusMap] as the store holds it.  The
    dot-path updates of the student and review pages create an entry with
    only the fields they name when the student has none yet, so the
    identifying fields are optional here. *)
Module StudentAssignmentStatus.
Record t := mk {
  studentId : option string;
  studentName : option string;
  email : option string;
  status : AssignmentStatus;
  grade : option string;
  note : option string;
  fileURL : option string;
  fileName : option string;
  updatedAt : Timestamp
}.

Global Instance eq_dec : EqDecision t.
Proof. solve_decision. Defined.
End StudentAssignmentStatus.

Module Assignment.
Record t := mk {
  title : string;
  description : option string;
  dueDate : string;
  resourceUrl : option string;
  createdAt : Timestamp;
  statusMap : gmap string StudentAssignmentStatus.t
}.
End Assignment.

Inductive SubmissionStatus := submitted | graded.

Module Submission.
Record t := mk {
  assignmentId : string;
  studentId : string;
  studentEmail : string;
  fileURL : option string;
  fileName : option string;
  notes : option string;
  submittedAt : Timestamp;
  status : SubmissionStatus;
  grade : option string;
  feedback : option string
}.
End Submission.

(** ** The document store *)

(** Data of a document of [attendees].  Restoring an attendee writes the
    [id] it was listed under into the data as well, hence the optional
    field. *)
Module AttendeeDoc.
Record t := mk {
  id : option string;
  name : string;
  email : string;
  createdAt : option Timestamp;
  restoredAt : option Timestamp
}.
End AttendeeDoc.

(** Data of a document of [deleted_attendees]. *)
Module ArchivedDoc.
Record t := mk {
  id : option string;
  originalId : string;
  name : string;
  email : string;
  createdAt : option Timestamp;
  deletedAt : Timestamp;
  restoredAt : option Timestamp
}.
End ArchivedDoc.

Module Db.
Record t := mk {
  attendees : gmap string AttendeeDoc.t;
  deleted_attendees : gmap string ArchivedDoc.t;
  attendance : gmap string AttendanceDoc.t;
  assignments : gmap string Assignment.t;
  submissions : gmap string Submission.t
}.

Definition empty : t := mk ∅ ∅ ∅ ∅ ∅.

Definition with_attendees (f : gmap string AttendeeDoc.t → gmap string AttendeeDoc.t) (db : t) : t :=
  mk (f (attendees db)) (deleted_attendees db) (attendance db) (assignments db) (submissions db).
Definition with_deleted (f : gmap string ArchivedDoc.t → gmap string ArchivedDoc.t) (db : t) : t :=
  mk (attendees db) (f (deleted_attendees db)) (attendance db) (assignments db) (submissions db).
Definition with_attendance (f : gmap string AttendanceDoc.t → gmap string AttendanceDoc.t) (db : t) : t :=
  mk (attendees db) (deleted_attendees db) (f (attendance db)) (assignments db) (submissions db).
Definition with_assignments (f : gmap string Assignment.t → gmap string Assignment.t) (db : t) : t :=
  mk (attendees db) (deleted_attendees db) (attendance db) (f (assignments db)) (submissions db).
Definition with_submissions (f : gmap string Submission.t → gmap string Submission.t) (db : t) : t :=
  mk (attendees db) (deleted_attendees db) (attendance db) (assignments db) (f (submissions db)).
End Db.

(** What a handler tells the user when it returns. *)
Inductive Outcome := Success | DuplicateEmail | Failed.

(** [{ id: doc.id, ...doc.data() }]: a field [id] of the data wins over the
    document id. *)
Definition snapshot_student (docId : string) (d : AttendeeDoc.t) : Student.t :=
  Student.mk (default docId (AttendeeDoc.id d)) (AttendeeDoc.name d)
    (AttendeeDoc.email d) (AttendeeDoc.createdAt d) (AttendeeDoc.restoredAt d).

Definition snapshot_archived (docId : string) (d : ArchivedDoc.t) : ArchivedStudent.t :=
  ArchivedStudent.mk (default docId (ArchivedDoc.id d)) (ArchivedDoc.originalId d)
    (ArchivedDoc.name d) (ArchivedDoc.email d) (ArchivedDoc.createdAt d)
    (ArchivedDoc.deletedAt d) (ArchivedDoc.restoredAt d).

(** Document ids are ordered as byte strings. *)
Definition id_le {V} (x y : string * V) : Prop := String.leb x.1 y.1 = true.

Global Instance id_le_dec {V} (x y : string * V) : Decision (id_le x y).
Proof. unfold id_le. apply _. Defined.

(** [getDocs] on a collection, or on a query that only filters by equality:
    the store lists the documents in ascending order of document id, so
    that [docs[0]] is the one with the least id. *)
Definition getDocs {V} (collection : gmap string V) : list (string * V) :=
  merge_sort id_le (map_to_list collection).

(** [getDocs(query(collection(db, "attendees")))] mapped to [Student]s.  The
    order of the snapshot is the store's. *)
Definition getDocs_attendees (db : Db.t) : list Student.t :=
  (λ kd, snapshot_student kd.1 kd.2) <$> map_to_list (Db.attendees db).

(** The last and the first attendee of a list with id [k]. *)
Definition last_listed (attendees : list Student.t) (k : string) : option Student.t :=
  last (filter (λ a, Student.id a = k) attendees).

Definition first_listed (attendees : list Student.t) (k : string) : option Student.t :=
  head (filter (λ a, Student.id a = k) attendees).

(** ** date-fns [format(date, "yyyy-MM-dd")] *)

Module DateFns.
Record Date := mkDate { year : nat; month : nat; day : nat }.

Fixpoint zeros (n : nat) : string :=
  match n with O => EmptyString | S k => "0" +:+ zeros k end.

(** [addLeadingZeros]: the decimal numeral padded on the left to [len]. *)
Definition addLeadingZeros (n len : nat) : string :=
  let s := NilZero.string_of_uint (Nat.to_uint n) in
  zeros (len - String.length s) +:+ s.

Definition format (d : Date) : string :=
  addLeadingZeros (year d) 4 +:+ "-" +:+ addLeadingZeros (month d) 2
    +:+ "-" +:+ addLeadingZeros (day d) 2.

(** The separator of the format, and whether a string contains it. *)
Definition dash : Ascii.ascii := Ascii.ascii_of_nat 45.

Fixpoint has_dash (s : string) : bool :=
  match s with
  | EmptyString => false
  | String c rest => if decide (c = dash) then true else has_dash rest
  end.

Definition isLeapYear (year : nat) : bool :=
  Nat.eqb (year mod 400) 0
  || (Nat.eqb (year mod 4) 0 && negb (Nat.eqb (year mod 100) 0)).

Definition getDaysInMonth (d : Date) : nat :=
  match month d with
  | 2 => if isLeapYear (year d) then 29 else 28
  | 4 | 6 | 9 | 11 => 30
  | _ => 31
  end.

(** The dates a JavaScript [Date] can hold: a month of the year and a day
    of that month. *)
Definition calendar (d : Date) : Prop :=
  (1 ≤ month d ≤ 12)%nat ∧ (1 ≤ day d ≤ getDaysInMonth d)%nat.

Definition startOfMonth (d : Date) : Date := mkDate (year d) (month d) 1.

Definition endOfMonth (d : Date) : Date :=
  mkDate (year d) (month d) (getDaysInMonth d).
End DateFns.

(** ** Mark attendance page *)

Module MarkAttendance.

(** An entry of the page's [attendanceData]. *)
Record Entry := mkEntry { status : AttendanceStatus; note : option string }.

Inductive Change := SetStatus (s : AttendanceStatus) | SetNote (n : string).

Definition handleAttendanceChange (attendeeId : string) (c : Change)
    (prev : gmap string Entry) : gmap string Entry :=
  let base := default (mkEntry Present (Some EmptyString)) (prev !! attendeeId) in
  <[attendeeId :=
      match c with
      | SetStatus s => mkEntry s (note base)
      | SetNote n => mkEntry (status base) (Some n)
      end]> prev.

(** The record written for an attendee with a chosen status. *)
Definition new_record (dateStr : string) (attendee : Student.t) (e : Entry)
    (now : Timestamp) : AttendanceRecord.t :=
  AttendanceRecord.mk (dateStr +:+ "_" +:+ Student.id attendee)
    (Student.id attendee) (Student.name attendee) (Student.email attendee)
    dateStr (status e) (Some (or_str (note e) EmptyString)) now.

(** The body of [attendees.forEach] in [handleSaveAll]. *)
Definition upsert (dateStr : string) (attendanceData : gmap string Entry)
    (now : Timestamp) (records : gmap string AttendanceRecord.t)
    (attendee : Student.t) : gmap string AttendanceRecord.t :=
  match attendanceData !! Student.id attendee with
  | Some e => <[Student.id attendee := new_record dateStr attendee e now]> records
  | None => records
  end.

(** The body of [Object.values(records).forEach] in [handleSaveAll]. *)
Definition tally_step (s : Summary.t) (rec : AttendanceRecord.t) : Summary.t :=
  match AttendanceRecord.status rec with
  | Present => Summary.mk (S (Summary.present s)) (Summary.absent s) (Summary.leave s) (Summary.total s)
  | Absent => Summary.mk (Summary.present s) (S (Summary.absent s)) (Summary.leave s) (Summary.total s)
  | Leave => Summary.mk (Summary.present s) (Summary.absent s) (S (Summary.leave s)) (Summary.total s)
  end.

Definition summarize (records : gmap string AttendanceRecord.t) : Summary.t :=
  let s := foldl tally_step (Summary.mk 0 0 0 0) (map_to_list records).*2 in
  Summary.mk (Summary.present s) (Summary.absent s) (Summary.leave s) (size records).

(** [setDoc(ref, payload, { merge: true })] on a day document: fields of
    the payload replace the stored ones, nested maps are merged key by
    key, and a field the payload leaves out keeps its stored value. *)
Definition merge_record (new old : AttendanceRecord.t) : AttendanceRecord.t :=
  AttendanceRecord.mk (AttendanceRecord.id new) (AttendanceRecord.studentId new)
    (AttendanceRecord.studentName new) (AttendanceRecord.email new)
    (AttendanceRecord.date new) (AttendanceRecord.status new)
    (match AttendanceRecord.note new with
     | Some n => Some n
     | None => AttendanceRecord.note old
     end)
    (AttendanceRecord.updatedAt new).

Definition setDoc_merge (payload : AttendanceDoc.t) (stored : option AttendanceDoc.t)
    : AttendanceDoc.t :=
  match stored with
  | None => payload
  | Some old =>
      AttendanceDoc.mk (AttendanceDoc.date payload)
        (union_with (λ new old, Some (merge_record new old))
           (AttendanceDoc.records payload) (AttendanceDoc.records old))
        (AttendanceDoc.summary payload)
  end.

Definition existingRecords (db : Db.t) (dateStr : string) : gmap string AttendanceRecord.t :=
  match Db.attendance db !! dateStr with
  | Some d => AttendanceDoc.records d
  | None => ∅
  end.

Definition docPayload (db : Db.t) (attendees : list Student.t)
    (attendanceData : gmap string Entry) (dateStr : string) (now : Timestamp)
    : AttendanceDoc.t :=
  let records := foldl (upsert dateStr attendanceData now) (existingRecords db dateStr) attendees in
  AttendanceDoc.mk dateStr records (summarize records).

Definition handleSaveAll (db : Db.t) (attendees : list Student.t)
    (attendanceData : gmap string Entry) (selectedDate : DateFns.Date)
    (now : Timestamp) : Db.t :=
  let dateStr := DateFns.format selectedDate in
  let payload := docPayload db attendees attendanceData dateStr now in
  Db.with_attendance
    (λ coll, <[dateStr := setDoc_merge payload (coll !! dateStr)]> coll) db.

(** The number of records of a day with a given status. *)
Definition count_status (s : AttendanceStatus)
    (records : gmap string AttendanceRecord.t) : nat :=
  size (filter (λ kv, AttendanceRecord.status kv.2 = s) records).

(** The attendee id [k] has a chosen status on the page: it is listed and
    [attendanceData] has an entry for it. *)
Definition chosen (attendees : list Student.t) (attendanceData : gmap string Entry)
    (k : string) : Prop :=
  ∃ a, a ∈ attendees ∧ Student.id a = k ∧ is_Some (attendanceData !! k).

(** A day document is key-consistent under the date key [dateStr]. *)
Definition key_consistent (dateStr : string) (d : AttendanceDoc.t) : Prop :=
  AttendanceDoc.date d = dateStr ∧
  ∀ k rec, AttendanceDoc.records d !! k = Some rec →
    AttendanceRecord.studentId rec = k ∧
    AttendanceRecord.date rec = dateStr ∧
    AttendanceRecord.id rec = dateStr +:+ "_" +:+ k.

End MarkAttendance.


(** ** Attendees page: add, edit, soft delete, restore *)

Module Attendees.

Record AttendeeFormValues := mkForm { name : string; email : string }.

(** [query(collection(db, "attendees"), where("email", "==", email))] *)
Definition activeQ (db : Db.t) (email : string) : list (string * AttendeeDoc.t) :=
  filter (λ kd, AttendeeDoc.email kd.2 = email) (getDocs (Db.attendees db)).

(** [query(collection(db, "deleted_attendees"), where("email", "==", email))] *)
Definition deletedQ (db : Db.t) (email : string) : list (string * ArchivedDoc.t) :=
  filter (λ kd, ArchivedDoc.email kd.2 = email) (getDocs (Db.deleted_attendees db)).

Definition emailExists (db : Db.t) (attendeeToEdit : option Student.t)
    (data : AttendeeFormValues) : bool :=
  let in_active :=
    match activeQ db (email data) with
    | [] => false
    | d :: _ =>
        match attendeeToEdit with
        | Some a => bool_decide (d.1 ≠ Student.id a)
        | None => true
        end
    end in
  match deletedQ db (email data) with
  | [] => in_active
  | _ :: _ => true
  end.

(** [AttendeeForm.onSubmit].  [newId] is the id the store generates for the
    document that [addDoc] creates; [updateDoc] rejects when the document
    does not exist. *)
Definition onSubmit (db : Db.t) (attendeeToEdit : option Student.t)
    (data : AttendeeFormValues) (newId : string) (now : Timestamp)
    : Db.t * Outcome :=
  if emailExists db attendeeToEdit data then (db, DuplicateEmail)
  else
    match attendeeToEdit with
    | Some a =>
        match Db.attendees db !! Student.id a with
        | Some d =>
            (Db.with_attendees
               (insert (Student.id a)
                  (AttendeeDoc.mk (AttendeeDoc.id d) (name data) (email data)
                     (AttendeeDoc.createdAt d) (AttendeeDoc.restoredAt d))) db,
             Success)
        | None => (db, Failed)
        end
    | None =>
        (Db.with_attendees
           (insert newId (AttendeeDoc.mk None (name data) (email data) (Some now) None)) db,
         Success)
    end.

(** [handleSoftDelete].  A document reference with an empty id is refused
    by [doc], which the handler catches. *)
Definition handleSoftDelete (db : Db.t) (attendee : Student.t) (now : Timestamp)
    : Db.t * Outcome :=
  if decide (Student.id attendee = EmptyString) then (db, Failed)
  else
    let db1 :=
      Db.with_deleted
        (insert (Student.id attendee)
           (ArchivedDoc.mk (Some (Student.id attendee)) (Student.id attendee)
              (Student.name attendee) (Student.email attendee)
              (Student.createdAt attendee) now (Student.restoredAt attendee))) db in
    (Db.with_attendees (delete (Student.id attendee)) db1, Success).

(** The document id [attendee.originalId || attendee.id]. *)
Definition restore_target (attendee : ArchivedStudent.t) : string :=
  or_else (ArchivedStudent.originalId attendee) (ArchivedStudent.id attendee).

(** The data written back to [attendees] by [handleRestore]. *)
Definition restored_doc (attendee : ArchivedStudent.t) (now : Timestamp) : AttendeeDoc.t :=
  AttendeeDoc.mk (Some (ArchivedStudent.id attendee)) (ArchivedStudent.name attendee)
    (ArchivedStudent.email attendee)
    (Some (default now (ArchivedStudent.createdAt attendee))) (Some now).

(** [handleRestore] *)
Definition handleRestore (db : Db.t) (attendee : ArchivedStudent.t) (now : Timestamp)
    : Db.t * Outcome :=
  match activeQ db (ArchivedStudent.email attendee) with
  | _ :: _ => (db, DuplicateEmail)
  | [] =>
      if decide (restore_target attendee = EmptyString) then (db, Failed)
      else
        let db1 :=
          Db.with_attendees
            (insert (restore_target attendee) (restored_doc attendee now)) db in
        if decide (ArchivedStudent.id attendee = EmptyString) then (db1, Failed)
        else (Db.with_deleted (delete (ArchivedStudent.id attendee)) db1, Success)
  end.

(** Some active attendee holds [e]. *)
Definition active_email (db : Db.t) (e : string) : Prop :=
  ∃ k d, Db.attendees db !! k = Some d ∧ AttendeeDoc.email d = e.

(** Some archived attendee holds [e]. *)
Definition archived_email (db : Db.t) (e : string) : Prop :=
  ∃ k d, Db.deleted_attendees db !! k = Some d ∧ ArchivedDoc.email d = e.

(** Every archive entry sits under the id its attendee had, which is not
    empty, and records that id both as [id] and as [originalId]. *)
Definition archive_wf (db : Db.t) : Prop :=
  ∀ k d, Db.deleted_attendees db !! k = Some d →
    k ≠ EmptyString ∧ ArchivedDoc.id d = Some k ∧ ArchivedDoc.originalId d = k.

End Attendees.

(** ** Login page: a student signing up or logging in for the first time is
    linked to the first active attendee that has the typed e-mail, or else
    added to [attendees] under the e-mail of the account. *)

Module Login.

(** What [handleLogin] and [handleSignup] both do for a student: [email] is
    the e-mail typed into the form, which the query uses, [userEmail] is
    [user.email] of the account, which the new attendee gets. *)
Definition linkStudent (db : Db.t) (email userEmail studentName newId : string)
    (now : Timestamp) : Db.t * string :=
  match Attendees.activeQ db email with
  | d :: _ => (db, d.1)
  | [] =>
      (Db.with_attendees
         (insert newId (AttendeeDoc.mk None studentName userEmail (Some now) None)) db,
       newId)
  end.

End Login.

(** ** Assignments: create, list, edit *)

Module CreateAssignment.

Record AssignmentFormValues := mkForm {
  title : string;
  description : option string;
  dueDate : string;
  resourceUrl : option string
}.

(** The entry both the create page and the sync action give an attendee. *)
Definition assigned_entry (attendee : Student.t) (now : Timestamp)
    : StudentAssignmentStatus.t :=
  StudentAssignmentStatus.mk (Some (Student.id attendee)) (Some (Student.name attendee))
    (Some (Student.email attendee)) Assigned (Some EmptyString) (Some EmptyString)
    None None now.

Definition seed (now : Timestamp) (statusMap : gmap string StudentAssignmentStatus.t)
    (attendee : Student.t) : gmap string StudentAssignmentStatus.t :=
  <[Student.id attendee := assigned_entry attendee now]> statusMap.

(** [CreateAssignmentPage.onSubmit]; [newId] is the id [addDoc] generates. *)
Definition onSubmit (db : Db.t) (data : AssignmentFormValues) (newId : string)
    (now : Timestamp) : Db.t :=
  let attendees := getDocs_attendees db in
  let statusMap := foldl (seed now) ∅ attendees in
  Db.with_assignments
    (insert newId
       (Assignment.mk (title data) (description data) (dueDate data)
          (resourceUrl data) now statusMap)) db.

End CreateAssignment.

Module Assignments.

(** [AssignmentsPage.handleDelete] *)
Definition handleDelete (db : Db.t) (assignmentId : string) : Db.t :=
  Db.with_assignments (delete assignmentId) db.

(** [EditAssignmentPage.onSubmit] *)
Definition onEdit (db : Db.t) (id : string) (data : CreateAssignment.AssignmentFormValues)
    : Db.t * Outcome :=
  match Db.assignments db !! id with
  | Some a =>
      (Db.with_assignments
         (insert id
            (Assignment.mk (CreateAssignment.title data)
               (match CreateAssignment.description data with
                | Some x => Some x | None => Assignment.description a end)
               (CreateAssignment.dueDate data)
               (match CreateAssignment.resourceUrl data with
                | Some x => Some x | None => Assignment.resourceUrl a end)
               (Assignment.createdAt a) (Assignment.statusMap a))) db,
       Success)
  | None => (db, Failed)
  end.

End Assignments.

(** ** Track assignment page *)

Module TrackAssignment.

(** The page state: the assignment as last fetched or saved, and the
    working copy of its [statusMap]. *)
Record Page := mkPage {
  assignment : option Assignment.t;
  statusMap : gmap string StudentAssignmentStatus.t
}.

Definition set_updatedAt (now : Timestamp) (e : StudentAssignmentStatus.t)
    : StudentAssignmentStatus.t :=
  StudentAssignmentStatus.mk (StudentAssignmentStatus.studentId e)
    (StudentAssignmentStatus.studentName e) (StudentAssignmentStatus.email e)
    (StudentAssignmentStatus.status e) (StudentAssignmentStatus.grade e)
    (StudentAssignmentStatus.note e) (StudentAssignmentStatus.fileURL e)
    (StudentAssignmentStatus.fileName e) now.

Definition set_statusMap (m : gmap string StudentAssignmentStatus.t) (a : Assignment.t)
    : Assignment.t :=
  Assignment.mk (Assignment.title a) (Assignment.description a) (Assignment.dueDate a)
    (Assignment.resourceUrl a) (Assignment.createdAt a) m.

Definition fetchAssignment (id : string) (db : Db.t) (p : Page) : Page :=
  match Db.assignments db !! id with
  | Some a => mkPage (Some a) (Assignment.statusMap a)
  | None => p
  end.

(** [handleBulkUpdate] *)
Definition handleBulkUpdate (status : AssignmentStatus) (now : Timestamp) (p : Page) : Page :=
  mkPage (assignment p)
    ((λ e, StudentAssignmentStatus.mk (StudentAssignmentStatus.studentId e)
             (StudentAssignmentStatus.studentName e) (StudentAssignmentStatus.email e)
             status (StudentAssignmentStatus.grade e) (StudentAssignmentStatus.note e)
             (StudentAssignmentStatus.fileURL e) (StudentAssignmentStatus.fileName e) now)
       <$> statusMap p).

(** [assignment?.statusMap[studentId]] *)
Definition originalStatus (p : Page) (studentId : string)
    : option StudentAssignmentStatus.t :=
  assignment p ≫= λ a, Assignment.statusMap a !! studentId.

(** The loop of [handleSaveChanges]: an entry whose serialisation differs
    from the one last fetched gets a new [updatedAt]. *)
Definition updatedStatusMap (p : Page) (mapToSave : gmap string StudentAssignmentStatus.t)
    (now : Timestamp) : gmap string StudentAssignmentStatus.t :=
  map_imap (λ studentId currentStatus,
      Some (if decide (originalStatus p studentId = Some currentStatus)
            then currentStatus else set_updatedAt now currentStatus))
    mapToSave.

(** [handleSaveChanges]; [updateDoc] rejects when the assignment is gone,
    which the handler catches. *)
Definition handleSaveChanges (id : string) (db : Db.t) (p : Page)
    (mapToSave : gmap string StudentAssignmentStatus.t) (now : Timestamp)
    : Db.t * Page * Outcome :=
  let updated := updatedStatusMap p mapToSave now in
  match Db.assignments db !! id with
  | Some a =>
      (Db.with_assignments (insert id (set_statusMap updated a)) db,
       mkPage (set_statusMap updated <$> assignment p) (statusMap p),
       Success)
  | None => (db, p, Failed)
  end.

(** The body of [allAttendees.forEach] in [handleSyncAttendees], on the pair
    of [newStatusMap] and [newAttendeesCount]. *)
Definition sync_step (now : Timestamp)
    (acc : gmap string StudentAssignmentStatus.t * nat) (attendee : Student.t)
    : gmap string StudentAssignmentStatus.t * nat :=
  match acc.1 !! Student.id attendee with
  | Some _ => acc
  | None =>
      (<[Student.id attendee := CreateAssignment.assigned_entry attendee now]> acc.1,
       S acc.2)
  end.

Definition sync (allAttendees : list Student.t)
    (statusMap : gmap string StudentAssignmentStatus.t) (now : Timestamp)
    : gmap string StudentAssignmentStatus.t * nat :=
  foldl (sync_step now) (statusMap, 0) allAttendees.

(** [handleSyncAttendees] *)
Definition handleSyncAttendees (id : string) (db : Db.t) (p : Page) (now : Timestamp)
    : Db.t * Page :=
  let allAttendees := getDocs_attendees db in
  let '(newStatusMap, newAttendeesCount) := sync allAttendees (statusMap p) now in
  if decide (0 < newAttendeesCount) then
    let p1 := mkPage (assignment p) newStatusMap in
    let '(db2, p2, _) := handleSaveChanges id db p1 newStatusMap now in
    (db2, fetchAssignment id db2 p2)
  else (db, p).

(** Two entries that differ at most in [updatedAt]. *)
Definition same_content (e e' : StudentAssignmentStatus.t) : Prop :=
  set_updatedAt 0 e = set_updatedAt 0 e'.

End TrackAssignment.

(** ** Student assignments page *)

Module StudentAssignments.

(** [setDoc(ref, {...}, { merge: true })] on a submission: the six fields of
    the payload are written, every other stored field is kept. *)
Definition submission_merge (assignmentId studentId studentEmail notes : string)
    (now : Timestamp) (stored : option Submission.t) : Submission.t :=
  Submission.mk assignmentId studentId studentEmail
    (stored ≫= Submission.fileURL) (stored ≫= Submission.fileName)
    (Some notes) now submitted
    (stored ≫= Submission.grade) (stored ≫= Submission.feedback).

(** The dot-path update [statusMap.<studentId>.{status,note,fileURL,fileName,
    updatedAt}] applied to the entry of the student, if any. *)
Definition submit_entry (old : option StudentAssignmentStatus.t) (note : string)
    (now : Timestamp) : StudentAssignmentStatus.t :=
  StudentAssignmentStatus.mk (old ≫= StudentAssignmentStatus.studentId)
    (old ≫= StudentAssignmentStatus.studentName) (old ≫= StudentAssignmentStatus.email)
    Submitted (old ≫= StudentAssignmentStatus.grade) (Some note)
    (Some EmptyString) (Some EmptyString) now.

Definition submissionId (assignmentId studentId : string) : string :=
  assignmentId +:+ "_" +:+ studentId.

(** [handleSubmitAssignment].  [selectedAssignment] is the listed assignment
    (its id and data), [user] the e-mail of the signed-in principal.  The
    second write rejects when the assignment document is gone; the first
    write is then not undone. *)
Definition handleSubmitAssignment (db : Db.t)
    (selectedAssignment : option (string * Assignment.t))
    (studentProfile : option Student.t) (user : option string)
    (submissionNote : string) (now : Timestamp) : Db.t * option Outcome :=
  match selectedAssignment, studentProfile, user with
  | Some sel, Some profile, Some userEmail =>
      let studentId := Student.id profile in
      let sid := submissionId sel.1 studentId in
      let db1 :=
        Db.with_submissions
          (λ coll, <[sid := submission_merge sel.1 studentId userEmail submissionNote
                              now (coll !! sid)]> coll) db in
      match Db.assignments db1 !! sel.1 with
      | Some a =>
          (Db.with_assignments
             (insert sel.1
                (TrackAssignment.set_statusMap
                   (<[studentId := submit_entry (Assignment.statusMap a !! studentId)
                                     submissionNote now]> (Assignment.statusMap a)) a))
             db1,
           Some Success)
      | None => (db1, Some Failed)
      end
  | _, _, _ => (db, None)
  end.

End StudentAssignments.

(** ** Review submissions page *)

Module ReviewAssignments.

Record Review := mkReview { feedback : string; grade : string }.

Definition graded_submission (r : Review) (s : Submission.t) : Submission.t :=
  Submission.mk (Submission.assignmentId s) (Submission.studentId s)
    (Submission.studentEmail s) (Submission.fileURL s) (Submission.fileName s)
    (Submission.notes s) (Submission.submittedAt s) graded
    (Some (grade r)) (Some (feedback r)).

(** The dot-path update [statusMap.<studentId>.{status,grade,updatedAt}]. *)
Definition grade_entry (old : option StudentAssignmentStatus.t) (g : string)
    (now : Timestamp) : StudentAssignmentStatus.t :=
  StudentAssignmentStatus.mk (old ≫= StudentAssignmentStatus.studentId)
    (old ≫= StudentAssignmentStatus.studentName) (old ≫= StudentAssignmentStatus.email)
    Graded (Some g) (old ≫= StudentAssignmentStatus.note)
    (old ≫= StudentAssignmentStatus.fileURL) (old ≫= StudentAssignmentStatus.fileName) now.

(** [handleSaveReview] on the page of assignment [id].  [submission] is the
    listed submission (its id and data).  Reading the review of a submission
    the page has none for throws before anything is written; each
    [updateDoc] rejects when its document does not exist, and the first one
    is not undone when the second rejects. *)
Definition handleSaveReview (id : string) (db : Db.t) (reviews : gmap string Review)
    (submission : string * Submission.t) (now : Timestamp) : Db.t * Outcome :=
  match reviews !! submission.1 with
  | None => (db, Failed)
  | Some r =>
      match Db.submissions db !! submission.1 with
      | None => (db, Failed)
      | Some s =>
          let db1 := Db.with_submissions (insert submission.1 (graded_submission r s)) db in
          let studentId := Submission.studentId submission.2 in
          match Db.assignments db1 !! id with
          | None => (db1, Failed)
          | Some a =>
              (Db.with_assignments
                 (insert id
                    (TrackAssignment.set_statusMap
                       (<[studentId := grade_entry (Assignment.statusMap a !! studentId)
                                         (grade r) now]> (Assignment.statusMap a)) a))
                 db1,
               Success)
          end
      end
  end.

End ReviewAssignments.

(** ** Summary page *)

Module SummaryPage.

Import PrimFloat.

(** A JavaScript number holding a count (an array length, below 2^32). *)
Definition number_of_nat (n : nat) : float :=
  of_uint63 (Uint63.of_Z (Z.of_nat n)).

(** [Math.round]: the integer nearest to [x], ties towards +infinity; the
    value of the double is taken exactly from its mantissa and exponent. *)
Definition Math_round (x : float) : Z :=
  match FloatOps.Prim2SF x with
  | SpecFloat.S754_finite false m e =>
      if (0 <=? e)%Z then Z.shiftl (Z.pos m) e
      else ((2 * Z.pos m + Z.shiftl 1 (- e)) / Z.shiftl 1 (1 - e))%Z
  | SpecFloat.S754_finite true m e =>
      if (0 <=? e)%Z then (- Z.shiftl (Z.pos m) e)%Z
      else ((- (2 * Z.pos m) + Z.shiftl 1 (- e)) / Z.shiftl 1 (1 - e))%Z
  | _ => 0%Z
  end.

(** [denominator > 0 ? Math.round((present / denominator) * 100) : 0] *)
Definition attendancePercentage (present denominator : nat) : Z :=
  if decide (0 < denominator) then
    Math_round (mul (div (number_of_nat present) (number_of_nat denominator))
                  (number_of_nat 100))
  else 0%Z.

Record SummaryData := mkSummaryData {
  studentId : string;
  studentName : string;
  email : string;
  present : nat;
  absent : nat;
  leave : nat;
  total : nat;
  percentage : Z
}.

Definition count (s : AttendanceStatus) (studentAttendance : list AttendanceRecord.t) : nat :=
  length (filter (λ att, AttendanceRecord.status att = s) studentAttendance).

(** The body of [students.map] in [processSummary]. *)
Definition summary_row (attendanceRecords : gmap string (list AttendanceRecord.t))
    (student : Student.t) : SummaryData :=
  let studentAttendance := default [] (attendanceRecords !! Student.id student) in
  let present := count Present studentAttendance in
  let absent := count Absent studentAttendance in
  let leave := count Leave studentAttendance in
  let denominator := present + absent + leave in
  mkSummaryData (Student.id student) (Student.name student) (Student.email student)
    present absent leave (present + absent + leave)
    (attendancePercentage present denominator).

Definition processSummary (students : list Student.t)
    (attendanceRecords : gmap string (list AttendanceRecord.t)) : list SummaryData :=
  summary_row attendanceRecords <$> students.

(** [present / denominator * 100] rounded to the nearest integer, ties
    upwards, in exact arithmetic. *)
Definition exact_percentage (present denominator : nat) : Z :=
  ((200 * Z.of_nat present + Z.of_nat denominator) / (2 * Z.of_nat denominator))%Z.

(** The check of [attendancePercentage] against [exact_percentage] for every
    [present <= denominator] with [0 < denominator <= bound]. *)
Definition agree_upto (bound : nat) : bool :=
  forallb (λ d, forallb (λ p,
      bool_decide (attendancePercentage p (S d) = exact_percentage p (S d)))
    (seq 0 (S (S d)))) (seq 0 bound).

End SummaryPage.

(** ** Login page: signing up *)

Inductive UserRole := teacher | student.

Global Instance UserRole_eq_dec : EqDecision UserRole.
Proof. solve_decision. Defined.

Module UserProfile.
Record t := mk {
  email : string;
  role : UserRole;
  studentId : option string;
  createdAt : Timestamp
}.
End UserProfile.

Module LoginPage.

(** The character [@]. *)
Definition at_sign : Ascii.ascii := Ascii.ascii_of_nat 64.

(** [email.split('@')[0]] *)
Fixpoint before_at (s : string) : string :=
  match s with
  | EmptyString => EmptyString
  | String c rest => if decide (c = at_sign) then EmptyString else String c (before_at rest)
  end.

(** [handleSignup].  [credential] is what [createUserWithEmailAndPassword]
    returns, the uid and [user.email], or [None] when it rejects; [newId] is
    the id [addDoc] generates.  The second component is the profile written
    to [users/<uid>]. *)
Definition handleSignup (db : Db.t) (selectedRole : UserRole) (email : string)
    (credential : option (string * string)) (newId : string) (now : Timestamp)
    : Db.t * option (string * UserProfile.t) * Outcome :=
  match credential with
  | None => (db, None, Failed)
  | Some user =>
      match selectedRole with
      | student =>
          match Attendees.activeQ db email with
          | d :: _ =>
              (db, Some (user.1, UserProfile.mk user.2 student (Some d.1) now), Success)
          | [] =>
              (Db.with_attendees
                 (insert newId
                    (AttendeeDoc.mk None (before_at email) user.2 (Some now) None)) db,
               Some (user.1, UserProfile.mk user.2 student (Some newId) now),
               Success)
          end
      | teacher => (db, Some (user.1, UserProfile.mk email teacher None now), Success)
      end
  end.

End LoginPage.

(** ** The stores the handlers can produce *)

Inductive step : Db.t → Db.t → Prop :=
| step_attendee_form db e data newId now :
    step db (Attendees.onSubmit db e data newId now).1
| step_soft_delete db a now :
    step db (Attendees.handleSoftDelete db a now).1
| step_restore db a now :
    step db (Attendees.handleRestore db a now).1
| step_link_student db email userEmail studentName newId now :
    step db (Login.linkStudent db email userEmail studentName newId now).1
| step_signup db selectedRole email credential newId now :
    step db (LoginPage.handleSignup db selectedRole email credential newId now).1.1
| step_save_all db attendees attendanceData selectedDate now :
    step db (MarkAttendance.handleSaveAll db attendees attendanceData selectedDate now)
| step_create_assignment db data newId now :
    step db (CreateAssignment.onSubmit db data newId now)
| step_delete_assignment db assignmentId :
    step db (Assignments.handleDelete db assignmentId)
| step_edit_assignment db id data :
    step db (Assignments.onEdit db id data).1
| step_save_changes id db p mapToSave now :
    step db (TrackAssignment.handleSaveChanges id db p mapToSave now).1.1
| step_sync id db p now :
    step db (TrackAssignment.handleSyncAttendees id db p now).1
| step_student_submit db sel profile user note now :
    step db (StudentAssignments.handleSubmitAssignment db sel profile user note now).1
| step_save_review id db reviews submission now :
    step db (ReviewAssignments.handleSaveReview id db reviews submission now).1.

Definition reachable (db : Db.t) : Prop := rtc step Db.empty db.

(** ** Concrete stores and page states used in the examples *)

Module Scenario.

Definition day1 : DateFns.Date := DateFns.mkDate 2024 1 15.

Definition rec1 : AttendanceRecord.t :=
  AttendanceRecord.mk "2024-01-15_s1" "s1" "Ann" "ann@x.com" "2024-01-15" Absent None 7.

Definition db1 : Db.t :=
  Db.with_attendance
    (insert "2024-01-15"
       (AttendanceDoc.mk "2024-01-15" {[ "s1" := rec1 ]} (Summary.mk 0 1 0 1)))
    Db.empty.

Definition roster1 : list Student.t :=
  [Student.mk "s2" "Bob" "bob@x.com" None None;
   Student.mk "s3" "Cy" "cy@x.com" None None].

Definition edits1 : gmap string MarkAttendance.Entry := {[ "s2" := MarkAttendance.mkEntry Present None ]}.

Definition formAnn : Attendees.AttendeeFormValues := Attendees.mkForm "Ann" "a@x.com".
Definition formBob : Attendees.AttendeeFormValues := Attendees.mkForm "Bob" "b@x.com".
Definition formCy : Attendees.AttendeeFormValues := Attendees.mkForm "Cy" "c@x.com".

(** The roster {S1, S2}. *)
Definition db_roster2 : Db.t :=
  (Attendees.onSubmit (Attendees.onSubmit Db.empty None formAnn "S1" 1).1
     None formBob "S2" 2).1.

(** An assignment created on that roster. *)
Definition db_assigned : Db.t :=
  CreateAssignment.onSubmit db_roster2
    (CreateAssignment.mkForm "Essay" None "2024-02-01" None) "A1" 3.

(** S3 joins the roster afterwards. *)
Definition db_roster3 : Db.t := (Attendees.onSubmit db_assigned None formCy "S3" 4).1.

(** The track page of the assignment, freshly loaded, then synced. *)
Definition page_loaded : TrackAssignment.Page :=
  TrackAssignment.fetchAssignment "A1" db_roster3 (TrackAssignment.mkPage None ∅).

Definition synced : Db.t * TrackAssignment.Page :=
  TrackAssignment.handleSyncAttendees "A1" db_roster3 page_loaded 5.

(** A student with 40 counted records, 23 of them [Present]. *)
Definition student40 : Student.t := Student.mk "S1" "Ann" "a@x.com" None None.

Definition record40 (day : nat) (st : AttendanceStatus) : AttendanceRecord.t :=
  AttendanceRecord.mk "r" "S1" "Ann" "a@x.com" "d" st None day.

Definition records40 : gmap string (list AttendanceRecord.t) :=
  {[ "S1" := (((λ day, record40 day Present) <$> seq 0 23)
                ++ ((λ day, record40 day Absent) <$> seq 0 17))%list ]}.

(** A student with three [Present] records and one [Absent] record. *)
Definition records4 : gmap string (list AttendanceRecord.t) :=
  {[ "S1" := [record40 1 Present; record40 2 Present; record40 3 Absent;
              record40 4 Present] ]}.

(** Attendee A (a@x.com) is added and then soft-deleted. *)
Definition db_A : Db.t := (Attendees.onSubmit Db.empty None formAnn "S1" 1).1.

Definition studentA : Student.t := Student.mk "S1" "Ann" "a@x.com" (Some 1) None.

Definition db_deleted : Db.t := (Attendees.handleSoftDelete db_A studentA 3).1.

Definition archivedA : ArchivedDoc.t :=
  ArchivedDoc.mk (Some "S1") "S1" "Ann" "a@x.com" (Some 1) 3 None.

(** A student signs up with the e-mail of the archived attendee. *)
Definition db_signup : Db.t := (Login.linkStudent db_deleted "a@x.com" "a@x.com" "a" "S9" 4).1.

Definition formBea : Attendees.AttendeeFormValues := Attendees.mkForm "Bea" "a@x.com".
Definition formUpper : Attendees.AttendeeFormValues := Attendees.mkForm "Ann" "A@x.com".

(** S1 submits the essay, and the teacher grades it. *)
Definition essay : Assignment.t := Assignment.mk "Essay" None "2024-02-01" None 3 ∅.

Definition db_submitted : Db.t :=
  (StudentAssignments.handleSubmitAssignment db_assigned (Some ("A1", essay))
     (Some studentA) (Some "a@x.com") "my essay" 6).1.

Definition submissionS1 : Submission.t :=
  Submission.mk "A1" "S1" "a@x.com" None None (Some "my essay") 6 submitted None None.

Definition reviews1 : gmap string ReviewAssignments.Review :=
  {[ "A1_S1" := ReviewAssignments.mkReview "well argued" "A" ]}.

(** S1 submits after the track page was loaded, and the teacher then syncs
    from that page. *)
Definition db_late_submit : Db.t :=
  (StudentAssignments.handleSubmitAssignment db_roster3 (Some ("A1", essay))
     (Some studentA) (Some "a@x.com") "my essay" 6).1.

Definition synced_stale : Db.t * TrackAssignment.Page :=
  TrackAssignment.handleSyncAttendees "A1" db_late_submit page_loaded 7.

(** The teacher adds an attendee with a@x.com under the id c2; a student
    then signs up typing A@x.com for an account whose e-mail is a@x.com,
    and gets the id b2. *)
Definition db_two_holders : Db.t :=
  (LoginPage.handleSignup (Attendees.onSubmit Db.empty None formAnn "c2" 1).1
     student "A@x.com" (Some ("u1", "a@x.com")) "b2" 2).1.1.

(** Four days of January 2024 and one of February, saved for one student:
    three times [Present] and once [Absent] in January. *)
Definition edits (st : AttendanceStatus) : gmap string MarkAttendance.Entry :=
  {[ "S1" := MarkAttendance.mkEntry st None ]}.

Definition db_january : Db.t :=
  MarkAttendance.handleSaveAll
    (MarkAttendance.handleSaveAll
       (MarkAttendance.handleSaveAll
          (MarkAttendance.handleSaveAll
             (MarkAttendance.handleSaveAll Db.empty [student40] (edits Present)
                (DateFns.mkDate 2024 1 15) 1)
             [student40] (edits Present) (DateFns.mkDate 2024 1 16) 2)
          [student40] (edits Absent) (DateFns.mkDate 2024 1 17) 3)
       [student40] (edits Present) (DateFns.mkDate 2024 1 18) 4)
    [student40] (edits Absent) (DateFns.mkDate 2024 2 1) 5.

End Scenario.

(** ** Mark attendance page: loading a day, mark all, clear all *)

Module MarkAttendancePage.
Import MarkAttendance.

(** The page entry made from a stored record. *)
Definition entry_of_record (rec : AttendanceRecord.t) : Entry :=
  mkEntry (AttendanceRecord.status rec)
    (Some (or_str (AttendanceRecord.note rec) EmptyString)).

(** [fetchAttendanceForDate]: the [attendanceData] the page shows after
    loading the selected day. *)
Definition fetchAttendanceForDate (db : Db.t) (selectedDate : DateFns.Date)
    : gmap string Entry :=
  match Db.attendance db !! DateFns.format selectedDate with
  | Some d => entry_of_record <$> AttendanceDoc.records d
  | None => ∅
  end.

(** [handleClearSelections] *)
Definition handleClearSelections : gmap string Entry := ∅.

(** [handleMarkAll] *)
Definition handleMarkAll (attendees : list Student.t) (attendanceData : gmap string Entry)
    (status : AttendanceStatus) : gmap string Entry :=
  foldl (λ newAttendanceData attendee,
      <[Student.id attendee :=
          mkEntry status
            (Some (or_str (attendanceData !! Student.id attendee ≫= note) EmptyString))]>
        newAttendanceData)
    ∅ attendees.

End MarkAttendancePage.

(** ** Dashboard: the summary of the selected day *)

Module Dashboard.

(** [fetchSummary]: the stored summary of the day, zeros when the day has no
    document. *)
Definition fetchSummary (db : Db.t) (selectedDate : DateFns.Date) : Summary.t :=
  match Db.attendance db !! DateFns.format selectedDate with
  | Some d => AttendanceDoc.summary d
  | None => Summary.mk 0 0 0 0
  end.

End Dashboard.

(** ** Student attendance page *)

Module StudentAttendance.

Definition with_date (date : string) (rec : AttendanceRecord.t) : AttendanceRecord.t :=
  AttendanceRecord.mk (AttendanceRecord.id rec) (AttendanceRecord.studentId rec)
    (AttendanceRecord.studentName rec) (AttendanceRecord.email rec) date
    (AttendanceRecord.status rec) (AttendanceRecord.note rec)
    (AttendanceRecord.updatedAt rec).

(** The loop of [fetchStudentAttendance]: one record per day document that
    has an entry under the student's id, dated with the document id. *)
Definition records (db : Db.t) (studentId : string) : list AttendanceRecord.t :=
  omap (λ kd : string * AttendanceDoc.t,
          with_date kd.1 <$> (AttendanceDoc.records kd.2 !! studentId))
    (getDocs (Db.attendance db)).

(** [fetchStudentAttendance]: the new [allRecords], or [None] when there is
    no student profile and the page keeps what it has.  [sort] stands for
    [records.sort((a, b) => b.date.localeCompare(a.date))]. *)
Definition fetchStudentAttendance
    (sort : list AttendanceRecord.t → list AttendanceRecord.t)
    (db : Db.t) (studentProfile : option Student.t) : option (list AttendanceRecord.t) :=
  (λ profile, sort (records db (Student.id profile))) <$> studentProfile.

End StudentAttendance.

(** ** Summary page: the daily view *)

Module SummaryDaily.

(** The body of [Object.values(data.records).forEach] in [fetchAttendance]. *)
Definition group_step (newRecords : gmap string (list AttendanceRecord.t))
    (rec : AttendanceRecord.t) : gmap string (list AttendanceRecord.t) :=
  <[AttendanceRecord.studentId rec :=
      (default [] (newRecords !! AttendanceRecord.studentId rec) ++ [rec])%list]> newRecords.

(** [fetchAttendance] in the daily view. *)
Definition fetchAttendance (db : Db.t) (selectedDate : DateFns.Date)
    : gmap string (list AttendanceRecord.t) :=
  match Db.attendance db !! DateFns.format selectedDate with
  | Some d => foldl group_step ∅ (map_to_list (AttendanceDoc.records d)).*2
  | None => ∅
  end.

(** The counts a single record contributes. *)
Definition indicator (s st : AttendanceStatus) : nat := if decide (st = s) then 1 else 0.

(** The check that, for every [present <= denominator <= bound], the
    percentage is 100 exactly at [present = denominator], 0 exactly at
    [present = 0], and between 0 and 100. *)
Definition extremes_upto (bound : nat) : bool :=
  forallb (λ d, forallb (λ p,
      let r := SummaryPage.attendancePercentage p (S d) in
      bool_decide ((r = 100%Z ↔ p = S d) ∧ (r = 0%Z ↔ p = 0) ∧ (0 ≤ r ≤ 100)%Z))
    (seq 0 (S (S d)))) (seq 0 bound).

End SummaryDaily.

(** ** Summary page: the monthly view *)

Module SummaryMonthly.
Import DateFns.

(** [where("date", ">=", startDate), where("date", "<=", endDate)]: the
    store compares strings byte by byte. *)
Definition inRange (startDate endDate : string) (kd : string * AttendanceDoc.t) : Prop :=
  String.leb startDate (AttendanceDoc.date kd.2) = true ∧
  String.leb (AttendanceDoc.date kd.2) endDate = true.

Global Instance inRange_dec startDate endDate kd : Decision (inRange startDate endDate kd).
Proof. unfold inRange. apply _. Defined.

(** A query with a range filter lists the documents by the filtered field,
    and by document id among equal values. *)
Definition date_le (x y : string * AttendanceDoc.t) : Prop :=
  match String.compare (AttendanceDoc.date x.2) (AttendanceDoc.date y.2) with
  | Lt => True
  | Eq => id_le x y
  | Gt => False
  end.

Global Instance date_le_dec x y : Decision (date_le x y).
Proof. unfold date_le. destruct (String.compare _ _); apply _. Defined.

(** The documents of the selected month. *)
Definition monthDocs (db : Db.t) (selectedMonth : Date) : list (string * AttendanceDoc.t) :=
  let startDate := format (startOfMonth selectedMonth) in
  let endDate := format (endOfMonth selectedMonth) in
  merge_sort date_le (filter (inRange startDate endDate) (map_to_list (Db.attendance db))).

(** [fetchAttendance] in the monthly view. *)
Definition fetchAttendance (db : Db.t) (selectedMonth : Date)
    : gmap string (list AttendanceRecord.t) :=
  foldl SummaryDaily.group_step ∅
    (monthDocs db selectedMonth ≫= λ kd, (map_to_list (AttendanceDoc.records kd.2)).*2).

End SummaryMonthly.

(** ** Summary page: the records [processSummary] receives *)

Module SummaryView.

Inductive ViewMode := daily | monthly.

(** [fetchAttendance]: the [attendanceRecords] of the page after a fetch. *)
Definition fetchAttendance (db : Db.t) (viewMode : ViewMode)
    (selectedDate selectedMonth : DateFns.Date) : gmap string (list AttendanceRecord.t) :=
  match viewMode with
  | daily => SummaryDaily.fetchAttendance db selectedDate
  | monthly => SummaryMonthly.fetchAttendance db selectedMonth
  end.

(** Every day document is keyed by a calendar date, as the mark attendance
    page, whose selected date is a JavaScript [Date], writes them. *)
Definition calendar_keys (db : Db.t) : Prop :=
  ∀ dateStr, is_Some (Db.attendance db !! dateStr) →
    ∃ date, DateFns.calendar date ∧ dateStr = DateFns.format date.

End SummaryView.

(** ** Attendees page: what the e-mail check maintains *)

Module AttendeesInv.

(** No two active attendees hold the same e-mail. *)
Definition active_unique (db : Db.t) : Prop :=
  ∀ k1 k2 d1 d2,
    Db.attendees db !! k1 = Some d1 → Db.attendees db !! k2 = Some d2 →
    AttendeeDoc.email d1 = AttendeeDoc.email d2 → k1 = k2.

(** The e-mails of the active attendees, one per document. *)
Definition active_emails (db : Db.t) : list string :=
  (λ kd : string * AttendeeDoc.t, AttendeeDoc.email kd.2) <$> map_to_list (Db.attendees db).

End AttendeesInv.

(** ** Track assignment page: the counters above the table *)

Module TrackSummary.

Record t := mk { total : nat; assigned : nat; submitted : nat; graded : nat }.

Definition count (s : AssignmentStatus) (values : list StudentAssignmentStatus.t) : nat :=
  length (filter (λ v, StudentAssignmentStatus.status v = s) values).

(** The [summary] memo of the page. *)
Definition summary (statusMap : gmap string StudentAssignmentStatus.t) : t :=
  let values := (map_to_list statusMap).*2 in
  mk (length values) (count Assigned values) (count Submitted values) (count Graded values).

End TrackSummary.

(** ** Student assignments page: opening the submit dialog *)

Module SubmitDialog.

(** [handleOpenSubmitDialog]: the new [submissionNote], or [None] when there
    is no student profile and nothing is set. *)
Definition handleOpenSubmitDialog (assignment : string * Assignment.t)
    (studentProfile : option Student.t) : option string :=
  (λ profile,
     or_str (Assignment.statusMap assignment.2 !! Student.id profile
               ≫= StudentAssignmentStatus.note) EmptyString) <$> studentProfile.

End SubmitDialog.

(** ** Review page: the submissions of an assignment and their reviews *)

Module ReviewSnapshot.

(** [query(collection(db, "submissions"), where("assignmentId", "==", id))] *)
Definition submissions (db : Db.t) (id : string) : list (string * Submission.t) :=
  filter (λ kd, Submission.assignmentId kd.2 = id) (getDocs (Db.submissions db)).

(** The [initialReviews] the snapshot listener builds. *)
Definition initialReviews (subs : list (string * Submission.t))
    : gmap string ReviewAssignments.Review :=
  foldl (λ acc sub,
      <[sub.1 := ReviewAssignments.mkReview
                   (or_str (Submission.feedback sub.2) EmptyString)
                   (or_str (Submission.grade sub.2) EmptyString)]> acc)
    ∅ subs.

End ReviewSnapshot.

(** ** Route guard *)

Module AuthGuard.

Definition publicPaths : list string := ["/login"].
Definition teacherPaths : list string :=
  ["/"; "/attendees"; "/mark-attendance"; "/assignments"; "/summary"].
Definition studentPaths : list string :=
  ["/student"; "/student/attendance"; "/student/assignments"].

(** [pathname.startsWith(p)] *)
Definition startsWith (pathname p : string) : bool := String.prefix p pathname.

Definition isTeacherRoute (pathname : string) : bool :=
  existsb (λ p, if decide (p = "/") then bool_decide (pathname = "/")
                else startsWith pathname p) teacherPaths.

Definition isStudentRoute (pathname : string) : bool :=
  existsb (λ p, startsWith pathname p) studentPaths.

(** The effect of the guard: the [router.replace] calls it makes, in order.
    [user] tells whether a principal is signed in. *)
Definition redirects (loading user : bool) (userRole : option UserRole)
    (pathname : string) : list string :=
  let isPublicPath := bool_decide (pathname ∈ publicPaths) in
  if loading then []
  else if user && isPublicPath then
    [if decide (userRole = Some teacher) then "/" else "/student"]
  else if negb user && negb isPublicPath then ["/login"]
  else if user then
    ((if bool_decide (userRole = Some student) && isTeacherRoute pathname
      then ["/student"] else [])
     ++ (if bool_decide (userRole = Some teacher) && isStudentRoute pathname
         then ["/"] else []))%list
  else [].

End AuthGuard.

(** ** Exporting the summary: [handleExport] and [downloadCsv] *)

Module Csv.

(** A cell of an exported row: [null], a string or a number (a count or a
    percentage, an integer). *)
Inductive Value := VNull | VString (s : string) | VNumber (n : Z).

Definition comma : Ascii.ascii := Ascii.ascii_of_nat 44.
Definition quote : Ascii.ascii := Ascii.ascii_of_nat 34.
Definition CRLF : string :=
  String (Ascii.ascii_of_nat 13) (String (Ascii.ascii_of_nat 10) EmptyString).

(** [field.includes(c)] for a single character. *)
Fixpoint includes (c : Ascii.ascii) (s : string) : bool :=
  match s with
  | EmptyString => false
  | String a rest => if decide (a = c) then true else includes c rest
  end.

(** [row[fieldName]] on an object given by its keys and values in order. *)
Fixpoint get (row : list (string * Value)) (fieldName : string) : option Value :=
  match row with
  | [] => None
  | kv :: rest => if decide (kv.1 = fieldName) then Some kv.2 else get rest fieldName
  end.

(** [String(n)] for an integer. *)
Definition number_to_string (n : Z) : string := NilZero.string_of_int (Z.to_int n).

(** The text of one field of a line. *)
Definition field (row : list (string * Value)) (fieldName : string) : string :=
  match get row fieldName with
  | None | Some VNull => EmptyString
  | Some (VString s) =>
      if includes comma s then String quote (s +:+ String quote EmptyString) else s
  | Some (VNumber n) => number_to_string n
  end.

(** [Array.prototype.join] *)
Fixpoint join (sep : string) (l : list string) : string :=
  match l with
  | [] => EmptyString
  | [x] => x
  | x :: rest => x +:+ sep +:+ join sep rest
  end.

(** [downloadCsv]: the text handed to the browser as the file, or [None]
    when there is no data and nothing is downloaded. *)
Definition csvString (data : list (list (string * Value))) : option string :=
  match data with
  | [] => None
  | first :: _ =>
      let headers := first.*1 in
      Some (join CRLF
              (join (String comma EmptyString) headers
               :: ((λ row, join (String comma EmptyString) (field row <$> headers))
                     <$> data)))
  end.

(** A reader of a line: the pieces between the occurrences of [c]. *)
Fixpoint split (c : Ascii.ascii) (s : string) : list string :=
  match s with
  | EmptyString => [EmptyString]
  | String a rest =>
      if decide (a = c) then EmptyString :: split c rest
      else match split c rest with
           | h :: t => String a h :: t
           | [] => [String a EmptyString]
           end
  end.

(** The row [handleExport] makes of a line of the summary. *)
Definition exportRow (d : SummaryPage.SummaryData) : list (string * Value) :=
  [("Student", VString (SummaryPage.studentName d));
   ("Email", VString (SummaryPage.email d));
   ("Present", VNumber (Z.of_nat (SummaryPage.present d)));
   ("Absent", VNumber (Z.of_nat (SummaryPage.absent d)));
   ("Leave", VNumber (Z.of_nat (SummaryPage.leave d)));
   ("Attendance %", VNumber (SummaryPage.percentage d))].

(** [handleExport] on the rows the page shows. *)
Definition handleExport (filteredData : list SummaryPage.SummaryData) : option string :=
  csvString (exportRow <$> filteredData).

End Csv.

(** * Properties *)

(** ** Counting the values of a finite map *)

Section map_values.
Context {V : Type}.
Implicit Types m : gmap string V.

Lemma size_filter_values (P : V → Prop) `{!∀ v, Decision (P v)}
    `{!∀ kv : string * V, Decision (P kv.2)} m :
  size (filter (λ kv : string * V, P kv.2) m) = length (filter P (map_to_list m).*2).
Proof.
  induction m as [|i x m Hi IH] using map_ind.
  - by rewrite map_filter_empty, map_to_list_empty.
  - rewrite (map_to_list_insert m i x Hi), fmap_cons, filter_cons. simpl.
    destruct (decide (P x)) as [HP|HP].
    + rewrite map_filter_insert_True by done.
      rewrite map_size_insert_None by (by rewrite map_lookup_filter_None; left).
      simpl. by rewrite IH.
    + rewrite map_filter_insert_not'; [by rewrite IH | done | intros y Hy; congruence].
Qed.

Lemma size_values m : size m = length (map_to_list m).*2.
Proof. by rewrite length_fmap, length_map_to_list. Qed.

End map_values.

Lemma NoDup_fmap_elem_inj {A B} (f : A → B) (l : list A) x y :
  NoDup (f <$> l) → x ∈ l → y ∈ l → f x = f y → x = y.
Proof.
  induction l as [|z l IH]; [by intros _ ?%elem_of_nil|].
  rewrite fmap_cons, NoDup_cons.
  intros [Hz Hnd] [->|Hx]%elem_of_cons [->|Hy]%elem_of_cons Hf; auto.
  - destruct Hz. rewrite Hf. by apply list_elem_of_fmap_2.
  - destruct Hz. rewrite <- Hf. by apply list_elem_of_fmap_2.
Qed.

(** ** The order of a listing *)

Lemma leb_trans (a b c : string) :
  String.leb a b = true → String.leb b c = true → String.leb a c = true.
Proof.
  unfold String.leb.
  destruct (String.compare a b) eqn:Hab; [| |done].
  - apply String.compare_eq_iff in Hab as ->. done.
  - destruct (String.compare b c) eqn:Hbc; [| |done].
    + apply String.compare_eq_iff in Hbc as <-. by rewrite Hab.
    + intros _ _.
      assert (String.compare a c = Lt) as ->; [|done].
      exact (@transitivity _ _
               (@StrictOrder_Transitive _ _ OrdersEx.String_as_OT.lt_strorder)
               a b c Hab Hbc).
Qed.

Section listing.
Context {V : Type}.
Implicit Types m : gmap string V.

Local Instance id_le_trans : Transitive (@id_le V).
Proof. intros x y z. apply leb_trans. Qed.

Local Instance id_le_total : Total (@id_le V).
Proof. intros x y. apply String.leb_total. Qed.

Lemma getDocs_Permutation m : getDocs m ≡ₚ map_to_list m.
Proof. apply merge_sort_Permutation. Qed.

Lemma elem_of_getDocs m k v : (k, v) ∈ getDocs m ↔ m !! k = Some v.
Proof. by rewrite getDocs_Permutation, elem_of_map_to_list. Qed.

Lemma NoDup_getDocs m : NoDup (getDocs m).
Proof. rewrite getDocs_Permutation. apply NoDup_map_to_list. Qed.

Lemma NoDup_fst_getDocs m : NoDup (getDocs m).*1.
Proof. rewrite getDocs_Permutation. apply NoDup_fst_map_to_list. Qed.

Lemma length_getDocs m : length (getDocs m) = size m.
Proof. by rewrite getDocs_Permutation, length_map_to_list. Qed.

Lemma getDocs_filter_sorted (P : string * V → Prop) `{!∀ x, Decision (P x)} m :
  StronglySorted id_le (filter P (getDocs m)).
Proof.
  assert (StronglySorted id_le (getDocs m)) as Hs
    by (apply (StronglySorted_merge_sort id_le); apply _).
  induction Hs as [|y l' Hs IH Hall]; [constructor|].
  rewrite filter_cons. case_decide; [|exact IH].
  apply SSorted_cons; [exact IH|].
  rewrite Forall_forall in *. intros z [_ Hz]%list_elem_of_filter. by apply Hall.
Qed.

(** The first document of a filtered listing has the least id among the
    documents that pass the filter. *)
Lemma getDocs_filter_head (P : string * V → Prop) `{!∀ x, Decision (P x)} m x l :
  filter P (getDocs m) = x :: l →
  m !! x.1 = Some x.2 ∧ P x ∧
  ∀ k v, m !! k = Some v → P (k, v) → String.leb x.1 k = true.
Proof.
  intros Hf.
  assert (x ∈ filter P (getDocs m)) as Hx by (rewrite Hf; apply list_elem_of_here).
  apply list_elem_of_filter in Hx as [HP Hx]. destruct x as [kx vx].
  apply elem_of_getDocs in Hx. split; [done|]. split; [done|].
  intros k v Hk HPk. simpl.
  pose proof (getDocs_filter_sorted P m) as Hs.
  rewrite Hf in Hs. apply StronglySorted_inv in Hs as [_ Hall].
  assert ((k, v) ∈ (kx, vx) :: l) as Hin.
  { rewrite <- Hf. apply list_elem_of_filter. split; [done|]. by apply elem_of_getDocs. }
  apply elem_of_cons in Hin as [[= -> ->]|Hin].
  - destruct (String.leb_total kx kx); done.
  - rewrite Forall_forall in Hall. by apply (Hall (k, v)).
Qed.

End listing.

(** ** Mark attendance: [handleSaveAll] *)

Module MarkAttendanceFacts.
Import MarkAttendance.

Lemma tally_foldl (l : list AttendanceRecord.t) (s : Summary.t) :
  let s' := foldl tally_step s l in
  Summary.present s' = Summary.present s + SummaryPage.count Present l ∧
  Summary.absent s' = Summary.absent s + SummaryPage.count Absent l ∧
  Summary.leave s' = Summary.leave s + SummaryPage.count Leave l.
Proof.
  revert s. induction l as [|rec l IH]; intros s; simpl.
  - unfold SummaryPage.count. simpl. lia.
  - specialize (IH (tally_step s rec)). simpl in IH.
    unfold SummaryPage.count in *. rewrite !filter_cons.
    unfold tally_step in *.
    destruct (AttendanceRecord.status rec); simpl in *;
      repeat case_decide; try done; simpl; lia.
Qed.

Lemma count_partition (l : list AttendanceRecord.t) :
  SummaryPage.count Present l + SummaryPage.count Absent l + SummaryPage.count Leave l
  = length l.
Proof.
  unfold SummaryPage.count. induction l as [|rec l IH]; [done|].
  rewrite !filter_cons. destruct (AttendanceRecord.status rec);
    repeat case_decide; try done; simpl; lia.
Qed.

Lemma count_status_values s (records : gmap string AttendanceRecord.t) :
  count_status s records = SummaryPage.count s (map_to_list records).*2.
Proof.
  unfold count_status, SummaryPage.count.
  apply (size_filter_values (λ rec, AttendanceRecord.status rec = s)).
Qed.

Lemma summarize_tally (records : gmap string AttendanceRecord.t) :
  Summary.present (summarize records) = count_status Present records ∧
  Summary.absent (summarize records) = count_status Absent records ∧
  Summary.leave (summarize records) = count_status Leave records ∧
  Summary.total (summarize records) = size records ∧
  Summary.present (summarize records) + Summary.absent (summarize records)
    + Summary.leave (summarize records) = size records.
Proof.
  unfold summarize. simpl.
  destruct (tally_foldl (map_to_list records).*2 (Summary.mk 0 0 0 0)) as (Hp & Ha & Hl).
  simpl in *. rewrite Hp, Ha, Hl, !count_status_values.
  repeat split; try done.
  rewrite size_values. apply count_partition.
Qed.

Section save.
Variables (dateStr : string) (attendanceData : gmap string Entry) (now : Timestamp).

Lemma last_listed_snoc attendees a k :
  last_listed (attendees ++ [a]) k =
  if decide (Student.id a = k) then Some a else last_listed attendees k.
Proof.
  unfold last_listed. rewrite filter_app, filter_cons, filter_nil.
  case_decide; [by rewrite last_snoc | by rewrite app_nil_r].
Qed.

Lemma last_listed_Some attendees k a :
  last_listed attendees k = Some a → a ∈ attendees ∧ Student.id a = k.
Proof.
  unfold last_listed. intros H%last_Some_elem_of.
  apply list_elem_of_filter in H as [? ?]. by split.
Qed.

Lemma last_listed_None attendees k :
  last_listed attendees k = None ↔ ∀ a, a ∈ attendees → Student.id a ≠ k.
Proof.
  unfold last_listed. rewrite last_None. split.
  - intros H a Ha Hk. assert (a ∈ filter (λ a, Student.id a = k) attendees) as Hin
      by (by apply list_elem_of_filter).
    rewrite H in Hin. by apply not_elem_of_nil in Hin.
  - intros H. apply elem_of_nil_inv. intros a [? ?]%list_elem_of_filter. naive_solver.
Qed.

(** What the loop of [handleSaveAll] leaves under each key. *)
Lemma upsert_lookup attendees (records : gmap string AttendanceRecord.t) k :
  foldl (upsert dateStr attendanceData now) records attendees !! k =
  match last_listed attendees k, attendanceData !! k with
  | Some a, Some e => Some (new_record dateStr a e now)
  | _, _ => records !! k
  end.
Proof.
  induction attendees as [|a attendees IH] using rev_ind; [done|].
  rewrite foldl_snoc, last_listed_snoc. unfold upsert at 1.
  destruct (decide (Student.id a = k)) as [<-|Hne].
  - destruct (attendanceData !! Student.id a) as [e|] eqn:He.
    + by rewrite lookup_insert_eq.
    + rewrite IH. by destruct (last_listed attendees (Student.id a)).
  - destruct (attendanceData !! Student.id a) as [e|]; [|done].
    by rewrite lookup_insert_ne.
Qed.

Lemma not_chosen_lookup attendees records k :
  ¬ chosen attendees attendanceData k →
  foldl (upsert dateStr attendanceData now) records attendees !! k = records !! k.
Proof.
  intros Hn. rewrite upsert_lookup.
  destruct (last_listed attendees k) as [a|] eqn:Ha; [|done].
  destruct (attendanceData !! k) as [e|] eqn:He; [|done].
  destruct Hn. apply last_listed_Some in Ha as [? ?]. exists a. by rewrite He.
Qed.

Lemma merge_record_id new old :
  (new = old ∨ is_Some (AttendanceRecord.note new)) → merge_record new old = new.
Proof.
  intros [->|[n Hn]]; unfold merge_record.
  - destruct old as [? ? ? ? ? ? [?|] ?]; done.
  - rewrite Hn. destruct new; simpl in *; by subst.
Qed.

End save.

(** An id without an entry in [attendanceData] has no chosen status. *)
Lemma no_entry_not_chosen attendees (attendanceData : gmap string Entry) k :
  attendanceData !! k = None → ¬ chosen attendees attendanceData k.
Proof. intros Hk (a & _ & _ & [e He]). congruence. Qed.

(** Typing a note for an attendee that has no entry yet creates the entry
    with status [Present]: from then on the page shows that status as
    chosen, and [handleSaveAll] saves it. *)
Lemma handleAttendanceChange_note_first attendeeId n (prev : gmap string Entry) :
  prev !! attendeeId = None →
  handleAttendanceChange attendeeId (SetNote n) prev !! attendeeId
    = Some (mkEntry Present (Some n)).
Proof.
  intros Hp. unfold handleAttendanceChange. rewrite Hp. simpl. apply lookup_insert_eq.
Qed.

(** The merging write stores the payload as it is: the payload was built on
    top of the stored records. *)
Lemma setDoc_merge_payload db attendees attendanceData dateStr now :
  setDoc_merge (docPayload db attendees attendanceData dateStr now)
    (Db.attendance db !! dateStr)
  = docPayload db attendees attendanceData dateStr now.
Proof.
  unfold setDoc_merge, docPayload, existingRecords.
  destruct (Db.attendance db !! dateStr) as [old|]; [|done].
  simpl. f_equal. apply map_eq. intros k.
  rewrite lookup_union_with, upsert_lookup.
  destruct (last_listed attendees k) as [a|], (attendanceData !! k) as [e|],
    (AttendanceDoc.records old !! k) as [o|]; simpl; try done;
    f_equal; apply merge_record_id; eauto.
Qed.

Lemma handleSaveAll_lookup db attendees attendanceData selectedDate now :
  Db.attendance (handleSaveAll db attendees attendanceData selectedDate now)
    !! DateFns.format selectedDate
  = Some (docPayload db attendees attendanceData (DateFns.format selectedDate) now).
Proof.
  unfold handleSaveAll. simpl. by rewrite lookup_insert_eq, setDoc_merge_payload.
Qed.

Lemma handleSaveAll_lookup_ne db attendees attendanceData selectedDate now k :
  k ≠ DateFns.format selectedDate →
  Db.attendance (handleSaveAll db attendees attendanceData selectedDate now) !! k
  = Db.attendance db !! k.
Proof. intros Hk. unfold handleSaveAll. simpl. by rewrite lookup_insert_ne. Qed.

End MarkAttendanceFacts.

Module SaveDay.
Import MarkAttendance MarkAttendanceFacts Scenario.

(** C1. After every [handleSaveAll] the day document stored under the date
    key carries a summary that is the tally of its records: [present],
    [absent] and [leave] are the numbers of records with that status,
    [total] is the number of records, and the three counts add up to it;
    for every stored document and every page state. *)
Theorem handleSaveAll_summary_tally db attendees attendanceData selectedDate now :
  ∃ d,
    Db.attendance (handleSaveAll db attendees attendanceData selectedDate now)
      !! DateFns.format selectedDate = Some d ∧
    Summary.present (AttendanceDoc.summary d)
      = count_status Present (AttendanceDoc.records d) ∧
    Summary.absent (AttendanceDoc.summary d)
      = count_status Absent (AttendanceDoc.records d) ∧
    Summary.leave (AttendanceDoc.summary d)
      = count_status Leave (AttendanceDoc.records d) ∧
    Summary.total (AttendanceDoc.summary d) = size (AttendanceDoc.records d) ∧
    Summary.present (AttendanceDoc.summary d) + Summary.absent (AttendanceDoc.summary d)
      + Summary.leave (AttendanceDoc.summary d) = size (AttendanceDoc.records d).
Proof.
  eexists. split; [apply handleSaveAll_lookup|].
  unfold docPayload. simpl. apply summarize_tally.
Qed.

(** C2. [handleSaveAll] merges the page's choices into the stored day
    document: a stored record whose attendee has no chosen status is kept as
    it is; an attendee with a chosen status gets the record built from the
    choice; and no record appears for an id that had none and has no chosen
    status.  An id has a chosen status ([chosen]) when it is the id of a
    listed attendee and [attendanceData] has an entry for it. *)
Theorem handleSaveAll_merge db attendees attendanceData selectedDate now :
  ∃ d,
    Db.attendance (handleSaveAll db attendees attendanceData selectedDate now)
      !! DateFns.format selectedDate = Some d ∧
    (∀ k rec,
       existingRecords db (DateFns.format selectedDate) !! k = Some rec →
       ¬ chosen attendees attendanceData k →
       AttendanceDoc.records d !! k = Some rec) ∧
    (∀ a e,
       a ∈ attendees → attendanceData !! Student.id a = Some e →
       ∃ a', a' ∈ attendees ∧ Student.id a' = Student.id a ∧
         (NoDup (Student.id <$> attendees) → a' = a) ∧
         AttendanceDoc.records d !! Student.id a
           = Some (new_record (DateFns.format selectedDate) a' e now)) ∧
    (∀ k,
       existingRecords db (DateFns.format selectedDate) !! k = None →
       ¬ chosen attendees attendanceData k →
       AttendanceDoc.records d !! k = None).
Proof.
  eexists. split; [apply handleSaveAll_lookup|].
  unfold docPayload. simpl. split; [|split].
  - intros k rec Hk Hn. by rewrite not_chosen_lookup.
  - intros a e Ha He. rewrite upsert_lookup, He.
    destruct (last_listed attendees (Student.id a)) as [a'|] eqn:Hl.
    + apply last_listed_Some in Hl as Hl'. destruct Hl' as [Hin Hid].
      exists a'. repeat split; try done.
      intros Hnd. by apply (NoDup_fmap_elem_inj Student.id attendees).
    + rewrite last_listed_None in Hl. by destruct (Hl a Ha).
  - intros k Hk Hn. by rewrite not_chosen_lookup.
Qed.

Lemma handleSaveAll_merge_witness :
  ∃ d,
    Db.attendance (handleSaveAll db1 roster1 edits1 day1 9) !! "2024-01-15" = Some d ∧
    AttendanceDoc.records d !! "s1" = Some rec1 ∧
    AttendanceDoc.records d !! "s2"
      = Some (AttendanceRecord.mk "2024-01-15_s2" "s2" "Bob" "bob@x.com" "2024-01-15"
                Present (Some EmptyString) 9) ∧
    AttendanceDoc.records d !! "s3" = None.
Proof.
  destruct (handleSaveAll_merge db1 roster1 edits1 day1 9)
    as (d & Hd & Hkeep & Hup & Hskip).
  exists d. split; [exact Hd|]. split; [|split].
  - apply Hkeep; [reflexivity|].
    intros (a & Hin & Hid & _).
    repeat (apply elem_of_cons in Hin as [->|Hin]); try discriminate.
    by apply elem_of_nil in Hin.
  - destruct (Hup (Student.mk "s2" "Bob" "bob@x.com" None None) (mkEntry Present None))
      as (a' & _ & _ & Heq & Hrec); [apply list_elem_of_here | reflexivity |].
    rewrite Heq in Hrec; [exact Hrec|].
    compute_done.
  - apply Hskip; [reflexivity|].
    intros (a & _ & _ & [e He]). vm_compute in He. discriminate.
Defined.

(** No handler other than [handleSaveAll] writes to [attendance]. *)
Lemma step_attendance db db' :
  step db db' →
  Db.attendance db' = Db.attendance db ∨
  ∃ attendees attendanceData selectedDate now,
    db' = handleSaveAll db attendees attendanceData selectedDate now.
Proof.
  destruct 1; try (right; by eauto); left.
  - unfold Attendees.onSubmit. by repeat case_match.
  - unfold Attendees.handleSoftDelete. by repeat case_match.
  - unfold Attendees.handleRestore. by repeat case_match.
  - unfold Login.linkStudent. by repeat case_match.
  - unfold LoginPage.handleSignup. by repeat case_match.
  - done.
  - done.
  - unfold Assignments.onEdit. by repeat case_match.
  - unfold TrackAssignment.handleSaveChanges. by repeat case_match.
  - unfold TrackAssignment.handleSyncAttendees, TrackAssignment.handleSaveChanges.
    by repeat case_match; simplify_eq.
  - unfold StudentAssignments.handleSubmitAssignment. by repeat case_match.
  - unfold ReviewAssignments.handleSaveReview. by repeat case_match.
Qed.

(** The payload of [handleSaveAll] is key-consistent when the document it
    extends is. *)
Lemma docPayload_key_consistent db attendees attendanceData dateStr now :
  (∀ d, Db.attendance db !! dateStr = Some d → key_consistent dateStr d) →
  key_consistent dateStr (docPayload db attendees attendanceData dateStr now).
Proof.
  intros Hold. split; [done|]. intros k rec. simpl. rewrite upsert_lookup.
  destruct (last_listed attendees k) as [a|] eqn:Hl, (attendanceData !! k) as [e|];
    try (apply last_listed_Some in Hl as [_ <-]; intros [= <-]; done);
    unfold existingRecords; destruct (Db.attendance db !! dateStr) as [old|] eqn:Ho;
    try (by rewrite lookup_empty); intros Hk; by apply (Hold old eq_refl).
Qed.

(** C10. In every store the handlers can produce, each day document is
    key-consistent: its key is a date formatted by [yyyy-MM-dd], its [date]
    field is that key, and the record under each key [k] has
    [studentId = k], [date] equal to the date key and
    [id = date ++ "_" ++ k]. *)
Theorem reachable_key_consistent db :
  reachable db →
  ∀ dateStr d, Db.attendance db !! dateStr = Some d →
    (∃ selectedDate, dateStr = DateFns.format selectedDate) ∧
    AttendanceDoc.date d = dateStr ∧
    ∀ k rec, AttendanceDoc.records d !! k = Some rec →
      AttendanceRecord.studentId rec = k ∧
      AttendanceRecord.date rec = dateStr ∧
      AttendanceRecord.id rec = dateStr +:+ "_" +:+ k.
Proof.
  unfold reachable. revert db.
  apply (rtc_ind_r (λ db, ∀ dateStr d, Db.attendance db !! dateStr = Some d → _));
    [done|].
  intros db' db2 Hrtc Hstep IH dateStr d Hd.
  apply step_attendance in Hstep as [Heq|(attendees & data & date & now & ->)].
  - rewrite Heq in Hd. by apply IH.
  - destruct (decide (dateStr = DateFns.format date)) as [->|Hne].
    + rewrite handleSaveAll_lookup in Hd. injection Hd as <-.
      split; [by eexists|].
      apply docPayload_key_consistent. intros old Hold.
      destruct (IH _ _ Hold) as (_ & ? & ?). by split.
    + rewrite handleSaveAll_lookup_ne in Hd by done. by apply IH.
Qed.

Lemma reachable_key_consistent_witness :
  ∃ d,
    Db.attendance (handleSaveAll Db.empty roster1 edits1 day1 9) !! "2024-01-15" = Some d ∧
    AttendanceDoc.date d = "2024-01-15" ∧
    ∀ k rec, AttendanceDoc.records d !! k = Some rec →
      AttendanceRecord.studentId rec = k ∧
      AttendanceRecord.date rec = "2024-01-15" ∧
      AttendanceRecord.id rec = "2024-01-15" +:+ "_" +:+ k.
Proof.
  eexists. split; [apply (handleSaveAll_lookup Db.empty roster1 edits1 day1 9)|].
  eapply (reachable_key_consistent (handleSaveAll Db.empty roster1 edits1 day1 9)).
  - apply rtc_once, step_save_all.
  - apply (handleSaveAll_lookup Db.empty roster1 edits1 day1 9).
Defined.

End SaveDay.

(** ** Attendees page: add, soft delete, restore *)

Module Roster.
Import Attendees Scenario.

Lemma activeQ_nil db e : activeQ db e = [] ↔ ¬ active_email db e.
Proof.
  unfold activeQ, active_email. split.
  - intros H (k & d & Hk & He).
    assert ((k, d) ∈ filter (λ kd : string * AttendeeDoc.t, AttendeeDoc.email kd.2 = e)
              (getDocs (Db.attendees db))) as Hin.
    { apply list_elem_of_filter. split; [done|]. by apply elem_of_getDocs. }
    rewrite H in Hin. by apply elem_of_nil in Hin.
  - intros H. apply elem_of_nil_inv. intros [k d] [HP Hin]%list_elem_of_filter.
    apply elem_of_getDocs in Hin. apply H. by exists k, d.
Qed.

Lemma activeQ_cons db e x l : activeQ db e = x :: l → active_email db e.
Proof.
  unfold activeQ, active_email. intros H.
  assert (x ∈ filter (λ kd : string * AttendeeDoc.t, AttendeeDoc.email kd.2 = e)
            (getDocs (Db.attendees db))) as Hin.
  { rewrite H. apply list_elem_of_here. }
  apply list_elem_of_filter in Hin as [HP Hin]. destruct x as [k d].
  apply elem_of_getDocs in Hin. by exists k, d.
Qed.

Lemma deletedQ_nil db e : deletedQ db e = [] ↔ ¬ archived_email db e.
Proof.
  unfold deletedQ, archived_email. split.
  - intros H (k & d & Hk & He).
    assert ((k, d) ∈ filter (λ kd : string * ArchivedDoc.t, ArchivedDoc.email kd.2 = e)
              (getDocs (Db.deleted_attendees db))) as Hin.
    { apply list_elem_of_filter. split; [done|]. by apply elem_of_getDocs. }
    rewrite H in Hin. by apply elem_of_nil in Hin.
  - intros H. apply elem_of_nil_inv. intros [k d] [HP Hin]%list_elem_of_filter.
    apply elem_of_getDocs in Hin. apply H. by exists k, d.
Qed.

Lemma deletedQ_cons db e x l : deletedQ db e = x :: l → archived_email db e.
Proof.
  unfold deletedQ, archived_email. intros H.
  assert (x ∈ filter (λ kd : string * ArchivedDoc.t, ArchivedDoc.email kd.2 = e)
            (getDocs (Db.deleted_attendees db))) as Hin.
  { rewrite H. apply list_elem_of_here. }
  apply list_elem_of_filter in Hin as [HP Hin]. destruct x as [k d].
  apply elem_of_getDocs in Hin. by exists k, d.
Qed.

(** In add mode the uniqueness check is exactly "held by an active or an
    archived attendee". *)
Lemma emailExists_add db data :
  emailExists db None data = true ↔
  active_email db (email data) ∨ archived_email db (email data).
Proof.
  unfold emailExists.
  destruct (activeQ db (email data)) as [|x l] eqn:Ha,
           (deletedQ db (email data)) as [|y l'] eqn:Hd.
  - apply activeQ_nil in Ha. apply deletedQ_nil in Hd. split; [done|]. by intros [?|?].
  - apply deletedQ_cons in Hd. naive_solver.
  - apply activeQ_cons in Ha. naive_solver.
  - apply activeQ_cons in Ha. naive_solver.
Qed.

Lemma handleSoftDelete_archives db a now :
  Student.id a ≠ EmptyString →
  Db.deleted_attendees (handleSoftDelete db a now).1 !! Student.id a
    = Some (ArchivedDoc.mk (Some (Student.id a)) (Student.id a) (Student.name a)
              (Student.email a) (Student.createdAt a) now (Student.restoredAt a)) ∧
  Db.attendees (handleSoftDelete db a now).1 = delete (Student.id a) (Db.attendees db) ∧
  (handleSoftDelete db a now).2 = Success.
Proof.
  intros Hid. unfold handleSoftDelete. rewrite decide_False by done. simpl.
  by rewrite lookup_insert_eq.
Qed.

(** C3. Adding an attendee fails with [DuplicateEmail] exactly when the
    e-mail is, character for character, the e-mail of an active or of an
    archived attendee, and then writes nothing; otherwise it creates the
    active entry.  After an attendee is soft-deleted, adding an attendee
    with its e-mail fails. *)
Theorem add_duplicate_email db data newId now :
  ((onSubmit db None data newId now).2 = DuplicateEmail ↔
     active_email db (email data) ∨ archived_email db (email data)) ∧
  ((onSubmit db None data newId now).2 = DuplicateEmail →
     (onSubmit db None data newId now).1 = db) ∧
  ((onSubmit db None data newId now).2 ≠ DuplicateEmail →
     onSubmit db None data newId now =
       (Db.with_attendees
          (insert newId (AttendeeDoc.mk None (name data) (email data) (Some now) None)) db,
        Success)) ∧
  (∀ a t, Student.id a ≠ EmptyString → Student.email a = email data →
     (onSubmit (handleSoftDelete db a t).1 None data newId now).2 = DuplicateEmail).
Proof.
  assert (∀ db', (onSubmit db' None data newId now).2 = DuplicateEmail ↔
                 emailExists db' None data = true) as Hiff.
  { intros db'. unfold onSubmit. by destruct (emailExists db' None data). }
  repeat split.
  - intros H. by apply emailExists_add, Hiff.
  - intros H. by apply Hiff, emailExists_add.
  - unfold onSubmit. by destruct (emailExists db None data).
  - unfold onSubmit. by destruct (emailExists db None data).
  - intros a t Hid He. apply Hiff, emailExists_add. right.
    destruct (handleSoftDelete_archives db a t Hid) as (Hl & _ & _).
    eexists _, _. split; [exact Hl|]. done.
Qed.

Lemma add_duplicate_email_witness :
  (onSubmit db_A None formBea "S2" 2).2 = DuplicateEmail ∧
  (onSubmit db_deleted None formBea "S3" 4).2 = DuplicateEmail ∧
  (onSubmit db_A None formUpper "S2" 2).2 = Success.
Proof.
  destruct (add_duplicate_email db_A formBea "S2" 2) as (Hiff & _ & _ & _).
  destruct (add_duplicate_email db_A formBea "S3" 4) as (_ & _ & _ & Hdel).
  destruct (add_duplicate_email db_A formUpper "S2" 2) as (_ & _ & Hok & _).
  split; [|split].
  - apply Hiff. left. exists "S1", (AttendeeDoc.mk None "Ann" "a@x.com" (Some 1) None).
    split; reflexivity.
  - apply (Hdel studentA 3); [discriminate | reflexivity].
  - rewrite Hok; [reflexivity|]. vm_compute. discriminate.
Defined.

Lemma step_archive_wf db db' : step db db' → archive_wf db → archive_wf db'.
Proof.
  unfold archive_wf. intros Hstep Hwf k d.
  destruct Hstep; try (by apply Hwf).
  - unfold onSubmit. repeat case_match; by apply Hwf.
  - unfold handleSoftDelete. case_decide; [by apply Hwf|]. simpl.
    rewrite lookup_insert_Some. intros [[<- <-]|[_ Hk]]; [done|by apply Hwf].
  - unfold handleRestore. repeat case_match; simpl; try (by apply Hwf).
    rewrite lookup_delete_Some. intros [_ Hk]. by apply Hwf.
  - unfold Login.linkStudent. repeat case_match; by apply Hwf.
  - unfold LoginPage.handleSignup. repeat case_match; by apply Hwf.
  - unfold Assignments.onEdit. repeat case_match; by apply Hwf.
  - unfold TrackAssignment.handleSaveChanges. repeat case_match; by apply Hwf.
  - unfold TrackAssignment.handleSyncAttendees, TrackAssignment.handleSaveChanges.
    repeat case_match; simplify_eq; by apply Hwf.
  - unfold StudentAssignments.handleSubmitAssignment. repeat case_match; by apply Hwf.
  - unfold ReviewAssignments.handleSaveReview. repeat case_match; by apply Hwf.
Qed.

Lemma reachable_archive_wf db : reachable db → archive_wf db.
Proof.
  unfold reachable. revert db. apply (rtc_ind_r archive_wf).
  - intros k d. simpl. by rewrite lookup_empty.
  - intros ?? _ ??. by eapply step_archive_wf.
Qed.

Lemma reachable_step db db' : reachable db → step db db' → reachable db'.
Proof. unfold reachable. intros. by eapply rtc_r. Qed.

(** Restoring an attendee listed from a well-formed archive. *)
Lemma handleRestore_listed db k d now :
  archive_wf db → Db.deleted_attendees db !! k = Some d →
  (active_email db (ArchivedDoc.email d) →
     handleRestore db (snapshot_archived k d) now = (db, DuplicateEmail)) ∧
  (¬ active_email db (ArchivedDoc.email d) →
     handleRestore db (snapshot_archived k d) now =
       (Db.with_deleted (delete k)
          (Db.with_attendees (insert k (restored_doc (snapshot_archived k d) now)) db),
        Success)).
Proof.
  intros Hwf Hk. destruct (Hwf k d Hk) as (Hne & Hid & Horig).
  unfold handleRestore. simpl. split.
  - intros Ha. destruct (activeQ db (ArchivedDoc.email d)) eqn:HQ; [|done].
    by apply activeQ_nil in HQ.
  - intros Ha. apply activeQ_nil in Ha. rewrite Ha.
    unfold restore_target, or_else. simpl. rewrite Hid, Horig. simpl.
    destruct (decide (k = EmptyString)); [done|]. by rewrite decide_False.
Qed.

(** C4. Restoring an archived attendee fails with [DuplicateEmail] whenever
    an active attendee holds its e-mail, and then leaves the active set and
    the archive as they were; otherwise it writes the active entry back
    under the attendee's original id, with the archived name and e-mail, and
    removes the archive entry.  The original id is the one the attendee had
    when it was soft-deleted. *)
Theorem handleRestore_spec db now :
  reachable db →
  (∀ k d, Db.deleted_attendees db !! k = Some d →
     let attendee := snapshot_archived k d in
     ArchivedStudent.originalId attendee = k ∧
     (active_email db (ArchivedStudent.email attendee) →
        handleRestore db attendee now = (db, DuplicateEmail)) ∧
     (¬ active_email db (ArchivedStudent.email attendee) →
        ∃ db',
          handleRestore db attendee now = (db', Success) ∧
          Db.attendees db' = <[k := restored_doc attendee now]> (Db.attendees db) ∧
          AttendeeDoc.name (restored_doc attendee now) = ArchivedDoc.name d ∧
          AttendeeDoc.email (restored_doc attendee now) = ArchivedDoc.email d ∧
          Db.deleted_attendees db' = delete k (Db.deleted_attendees db))) ∧
  (∀ a t, Student.id a ≠ EmptyString →
     ∃ d,
       Db.deleted_attendees (handleSoftDelete db a t).1 !! Student.id a = Some d ∧
       ArchivedDoc.originalId d = Student.id a ∧
       ArchivedDoc.name d = Student.name a ∧
       ArchivedDoc.email d = Student.email a ∧
       (¬ active_email (handleSoftDelete db a t).1 (Student.email a) →
          ∃ db' doc,
            handleRestore (handleSoftDelete db a t).1
              (snapshot_archived (Student.id a) d) now = (db', Success) ∧
            Db.attendees db' !! Student.id a = Some doc ∧
            AttendeeDoc.name doc = Student.name a ∧
            AttendeeDoc.email doc = Student.email a ∧
            Db.deleted_attendees db' !! Student.id a = None)).
Proof.
  intros Hr. split.
  - intros k d Hk attendee.
    pose proof (reachable_archive_wf db Hr) as Hwf.
    destruct (Hwf k d Hk) as (Hne & Hid & Horig).
    destruct (handleRestore_listed db k d now Hwf Hk) as [Hdup Hok].
    split; [done|]. split; [done|].
    intros Hfree. eexists. split; [by apply Hok|]. done.
  - intros a t Hid.
    destruct (handleSoftDelete_archives db a t Hid) as (Hl & Hact & Hout).
    eexists. split; [exact Hl|]. repeat split.
    intros Hfree.
    assert (archive_wf (handleSoftDelete db a t).1) as Hwf.
    { apply reachable_archive_wf. eapply reachable_step; [exact Hr|]. constructor. }
    destruct (handleRestore_listed _ _ _ now Hwf Hl) as [_ Hok].
    eexists _, _. split; [by apply Hok|]. simpl.
    rewrite lookup_insert_eq, lookup_delete_eq. done.
Qed.

Lemma handleRestore_spec_witness :
  handleRestore db_signup (snapshot_archived "S1" archivedA) 5 = (db_signup, DuplicateEmail) ∧
  ∃ db', handleRestore db_deleted (snapshot_archived "S1" archivedA) 5 = (db', Success) ∧
    Db.attendees db' !! "S1"
      = Some (AttendeeDoc.mk (Some "S1") "Ann" "a@x.com" (Some 1) (Some 5)) ∧
    Db.deleted_attendees db' !! "S1" = None.
Proof.
  assert (reachable db_A) as HA.
  { eapply reachable_step; [apply rtc_refl | apply step_attendee_form]. }
  assert (reachable db_deleted) as Hdel.
  { eapply reachable_step; [exact HA | apply step_soft_delete]. }
  assert (reachable db_signup) as Hsign.
  { eapply reachable_step; [exact Hdel | apply step_link_student]. }
  split.
  - destruct (handleRestore_spec db_signup 5 Hsign) as [Hrestore _].
    destruct (Hrestore "S1" archivedA) as (_ & Hdup & _); [reflexivity|].
    apply Hdup. exists "S9", (AttendeeDoc.mk None "a" "a@x.com" (Some 4) None).
    split; reflexivity.
  - destruct (handleRestore_spec db_deleted 5 Hdel) as [Hrestore _].
    destruct (Hrestore "S1" archivedA) as (_ & _ & Hok); [reflexivity|].
    destruct Hok as (db' & Hrun & Hact & _ & _ & Harch).
    { apply activeQ_nil. vm_compute. reflexivity. }
    exists db'. split; [exact Hrun|]. rewrite Hact, Harch.
    split; [apply lookup_insert_eq | apply lookup_delete_eq].
Defined.

End Roster.

(** ** Assignments: create and sync *)

Module StatusMapFacts.
Import CreateAssignment TrackAssignment.

Lemma first_listed_cons a attendees k :
  first_listed (a :: attendees) k =
  if decide (Student.id a = k) then Some a else first_listed attendees k.
Proof. unfold first_listed. rewrite filter_cons. by case_decide. Qed.

Lemma first_listed_Some attendees k a :
  first_listed attendees k = Some a → a ∈ attendees ∧ Student.id a = k.
Proof.
  unfold first_listed. intros H%head_Some_elem_of.
  apply list_elem_of_filter in H as [? ?]. by split.
Qed.

Lemma first_listed_elem attendees a :
  a ∈ attendees → is_Some (first_listed attendees (Student.id a)).
Proof.
  induction attendees as [|b attendees IH]; [by intros ?%elem_of_nil|].
  rewrite first_listed_cons. intros [->|Hin]%elem_of_cons.
  - by rewrite decide_True.
  - case_decide; [by eexists | by apply IH].
Qed.

(** What the loop of the create page leaves under each key. *)
Lemma seed_lookup now attendees (m : gmap string StudentAssignmentStatus.t) k :
  foldl (seed now) m attendees !! k =
  match last_listed attendees k with
  | Some a => Some (assigned_entry a now)
  | None => m !! k
  end.
Proof.
  induction attendees as [|a attendees IH] using rev_ind; [done|].
  rewrite foldl_snoc, MarkAttendanceFacts.last_listed_snoc. unfold seed at 1.
  case_decide as Hk.
  - subst k. by rewrite lookup_insert_eq.
  - by rewrite lookup_insert_ne.
Qed.

Lemma seed_dom now attendees :
  dom (foldl (seed now) ∅ attendees) = list_to_set (Student.id <$> attendees).
Proof.
  apply set_eq. intros k. rewrite elem_of_dom, seed_lookup, elem_of_list_to_set, list_elem_of_fmap.
  destruct (last_listed attendees k) as [a|] eqn:Hl.
  - apply MarkAttendanceFacts.last_listed_Some in Hl as [? ?]. split; [|by eexists]. eauto.
  - rewrite lookup_empty. rewrite MarkAttendanceFacts.last_listed_None in Hl.
    split; [by intros [? ?]|]. intros (a & -> & Ha). by destruct (Hl a Ha).
Qed.

(** What the loop of the sync action leaves under each key. *)
Lemma sync_step_lookup now attendees acc k :
  (foldl (sync_step now) acc attendees).1 !! k =
  match acc.1 !! k with
  | Some e => Some e
  | None => (λ a, assigned_entry a now) <$> first_listed attendees k
  end.
Proof.
  revert acc. induction attendees as [|a attendees IH]; intros acc; simpl.
  - by destruct (acc.1 !! k).
  - rewrite IH, first_listed_cons. unfold sync_step.
    destruct (acc.1 !! Student.id a) as [e|] eqn:He.
    + case_decide; [subst k; by rewrite He|done].
    + simpl. case_decide as Hk.
      * subst k. by rewrite lookup_insert_eq, He.
      * by rewrite lookup_insert_ne.
Qed.

Lemma sync_lookup now attendees (m : gmap string StudentAssignmentStatus.t) k :
  (sync attendees m now).1 !! k =
  match m !! k with
  | Some e => Some e
  | None => (λ a, assigned_entry a now) <$> first_listed attendees k
  end.
Proof. apply sync_step_lookup. Qed.

Lemma sync_step_count_mono now attendees acc :
  (acc.2 ≤ (foldl (sync_step now) acc attendees).2)%nat.
Proof.
  revert acc. induction attendees as [|a attendees IH]; intros acc; simpl; [done|].
  etrans; [|apply IH]. unfold sync_step. destruct (acc.1 !! Student.id a); simpl; lia.
Qed.

(** Nothing is counted exactly when every listed attendee has an entry. *)
Lemma sync_step_count_same now attendees acc :
  (foldl (sync_step now) acc attendees).2 = acc.2 →
  ∀ a, a ∈ attendees → is_Some (acc.1 !! Student.id a).
Proof.
  revert acc. induction attendees as [|b attendees IH]; intros acc; simpl.
  - by intros _ a ?%elem_of_nil.
  - intros Hc a. pose proof (sync_step_count_mono now attendees (sync_step now acc b)) as Hm.
    unfold sync_step in *. destruct (acc.1 !! Student.id b) as [e|] eqn:He; simpl in *; [|lia].
    intros [->|Hin]%elem_of_cons; [by eexists|]. by apply IH.
Qed.

Lemma sync_step_present now attendees acc :
  (∀ a, a ∈ attendees → is_Some (acc.1 !! Student.id a)) →
  foldl (sync_step now) acc attendees = acc.
Proof.
  revert acc. induction attendees as [|b attendees IH]; intros acc Hall; simpl; [done|].
  assert (sync_step now acc b = acc) as ->.
  { unfold sync_step. destruct (Hall b) as [e ->]; [apply list_elem_of_here|done]. }
  apply IH. intros a Ha. apply Hall. by apply list_elem_of_further.
Qed.

Lemma sync_covers now attendees (m : gmap string StudentAssignmentStatus.t) a :
  a ∈ attendees → is_Some ((sync attendees m now).1 !! Student.id a).
Proof.
  intros Ha. rewrite sync_lookup. destruct (m !! Student.id a); [by eexists|].
  destruct (first_listed_elem attendees a Ha) as [b ->]. by eexists.
Qed.

Lemma set_updatedAt_assigned a now : set_updatedAt now (assigned_entry a now) = assigned_entry a now.
Proof. done. Qed.

Lemma same_content_refl e : same_content e e.
Proof. done. Qed.

Lemma same_content_set_updatedAt now e : same_content e (set_updatedAt now e).
Proof. done. Qed.

(** The map that [handleSaveChanges] writes, key by key. *)
Lemma updatedStatusMap_lookup p (mapToSave : gmap string StudentAssignmentStatus.t) now k :
  updatedStatusMap p mapToSave now !! k =
  (λ e, if decide (originalStatus p k = Some e) then e else set_updatedAt now e)
    <$> mapToSave !! k.
Proof.
  unfold updatedStatusMap. rewrite map_lookup_imap.
  by destruct (mapToSave !! k).
Qed.

(** Saving a map the page has fetched changes nothing in it. *)
Lemma updatedStatusMap_fetched a now :
  updatedStatusMap (mkPage (Some a) (Assignment.statusMap a)) (Assignment.statusMap a) now
  = Assignment.statusMap a.
Proof.
  apply map_eq. intros k. rewrite updatedStatusMap_lookup.
  unfold originalStatus. simpl.
  destruct (Assignment.statusMap a !! k) as [e|]; [|done]. simpl. by rewrite decide_True.
Qed.

(** [handleSyncAttendees] with its two early exits spelled out. *)
Lemma handleSyncAttendees_unfold id db p now :
  handleSyncAttendees id db p now =
  let new := (sync (getDocs_attendees db) (statusMap p) now).1 in
  let upd := updatedStatusMap (mkPage (assignment p) new) new now in
  if decide (0 < (sync (getDocs_attendees db) (statusMap p) now).2) then
    match Db.assignments db !! id with
    | Some a0 =>
        (Db.with_assignments (insert id (set_statusMap upd a0)) db,
         mkPage (Some (set_statusMap upd a0)) upd)
    | None => (db, mkPage (assignment p) new)
    end
  else (db, p).
Proof.
  unfold handleSyncAttendees.
  destruct (sync (getDocs_attendees db) (statusMap p) now) as [new cnt]. simpl.
  case_decide; [|done]. unfold handleSaveChanges.
  destruct (Db.assignments db !! id) as [a0|] eqn:Ha; simpl; unfold fetchAssignment; simpl.
  - by rewrite lookup_insert_eq.
  - by rewrite Ha.
Qed.

Lemma handleSyncAttendees_attendees id db p now :
  Db.attendees (handleSyncAttendees id db p now).1 = Db.attendees db.
Proof.
  rewrite handleSyncAttendees_unfold. simpl. by repeat case_match.
Qed.

(** When every listed attendee has an entry, the sync action does nothing. *)
Lemma handleSyncAttendees_in_sync id db p now :
  (∀ a, a ∈ getDocs_attendees db → is_Some (statusMap p !! Student.id a)) →
  handleSyncAttendees id db p now = (db, p).
Proof.
  intros Hall. rewrite handleSyncAttendees_unfold. cbv zeta. unfold sync.
  rewrite sync_step_present by done. case_decide as Hc; [|done]. simpl in Hc. lia.
Qed.

(** After the sync action every listed attendee has an entry on the page. *)
Lemma handleSyncAttendees_covers id db p now a :
  a ∈ getDocs_attendees db →
  is_Some (statusMap (handleSyncAttendees id db p now).2 !! Student.id a).
Proof.
  intros Ha. rewrite handleSyncAttendees_unfold. simpl. case_decide as Hc.
  - destruct (Db.assignments db !! id); simpl.
    + rewrite updatedStatusMap_lookup.
      destruct (sync_covers now _ (statusMap p) a Ha) as [e ->]. by eexists.
    + by apply sync_covers.
  - apply (sync_step_count_same now (getDocs_attendees db) (statusMap p, 0)); [|done].
    unfold sync in Hc. simpl. lia.
Qed.

(** The entries the page had are kept by the sync action. *)
Lemma handleSyncAttendees_keeps id db p now k e :
  statusMap p !! k = Some e →
  ∃ e', statusMap (handleSyncAttendees id db p now).2 !! k = Some e' ∧
        same_content e e' ∧ (originalStatus p k = Some e → e' = e).
Proof.
  intros Hk. rewrite handleSyncAttendees_unfold. simpl. case_decide as Hc.
  - destruct (Db.assignments db !! id); simpl.
    + rewrite updatedStatusMap_lookup, sync_lookup, Hk. simpl.
      eexists. split; [done|]. unfold originalStatus. simpl.
      case_decide; [done|]. split; [apply same_content_set_updatedAt|done].
    + rewrite sync_lookup, Hk. by eexists.
  - by eexists.
Qed.

(** The entries the sync action adds are fresh [Assigned] entries of listed
    attendees. *)
Lemma handleSyncAttendees_adds id db p now k e' :
  statusMap p !! k = None →
  statusMap (handleSyncAttendees id db p now).2 !! k = Some e' →
  ∃ a, a ∈ getDocs_attendees db ∧ Student.id a = k ∧ e' = assigned_entry a now.
Proof.
  intros Hk. rewrite handleSyncAttendees_unfold. simpl. case_decide as Hc.
  - destruct (Db.assignments db !! id); simpl.
    + rewrite updatedStatusMap_lookup, sync_lookup, Hk.
      destruct (first_listed (getDocs_attendees db) k) as [a|] eqn:Hf; [|done].
      simpl. apply first_listed_Some in Hf as [? ?].
      intros [= <-]. exists a. repeat split; try done. by case_decide.
    + rewrite sync_lookup, Hk.
      destruct (first_listed (getDocs_attendees db) k) as [a|] eqn:Hf; [|done].
      simpl. apply first_listed_Some in Hf as [? ?]. intros [= <-]. by exists a.
  - simpl. by rewrite Hk.
Qed.

(** On a page that shows the stored assignment, the sync action leaves the
    store and the page agreeing, with every stored entry as it was. *)
Lemma handleSyncAttendees_fetched id db a0 now :
  Db.assignments db !! id = Some a0 →
  let r := handleSyncAttendees id db (mkPage (Some a0) (Assignment.statusMap a0)) now in
  ∃ a1, Db.assignments r.1 !! id = Some a1 ∧
        statusMap r.2 = Assignment.statusMap a1 ∧
        ∀ k e, Assignment.statusMap a0 !! k = Some e → Assignment.statusMap a1 !! k = Some e.
Proof.
  intros Ha r.
  assert (∀ k e, Assignment.statusMap a0 !! k = Some e → statusMap r.2 !! k = Some e) as Hkeep.
  { intros k e Hk.
    destruct (handleSyncAttendees_keeps id db (mkPage (Some a0) (Assignment.statusMap a0))
                now k e Hk) as (e' & He' & _ & Heq).
    fold r in He'. rewrite He'. f_equal. apply Heq. unfold originalStatus. by simpl. }
  revert Hkeep. unfold r. rewrite handleSyncAttendees_unfold. simpl. case_decide.
  - rewrite Ha. simpl. intros Hkeep. eexists. by rewrite lookup_insert_eq.
  - simpl. intros Hkeep. by exists a0.
Qed.

(** When a listed attendee has no entry on the page and the assignment
    exists, the sync action stores the map the page ends up with. *)
Lemma handleSyncAttendees_stores id db p now a0 a :
  Db.assignments db !! id = Some a0 →
  a ∈ getDocs_attendees db → statusMap p !! Student.id a = None →
  ∃ a1, Db.assignments (handleSyncAttendees id db p now).1 !! id = Some a1 ∧
        Assignment.statusMap a1 = statusMap (handleSyncAttendees id db p now).2.
Proof.
  intros Ha Hin Hnone. rewrite handleSyncAttendees_unfold. cbv zeta.
  case_decide as Hc.
  - rewrite Ha. simpl. eexists. by rewrite lookup_insert_eq.
  - destruct (sync_step_count_same now (getDocs_attendees db) (statusMap p, 0)) with a
      as [e He]; [|done|].
    + unfold sync in Hc. simpl. lia.
    + simpl in He. congruence.
Qed.

End StatusMapFacts.

Module AssignmentTracker.
Import CreateAssignment TrackAssignment StatusMapFacts Scenario.

(** The sync action works on the page's copy of the map: run from a page
    that was loaded before a student submitted, it puts the student's stored
    entry back from [Submitted], with the note, to [Assigned] without it. *)
Lemma handleSyncAttendees_overwrites_stored :
  ∃ a a' e e',
    Db.assignments db_late_submit !! "A1" = Some a ∧
    Assignment.statusMap a !! "S1" = Some e ∧
    StudentAssignmentStatus.status e = Submitted ∧
    StudentAssignmentStatus.note e = Some "my essay" ∧
    Db.assignments synced_stale.1 !! "A1" = Some a' ∧
    Assignment.statusMap a' !! "S1" = Some e' ∧
    StudentAssignmentStatus.status e' = Assigned ∧
    StudentAssignmentStatus.note e' = Some EmptyString ∧
    e' ≠ e.
Proof.
  destruct (Db.assignments db_late_submit !! "A1") as [a|] eqn:Ha;
    [|vm_compute in Ha; discriminate].
  destruct (Db.assignments synced_stale.1 !! "A1") as [a'|] eqn:Ha';
    [|vm_compute in Ha'; discriminate].
  destruct (Assignment.statusMap a !! "S1") as [e|] eqn:He;
    [|vm_compute in Ha; injection Ha as <-; vm_compute in He; discriminate].
  destruct (Assignment.statusMap a' !! "S1") as [e'|] eqn:He';
    [|vm_compute in Ha'; injection Ha' as <-; vm_compute in He'; discriminate].
  exists a, a', e, e'.
  vm_compute in Ha, Ha'. injection Ha as <-. injection Ha' as <-.
  vm_compute in He, He'. injection He as <-. injection He' as <-.
  repeat split; try reflexivity. discriminate.
Qed.

(** C5. Creating an assignment snapshots the current roster into its
    [statusMap]: one entry per listed attendee, each [Assigned] with empty
    grade and note.  Adding an attendee afterwards leaves every assignment
    as it is.  The sync action works on the map the track page holds: it
    gives every listed attendee an entry there, adds only fresh [Assigned]
    entries of listed attendees, and keeps every entry the page had (an
    entry with an unsaved edit gets a new [updatedAt]); when it adds an
    entry it stores the page's map as the whole [statusMap].  On a page
    that shows the stored assignment every stored entry stays exactly as it
    was. *)
Theorem create_snapshot_and_sync db :
  (∀ data newId now,
     ∃ a, Db.assignments (CreateAssignment.onSubmit db data newId now) !! newId = Some a ∧
       dom (Assignment.statusMap a) = list_to_set (Student.id <$> getDocs_attendees db) ∧
       ∀ k e, Assignment.statusMap a !! k = Some e →
         StudentAssignmentStatus.status e = Assigned ∧
         StudentAssignmentStatus.grade e = Some EmptyString ∧
         StudentAssignmentStatus.note e = Some EmptyString ∧
         StudentAssignmentStatus.studentId e = Some k) ∧
  (∀ data newId now,
     Db.assignments (Attendees.onSubmit db None data newId now).1 = Db.assignments db) ∧
  (∀ id p now,
     let r := handleSyncAttendees id db p now in
     (∀ a, a ∈ getDocs_attendees db → is_Some (statusMap r.2 !! Student.id a)) ∧
     (∀ k e, statusMap p !! k = Some e →
        ∃ e', statusMap r.2 !! k = Some e' ∧ same_content e e' ∧
              (originalStatus p k = Some e → e' = e)) ∧
     (∀ k e', statusMap p !! k = None → statusMap r.2 !! k = Some e' →
        ∃ a, a ∈ getDocs_attendees db ∧ Student.id a = k ∧ e' = assigned_entry a now)) ∧
  (∀ id a0 now,
     Db.assignments db !! id = Some a0 →
     let r := handleSyncAttendees id db (fetchAssignment id db (mkPage None ∅)) now in
     ∃ a1, Db.assignments r.1 !! id = Some a1 ∧
       statusMap r.2 = Assignment.statusMap a1 ∧
       (∀ a, a ∈ getDocs_attendees db → is_Some (Assignment.statusMap a1 !! Student.id a)) ∧
       (∀ k e, Assignment.statusMap a0 !! k = Some e → Assignment.statusMap a1 !! k = Some e) ∧
       (∀ k e', Assignment.statusMap a0 !! k = None → Assignment.statusMap a1 !! k = Some e' →
          ∃ a, a ∈ getDocs_attendees db ∧ Student.id a = k ∧ e' = assigned_entry a now)) ∧
  (∀ id p now a0 a,
     Db.assignments db !! id = Some a0 →
     a ∈ getDocs_attendees db → statusMap p !! Student.id a = None →
     let r := handleSyncAttendees id db p now in
     ∃ a1, Db.assignments r.1 !! id = Some a1 ∧ Assignment.statusMap a1 = statusMap r.2).
Proof.
  split; [|split; [|split; [|split]]];
    [| | | |intros id p now a0 a ???; by eapply handleSyncAttendees_stores].
  - intros data newId now. eexists. split.
    { unfold CreateAssignment.onSubmit. simpl. apply lookup_insert_eq. }
    simpl. split; [apply seed_dom|].
    intros k e. rewrite seed_lookup.
    destruct (last_listed (getDocs_attendees db) k) as [a|] eqn:Hl; [|by rewrite lookup_empty].
    apply MarkAttendanceFacts.last_listed_Some in Hl as [_ <-]. by intros [= <-].
  - intros data newId now. unfold Attendees.onSubmit. by case_match.
  - intros id p now r. split; [|split].
    + intros a. apply handleSyncAttendees_covers.
    + intros k e. apply handleSyncAttendees_keeps.
    + intros k e'. apply handleSyncAttendees_adds.
  - intros id a0 now Ha. unfold fetchAssignment. rewrite Ha. cbv zeta.
    set (r := handleSyncAttendees _ _ _ _).
    destruct (handleSyncAttendees_fetched id db a0 now Ha) as (a1 & H1 & H2 & H3).
    fold r in H1, H2. exists a1. split; [done|]. split; [done|]. split; [|split; [done|]].
    + intros a Hin. rewrite <- H2. by apply handleSyncAttendees_covers.
    + intros k e' Hk. rewrite <- H2. by apply handleSyncAttendees_adds.
Qed.

Lemma create_snapshot_and_sync_witness :
  ∃ a a1,
    Db.assignments db_assigned !! "A1" = Some a ∧
    dom (Assignment.statusMap a) = {[ "S1"; "S2" ]} ∧
    Db.assignments db_roster3 !! "A1" = Some a ∧
    Db.assignments synced.1 !! "A1" = Some a1 ∧
    size (Assignment.statusMap a1) = 3 ∧
    Assignment.statusMap a1 !! "S1" = Assignment.statusMap a !! "S1" ∧
    Assignment.statusMap a1 !! "S2" = Assignment.statusMap a !! "S2" ∧
    StudentAssignmentStatus.status <$> Assignment.statusMap a1 !! "S3" = Some Assigned.
Proof.
  destruct (create_snapshot_and_sync db_roster2) as (Hcreate & _ & _ & _ & _).
  destruct (Hcreate (CreateAssignment.mkForm "Essay" None "2024-02-01" None) "A1" 3)
    as (a & Ha & Hdom & Hent).
  destruct (create_snapshot_and_sync db_assigned) as (_ & Hadd & _ & _ & _).
  specialize (Hadd formCy "S3" 4).
  destruct (create_snapshot_and_sync db_roster3) as (_ & _ & _ & Hsync & _).
  assert (Db.assignments db_roster3 !! "A1" = Some a) as Ha3.
  { unfold db_roster3. rewrite Hadd. exact Ha. }
  destruct (Hsync "A1" a 5 Ha3) as (a1 & H1 & H2 & Hcov & Hkeep & Hnew).
  exists a, a1. split; [exact Ha|]. split.
  { rewrite Hdom. vm_compute. reflexivity. }
  split; [exact Ha3|]. split; [exact H1|].
  assert (Some a = Db.assignments db_assigned !! "A1") as Ea by (symmetry; exact Ha).
  assert (Some a1 = Db.assignments synced.1 !! "A1") as Ea1 by (symmetry; exact H1).
  vm_compute in Ea, Ea1. injection Ea as ->. injection Ea1 as ->.
  vm_compute. repeat split.
Defined.

(** C6. The sync action is idempotent: run again on the store and page it
    produced, with the roster unchanged, it changes neither; and the map it
    computes from a roster is a fixed point of the computation. *)
Theorem handleSyncAttendees_idempotent id db p now1 now2 :
  handleSyncAttendees id (handleSyncAttendees id db p now1).1
    (handleSyncAttendees id db p now1).2 now2
  = handleSyncAttendees id db p now1 ∧
  ∀ (roster : list Student.t) (m : gmap string StudentAssignmentStatus.t),
    sync roster (sync roster m now1).1 now2 = ((sync roster m now1).1, 0).
Proof.
  split.
  - rewrite handleSyncAttendees_in_sync; [by destruct (handleSyncAttendees id db p now1)|].
    intros a. unfold getDocs_attendees. rewrite handleSyncAttendees_attendees.
    apply handleSyncAttendees_covers.
  - intros roster m. unfold sync at 1. apply sync_step_present.
    intros a Ha. simpl. by apply sync_covers.
Qed.

End AssignmentTracker.

(** ** Student submission and review *)

Module SubmissionFacts.
Import StudentAssignments ReviewAssignments Scenario.

(** C7. When a student submits to a listed assignment, the submission
    document under [assignmentId_studentId] exists afterwards with status
    [submitted] and the note, and the student's [statusMap] entry has status
    [Submitted], the note, and empty [fileURL] and [fileName]; the entries
    of the other students and the other assignments are as before. *)
Theorem handleSubmitAssignment_spec db sel profile userEmail submissionNote now a :
  Db.assignments db !! sel.1 = Some a →
  let studentId := Student.id profile in
  let r := handleSubmitAssignment db (Some sel) (Some profile) (Some userEmail)
             submissionNote now in
  r.2 = Some Success ∧
  (∃ s, Db.submissions r.1 !! (sel.1 +:+ "_" +:+ studentId) = Some s ∧
        Submission.status s = submitted ∧
        Submission.notes s = Some submissionNote ∧
        Submission.assignmentId s = sel.1 ∧
        Submission.studentId s = studentId) ∧
  (∃ a' e, Db.assignments r.1 !! sel.1 = Some a' ∧
        Assignment.statusMap a' !! studentId = Some e ∧
        StudentAssignmentStatus.status e = Submitted ∧
        StudentAssignmentStatus.note e = Some submissionNote ∧
        StudentAssignmentStatus.fileURL e = Some EmptyString ∧
        StudentAssignmentStatus.fileName e = Some EmptyString ∧
        ∀ k, k ≠ studentId →
          Assignment.statusMap a' !! k = Assignment.statusMap a !! k) ∧
  (∀ id', id' ≠ sel.1 → Db.assignments r.1 !! id' = Db.assignments db !! id').
Proof.
  intros Ha studentId r. unfold r, handleSubmitAssignment. simpl. rewrite Ha. simpl.
  split; [done|]. split; [|split].
  - eexists. split; [apply lookup_insert_eq|]. done.
  - eexists _, _. split; [apply lookup_insert_eq|]. simpl.
    split; [apply lookup_insert_eq|]. repeat split.
    intros k Hk. by rewrite lookup_insert_ne.
  - intros id' Hid. by rewrite lookup_insert_ne.
Qed.

(** C8. Saving a review sets the submission to [graded] with the grade and
    the feedback, and sets the student's [statusMap] entry to [Graded] with
    the same grade; the feedback has no influence on the assignment, and
    the entry's note, [fileURL] and [fileName], the entries of the other
    students and the other assignments are as before. *)
Theorem handleSaveReview_spec id db reviews submission now r s a :
  reviews !! submission.1 = Some r →
  Db.submissions db !! submission.1 = Some s →
  Db.assignments db !! id = Some a →
  let studentId := Submission.studentId submission.2 in
  let res := handleSaveReview id db reviews submission now in
  res.2 = Success ∧
  (∃ s', Db.submissions res.1 !! submission.1 = Some s' ∧
         Submission.status s' = graded ∧
         Submission.grade s' = Some (grade r) ∧
         Submission.feedback s' = Some (feedback r)) ∧
  (∃ a' e, Db.assignments res.1 !! id = Some a' ∧
         Assignment.statusMap a' !! studentId = Some e ∧
         StudentAssignmentStatus.status e = Graded ∧
         StudentAssignmentStatus.grade e = Some (grade r) ∧
         StudentAssignmentStatus.note e
           = Assignment.statusMap a !! studentId ≫= StudentAssignmentStatus.note ∧
         StudentAssignmentStatus.fileURL e
           = Assignment.statusMap a !! studentId ≫= StudentAssignmentStatus.fileURL ∧
         StudentAssignmentStatus.fileName e
           = Assignment.statusMap a !! studentId ≫= StudentAssignmentStatus.fileName ∧
         ∀ k, k ≠ studentId →
           Assignment.statusMap a' !! k = Assignment.statusMap a !! k) ∧
  (∀ id', id' ≠ id → Db.assignments res.1 !! id' = Db.assignments db !! id') ∧
  (∀ feedback',
     Db.assignments
       (handleSaveReview id db (<[submission.1 := mkReview feedback' (grade r)]> reviews)
          submission now).1
     = Db.assignments res.1).
Proof.
  intros Hr Hs Ha studentId res.
  assert (∀ r', handleSaveReview id db (<[submission.1 := r']> reviews) submission now =
     (Db.with_assignments
        (insert id
           (TrackAssignment.set_statusMap
              (<[studentId := grade_entry (Assignment.statusMap a !! studentId)
                                (grade r') now]> (Assignment.statusMap a)) a))
        (Db.with_submissions (insert submission.1 (graded_submission r' s)) db),
      Success)) as Hrun.
  { intros r'. unfold handleSaveReview. rewrite lookup_insert_eq, Hs. simpl. by rewrite Ha. }
  assert (res = handleSaveReview id db (<[submission.1 := r]> reviews) submission now) as Hres.
  { unfold res. by rewrite insert_id. }
  rewrite Hres, !Hrun. simpl.
  split; [done|]. split; [|split; [|split]].
  - eexists. split; [apply lookup_insert_eq|]. done.
  - eexists _, _. split; [apply lookup_insert_eq|]. simpl.
    split; [apply lookup_insert_eq|]. repeat split.
    intros k Hk. by rewrite lookup_insert_ne.
  - intros id' Hid. by rewrite lookup_insert_ne.
  - intros feedback'. by rewrite Hrun.
Qed.

Lemma handleSubmitAssignment_spec_witness :
  ∃ s a' e,
    Db.submissions db_submitted !! "A1_S1" = Some s ∧
    Submission.status s = submitted ∧ Submission.notes s = Some "my essay" ∧
    Db.assignments db_submitted !! "A1" = Some a' ∧
    Assignment.statusMap a' !! "S1" = Some e ∧
    StudentAssignmentStatus.status e = Submitted ∧
    StudentAssignmentStatus.fileURL e = Some EmptyString.
Proof.
  destruct (Db.assignments db_assigned !! "A1") as [a|] eqn:Ha;
    [|vm_compute in Ha; discriminate].
  destruct (handleSubmitAssignment_spec db_assigned ("A1", essay) studentA "a@x.com"
              "my essay" 6 a Ha)
    as (_ & (s & Hs & Hst & Hn & _) & (a' & e & Ha' & He & Hse & _ & Hf & _) & _).
  exists s, a', e. repeat split; assumption.
Defined.

Lemma handleSaveReview_spec_witness :
  ∃ s' a' e,
    Db.submissions (handleSaveReview "A1" db_submitted reviews1 ("A1_S1", submissionS1) 7).1
      !! "A1_S1" = Some s' ∧
    Submission.status s' = graded ∧ Submission.feedback s' = Some "well argued" ∧
    Db.assignments (handleSaveReview "A1" db_submitted reviews1 ("A1_S1", submissionS1) 7).1
      !! "A1" = Some a' ∧
    Assignment.statusMap a' !! "S1" = Some e ∧
    StudentAssignmentStatus.status e = Graded ∧
    StudentAssignmentStatus.grade e = Some "A".
Proof.
  destruct (Db.assignments db_submitted !! "A1") as [a|] eqn:Ha;
    [|vm_compute in Ha; discriminate].
  destruct (handleSaveReview_spec "A1" db_submitted reviews1 ("A1_S1", submissionS1) 7
              (mkReview "well argued" "A") submissionS1 a)
    as (_ & (s' & Hs & Hst & _ & Hfb) & (a' & e & Ha' & He & Hse & Hg & _) & _);
    [reflexivity | reflexivity | exact Ha |].
  exists s', a', e. repeat split; assumption.
Defined.

End SubmissionFacts.

(** ** Summary page: the attendance percentage *)

Module Percentage.
Import SummaryPage Scenario.
Local Open Scope nat_scope.

Lemma agree_upto_39 : agree_upto 39 = true.
Proof. vm_compute. reflexivity. Qed.

(** Up to a denominator of 39 the double-precision computation rounds as
    exact arithmetic does. *)
Lemma attendancePercentage_exact present denominator :
  present ≤ denominator → 0 < denominator ≤ 39 →
  attendancePercentage present denominator = exact_percentage present denominator.
Proof.
  intros Hp [Hd0 Hd]. pose proof agree_upto_39 as H. unfold agree_upto in H.
  rewrite forallb_forall in H.
  destruct denominator as [|d]; [lia|].
  specialize (H d). rewrite forallb_forall in H.
  eapply bool_decide_eq_true_1, H; apply in_seq; lia.
Qed.

Lemma count_partition_le s (l : list AttendanceRecord.t) :
  count s l ≤ count Present l + count Absent l + count Leave l.
Proof. destruct s; lia. Qed.

(** The bound is sharp for the function taken alone: at 23 of 40 the
    double-precision product is just below 57.5 and rounds to 57, where
    exact rounding gives 58.  No view of the summary page gives a student
    40 records. *)
Lemma attendancePercentage_23_of_40 :
  let row := summary_row records40 student40 in
  present row = 23 ∧ absent row = 17 ∧ leave row = 0 ∧
  percentage row = 57%Z ∧
  exact_percentage (present row) (present row + absent row + leave row) = 58%Z ∧
  percentage row ≠ exact_percentage (present row) (present row + absent row + leave row).
Proof. vm_compute. repeat split; congruence. Qed.

End Percentage.

(** ** Mark attendance page: load, save, mark all, clear *)

Module MarkAttendancePageFacts.
Import MarkAttendance MarkAttendancePage MarkAttendanceFacts.
Local Arguments or_str : simpl never.

Lemma handleSaveAll_eq db attendees attendanceData selectedDate now :
  handleSaveAll db attendees attendanceData selectedDate now =
  Db.with_attendance
    (insert (DateFns.format selectedDate)
       (docPayload db attendees attendanceData (DateFns.format selectedDate) now)) db.
Proof.
  unfold handleSaveAll, Db.with_attendance. cbv beta zeta.
  by rewrite setDoc_merge_payload.
Qed.

Lemma existingRecords_saved db attendees attendanceData selectedDate now :
  existingRecords (handleSaveAll db attendees attendanceData selectedDate now)
    (DateFns.format selectedDate)
  = AttendanceDoc.records
      (docPayload db attendees attendanceData (DateFns.format selectedDate) now).
Proof. unfold existingRecords. by rewrite handleSaveAll_lookup. Qed.

Lemma tally_foldl_status (l1 l2 : list AttendanceRecord.t) s :
  AttendanceRecord.status <$> l1 = AttendanceRecord.status <$> l2 →
  foldl tally_step s l1 = foldl tally_step s l2.
Proof.
  revert l2 s. induction l1 as [|r1 l1 IH]; intros [|r2 l2] s; try done.
  rewrite !fmap_cons. intros [= Hr Hl]. simpl.
  assert (tally_step s r1 = tally_step s r2) as -> by (unfold tally_step; by rewrite Hr).
  by apply IH.
Qed.

(** The summary of a day depends on the statuses of its records only. *)
Lemma summarize_ext (m1 m2 : gmap string AttendanceRecord.t) :
  (∀ k, AttendanceRecord.status <$> m1 !! k = AttendanceRecord.status <$> m2 !! k) →
  summarize m1 = summarize m2.
Proof.
  intros H.
  assert (AttendanceRecord.status <$> m1 = AttendanceRecord.status <$> m2) as Hm.
  { apply map_eq. intros k. by rewrite !lookup_fmap. }
  unfold summarize.
  assert (size m1 = size m2) as ->.
  { by rewrite <- (map_size_fmap AttendanceRecord.status m1), Hm, map_size_fmap. }
  rewrite (tally_foldl_status (map_to_list m1).*2 (map_to_list m2).*2); [done|].
  rewrite <- !list_fmap_compose.
  transitivity ((map_to_list (AttendanceRecord.status <$> m1)).*2).
  - rewrite map_to_list_fmap, <- list_fmap_compose. by apply list_fmap_ext.
  - rewrite Hm, map_to_list_fmap, <- list_fmap_compose. by apply list_fmap_ext.
Qed.

Lemma fetchAttendanceForDate_lookup db selectedDate k :
  fetchAttendanceForDate db selectedDate !! k =
  entry_of_record <$> existingRecords db (DateFns.format selectedDate) !! k.
Proof.
  unfold fetchAttendanceForDate, existingRecords.
  destruct (Db.attendance db !! DateFns.format selectedDate); [apply lookup_fmap|].
  by rewrite !lookup_empty.
Qed.

Lemma or_str_idemp o : or_str (Some (or_str o EmptyString)) EmptyString = or_str o EmptyString.
Proof.
  unfold or_str. destruct o as [s|]; repeat case_decide; simplify_eq; done.
Qed.

Lemma handleMarkAll_lookup attendees (attendanceData : gmap string Entry) status k :
  handleMarkAll attendees attendanceData status !! k =
  (λ _ : Student.t,
     mkEntry status (Some (or_str (attendanceData !! k ≫= note) EmptyString)))
    <$> last_listed attendees k.
Proof.
  unfold handleMarkAll.
  induction attendees as [|a attendees IH] using rev_ind; [done|].
  rewrite foldl_snoc, last_listed_snoc. case_decide as Hk.
  - subst k. by rewrite lookup_insert_eq.
  - by rewrite lookup_insert_ne.
Qed.

(** Saving the same page twice is the same as saving it once, at the time
    of the second save. *)
Theorem handleSaveAll_twice db attendees attendanceData selectedDate now1 now2 :
  handleSaveAll (handleSaveAll db attendees attendanceData selectedDate now1)
    attendees attendanceData selectedDate now2
  = handleSaveAll db attendees attendanceData selectedDate now2.
Proof.
  rewrite (handleSaveAll_eq (handleSaveAll _ _ _ _ _)).
  assert (docPayload (handleSaveAll db attendees attendanceData selectedDate now1)
            attendees attendanceData (DateFns.format selectedDate) now2
          = docPayload db attendees attendanceData (DateFns.format selectedDate) now2) as ->.
  { unfold docPayload at 1. rewrite existingRecords_saved. unfold docPayload. simpl.
    assert (foldl (upsert (DateFns.format selectedDate) attendanceData now2)
              (foldl (upsert (DateFns.format selectedDate) attendanceData now1)
                 (existingRecords db (DateFns.format selectedDate)) attendees) attendees
            = foldl (upsert (DateFns.format selectedDate) attendanceData now2)
                (existingRecords db (DateFns.format selectedDate)) attendees) as ->; [|done].
    apply map_eq. intros k. rewrite !upsert_lookup.
    by destruct (last_listed attendees k), (attendanceData !! k). }
  rewrite !handleSaveAll_eq. unfold Db.with_attendance. simpl.
  by rewrite insert_insert_eq.
Qed.

(** Loading a day and saving it without a change keeps the status of every
    record, keeps the records of attendees that are no longer listed as
    they are, and writes the summary the records already had. *)
Theorem load_then_save_keeps_statuses db attendees selectedDate now :
  ∃ d,
    Db.attendance
      (handleSaveAll db attendees (fetchAttendanceForDate db selectedDate) selectedDate now)
      !! DateFns.format selectedDate = Some d ∧
    (∀ k, AttendanceRecord.status <$> AttendanceDoc.records d !! k
          = AttendanceRecord.status <$>
              existingRecords db (DateFns.format selectedDate) !! k) ∧
    dom (AttendanceDoc.records d) = dom (existingRecords db (DateFns.format selectedDate)) ∧
    (∀ k, last_listed attendees k = None →
          AttendanceDoc.records d !! k
          = existingRecords db (DateFns.format selectedDate) !! k) ∧
    AttendanceDoc.summary d = summarize (existingRecords db (DateFns.format selectedDate)).
Proof.
  eexists. split; [apply handleSaveAll_lookup|]. unfold docPayload. simpl.
  assert (∀ k,
    AttendanceRecord.status <$>
      foldl (upsert (DateFns.format selectedDate) (fetchAttendanceForDate db selectedDate) now)
        (existingRecords db (DateFns.format selectedDate)) attendees !! k
    = AttendanceRecord.status <$> existingRecords db (DateFns.format selectedDate) !! k) as Hst.
  { intros k. rewrite upsert_lookup, fetchAttendanceForDate_lookup.
    destruct (last_listed attendees k) as [a|]; [|done].
    by destruct (existingRecords db (DateFns.format selectedDate) !! k). }
  split; [done|]. split; [|split].
  - apply set_eq. intros k. rewrite !elem_of_dom, <- !(fmap_is_Some AttendanceRecord.status).
    by rewrite Hst.
  - intros k Hk. by rewrite upsert_lookup, Hk.
  - by apply summarize_ext.
Qed.

(** Clear All followed by Save erases nothing: the day keeps exactly the
    records it had (and a day without a document gets an empty one). *)
Theorem clear_then_save_keeps_records db attendees selectedDate now :
  Db.attendance (handleSaveAll db attendees handleClearSelections selectedDate now)
    !! DateFns.format selectedDate
  = Some (AttendanceDoc.mk (DateFns.format selectedDate)
            (existingRecords db (DateFns.format selectedDate))
            (summarize (existingRecords db (DateFns.format selectedDate)))).
Proof.
  rewrite handleSaveAll_lookup. unfold docPayload, handleClearSelections.
  assert (foldl (upsert (DateFns.format selectedDate) ∅ now)
            (existingRecords db (DateFns.format selectedDate)) attendees
          = existingRecords db (DateFns.format selectedDate)) as ->; [|done].
  apply map_eq. intros k. rewrite upsert_lookup, lookup_empty.
  by destruct (last_listed attendees k).
Qed.

(** Mark All followed by Save gives every listed attendee a record with the
    chosen status and the note the page had for it; records of attendees
    that are not listed stay as they are. *)
Theorem mark_all_then_save db attendees attendanceData status selectedDate now :
  ∃ d,
    Db.attendance
      (handleSaveAll db attendees (handleMarkAll attendees attendanceData status)
         selectedDate now) !! DateFns.format selectedDate = Some d ∧
    (∀ a, a ∈ attendees →
       ∃ rec, AttendanceDoc.records d !! Student.id a = Some rec ∧
         AttendanceRecord.status rec = status ∧
         AttendanceRecord.note rec
           = Some (or_str (attendanceData !! Student.id a ≫= note) EmptyString)) ∧
    (∀ k, (∀ a, a ∈ attendees → Student.id a ≠ k) →
       AttendanceDoc.records d !! k
       = existingRecords db (DateFns.format selectedDate) !! k).
Proof.
  eexists. split; [apply handleSaveAll_lookup|]. unfold docPayload. simpl. split.
  - intros a Ha. rewrite upsert_lookup, handleMarkAll_lookup.
    destruct (last_listed attendees (Student.id a)) as [a'|] eqn:Hl.
    + simpl. eexists. split; [done|]. simpl. by rewrite or_str_idemp.
    + rewrite last_listed_None in Hl. by destruct (Hl a Ha).
  - intros k Hk. rewrite upsert_lookup.
    by apply last_listed_None in Hk as ->.
Qed.

(** Typing a note for a listed attendee that has no entry yet and saving
    records the attendee as [Present]. *)
Theorem note_first_then_save_present db attendees attendanceData a n selectedDate now :
  a ∈ attendees → attendanceData !! Student.id a = None →
  ∃ d rec,
    Db.attendance
      (handleSaveAll db attendees
         (handleAttendanceChange (Student.id a) (SetNote n) attendanceData)
         selectedDate now) !! DateFns.format selectedDate = Some d ∧
    AttendanceDoc.records d !! Student.id a = Some rec ∧
    AttendanceRecord.status rec = Present ∧
    AttendanceRecord.note rec = Some n.
Proof.
  intros Ha Hnone.
  destruct (last_listed attendees (Student.id a)) as [a'|] eqn:Hl.
  - eexists _, _. split; [apply handleSaveAll_lookup|].
    unfold docPayload. simpl. rewrite upsert_lookup, Hl.
    unfold handleAttendanceChange. rewrite Hnone, lookup_insert_eq. simpl.
    split; [reflexivity|]. simpl. split; [reflexivity|].
    unfold or_str. case_decide; by subst.
  - rewrite last_listed_None in Hl. by destruct (Hl a Ha).
Qed.

(** What was saved for an attendee is what the page shows when the day is
    loaded again. *)
Theorem save_then_load db attendees attendanceData a e selectedDate now :
  a ∈ attendees → attendanceData !! Student.id a = Some e →
  fetchAttendanceForDate
    (handleSaveAll db attendees attendanceData selectedDate now) selectedDate
    !! Student.id a
  = Some (mkEntry (status e) (Some (or_str (note e) EmptyString))).
Proof.
  intros Ha He. rewrite fetchAttendanceForDate_lookup, existingRecords_saved.
  unfold docPayload. simpl. rewrite upsert_lookup, He.
  destruct (last_listed attendees (Student.id a)) as [a'|] eqn:Hl.
  - simpl. unfold entry_of_record. simpl. by rewrite or_str_idemp.
  - rewrite last_listed_None in Hl. by destruct (Hl a Ha).
Qed.

Lemma load_then_save_keeps_statuses_witness :
  ∃ d,
    Db.attendance
      (handleSaveAll Scenario.db1 Scenario.roster1
         (fetchAttendanceForDate Scenario.db1 Scenario.day1) Scenario.day1 9)
      !! "2024-01-15" = Some d ∧
    AttendanceDoc.records d !! "s1" = Some Scenario.rec1 ∧
    AttendanceDoc.summary d = Summary.mk 0 1 0 1.
Proof.
  destruct (load_then_save_keeps_statuses Scenario.db1 Scenario.roster1 Scenario.day1 9)
    as (d & Hd & _ & _ & Hkeep & Hsum).
  exists d. split; [exact Hd|]. split.
  - rewrite Hkeep; reflexivity.
  - rewrite Hsum. vm_compute. reflexivity.
Defined.

Lemma mark_all_then_save_witness :
  ∃ d rec,
    Db.attendance
      (handleSaveAll Scenario.db1 Scenario.roster1
         (handleMarkAll Scenario.roster1 Scenario.edits1 Leave) Scenario.day1 9)
      !! "2024-01-15" = Some d ∧
    AttendanceDoc.records d !! "s3" = Some rec ∧
    AttendanceRecord.status rec = Leave ∧
    AttendanceDoc.records d !! "s1" = Some Scenario.rec1.
Proof.
  destruct (mark_all_then_save Scenario.db1 Scenario.roster1 Scenario.edits1 Leave
              Scenario.day1 9) as (d & Hd & Hall & Hrest).
  destruct (Hall (Student.mk "s3" "Cy" "cy@x.com" None None)) as (rec & Hrec & Hst & _).
  { apply list_elem_of_further, list_elem_of_here. }
  exists d, rec. split; [exact Hd|]. split; [exact Hrec|]. split; [exact Hst|].
  rewrite Hrest; [reflexivity|].
  intros a Hin. repeat (apply elem_of_cons in Hin as [->|Hin]); try discriminate.
  by apply elem_of_nil in Hin.
Defined.

Lemma note_first_then_save_present_witness :
  ∃ d rec,
    Db.attendance
      (handleSaveAll Scenario.db1 Scenario.roster1
         (handleAttendanceChange "s3" (SetNote "late") Scenario.edits1) Scenario.day1 9)
      !! "2024-01-15" = Some d ∧
    AttendanceDoc.records d !! "s3" = Some rec ∧
    AttendanceRecord.status rec = Present ∧
    AttendanceRecord.note rec = Some "late".
Proof.
  apply (note_first_then_save_present Scenario.db1 Scenario.roster1 Scenario.edits1
           (Student.mk "s3" "Cy" "cy@x.com" None None) "late" Scenario.day1 9).
  - apply list_elem_of_further, list_elem_of_here.
  - reflexivity.
Defined.

Lemma save_then_load_witness :
  fetchAttendanceForDate
    (handleSaveAll Scenario.db1 Scenario.roster1 Scenario.edits1 Scenario.day1 9)
    Scenario.day1 !! "s2"
  = Some (mkEntry Present (Some EmptyString)).
Proof.
  apply (save_then_load Scenario.db1 Scenario.roster1 Scenario.edits1
           (Student.mk "s2" "Bob" "bob@x.com" None None) (mkEntry Present None)
           Scenario.day1 9).
  - apply list_elem_of_here.
  - reflexivity.
Defined.

End MarkAttendancePageFacts.

(** ** Reading attendance back: dashboard, student history, daily summary *)

Module AttendanceReaders.
Import MarkAttendance MarkAttendanceFacts.
Local Open Scope nat_scope.

(** In every store the handlers can produce, the stored summary of each day
    is the tally of its records. *)
Lemma reachable_summary db :
  reachable db →
  ∀ dateStr d, Db.attendance db !! dateStr = Some d →
    AttendanceDoc.summary d = summarize (AttendanceDoc.records d).
Proof.
  unfold reachable. revert db.
  apply (rtc_ind_r (λ db, ∀ dateStr d, Db.attendance db !! dateStr = Some d → _));
    [done|].
  intros db' db2 Hrtc Hstep IH dateStr d Hd.
  apply SaveDay.step_attendance in Hstep as [Heq|(attendees & data & date & now & ->)].
  - rewrite Heq in Hd. by eapply IH.
  - destruct (decide (dateStr = DateFns.format date)) as [->|Hne].
    + rewrite handleSaveAll_lookup in Hd. by injection Hd as <-.
    + rewrite handleSaveAll_lookup_ne in Hd by done. by eapply IH.
Qed.

(** The dashboard never shows counts that disagree with the day's records:
    in every store the handlers can produce, the summary it fetches for a
    date has [present + absent + leave = total], each count being the
    number of records of the day with that status, and is all zeros for a
    day without a document. *)
Theorem dashboard_summary_consistent db selectedDate :
  reachable db →
  let s := Dashboard.fetchSummary db selectedDate in
  let records := existingRecords db (DateFns.format selectedDate) in
  Summary.present s = count_status Present records ∧
  Summary.absent s = count_status Absent records ∧
  Summary.leave s = count_status Leave records ∧
  Summary.total s = size records ∧
  Summary.present s + Summary.absent s + Summary.leave s = Summary.total s.
Proof.
  intros Hr. unfold Dashboard.fetchSummary, existingRecords.
  destruct (Db.attendance db !! DateFns.format selectedDate) as [d|] eqn:Hd; simpl.
  - rewrite (reachable_summary db Hr _ d Hd).
    destruct (summarize_tally (AttendanceDoc.records d)) as (Hp & Ha & Hl & Ht & Hsum).
    repeat split; first [done | by rewrite Hsum, Ht].
  - unfold count_status. by rewrite map_filter_empty, map_size_empty.
Qed.

Lemma dashboard_summary_consistent_witness :
  let s := Dashboard.fetchSummary
             (handleSaveAll Db.empty Scenario.roster1 Scenario.edits1 Scenario.day1 9)
             Scenario.day1 in
  Summary.present s + Summary.absent s + Summary.leave s = Summary.total s ∧
  Summary.total s = 1.
Proof.
  assert (reachable
            (handleSaveAll Db.empty Scenario.roster1 Scenario.edits1 Scenario.day1 9)) as Hr.
  { apply rtc_once, step_save_all. }
  destruct (dashboard_summary_consistent _ Scenario.day1 Hr) as (_ & _ & _ & Ht & Hsum).
  split; [exact Hsum|]. rewrite Ht. vm_compute. reflexivity.
Defined.

Section history.
Variable sort : list AttendanceRecord.t → list AttendanceRecord.t.
Hypothesis sort_perm : ∀ l, sort l ≡ₚ l.

Lemma records_dates_sublist (l : list (string * AttendanceDoc.t)) studentId :
  (AttendanceRecord.date <$>
     omap (λ kd : string * AttendanceDoc.t,
             StudentAttendance.with_date kd.1 <$>
               (AttendanceDoc.records kd.2 !! studentId)) l)
  `sublist_of` l.*1.
Proof.
  induction l as [|[k d] l IH]; [done|]. simpl.
  destruct (AttendanceDoc.records d !! studentId) as [r|]; simpl.
  - by apply sublist_skip.
  - by apply sublist_cons.
Qed.

(** The history of a student has one row per day document that has an entry
    under the student's id, dated with the document id, and never two rows
    for the same day. *)
Theorem history_one_row_per_day db profile :
  ∃ history,
    StudentAttendance.fetchStudentAttendance sort db (Some profile) = Some history ∧
    NoDup (AttendanceRecord.date <$> history) ∧
    ∀ rec, rec ∈ history ↔
      ∃ dateStr d r,
        Db.attendance db !! dateStr = Some d ∧
        AttendanceDoc.records d !! Student.id profile = Some r ∧
        rec = StudentAttendance.with_date dateStr r.
Proof.
  eexists. split; [reflexivity|]. split.
  - rewrite sort_perm. eapply sublist_NoDup; [|apply records_dates_sublist].
    apply NoDup_fst_getDocs.
  - intros rec. rewrite sort_perm. unfold StudentAttendance.records.
    rewrite list_elem_of_omap. split.
    + intros ([k d] & Hin & Hf). apply elem_of_getDocs in Hin. simpl in Hf.
      destruct (AttendanceDoc.records d !! Student.id profile) as [r|] eqn:Hr; [|done].
      injection Hf as <-. by exists k, d, r.
    + intros (k & d & r & Hd & Hr & ->). exists (k, d).
      split; [by apply elem_of_getDocs|]. simpl. by rewrite Hr.
Qed.

(** What the teacher saves for a listed attendee is what the attendee finds
    in the history: a row for that day with the saved status and note. *)
Theorem save_then_history db attendees attendanceData a e selectedDate now :
  a ∈ attendees → attendanceData !! Student.id a = Some e →
  ∃ history rec,
    StudentAttendance.fetchStudentAttendance sort
      (handleSaveAll db attendees attendanceData selectedDate now) (Some a)
      = Some history ∧
    rec ∈ history ∧
    AttendanceRecord.date rec = DateFns.format selectedDate ∧
    AttendanceRecord.status rec = status e ∧
    AttendanceRecord.note rec = Some (or_str (note e) EmptyString).
Proof.
  intros Ha He.
  destruct (last_listed attendees (Student.id a)) as [a'|] eqn:Hl.
  - eexists _, (StudentAttendance.with_date (DateFns.format selectedDate)
                  (new_record (DateFns.format selectedDate) a' e now)).
    split; [reflexivity|]. split; [|done].
    rewrite sort_perm. unfold StudentAttendance.records. rewrite list_elem_of_omap.
    eexists (_, _). split.
    + apply elem_of_getDocs, handleSaveAll_lookup.
    + simpl. by rewrite upsert_lookup, Hl, He.
  - rewrite last_listed_None in Hl. by destruct (Hl a Ha).
Qed.

End history.

Lemma history_one_row_per_day_witness :
  ∃ history,
    StudentAttendance.fetchStudentAttendance (λ l, reverse l) Scenario.db1
      (Some (Student.mk "s1" "Ann" "ann@x.com" None None)) = Some history ∧
    NoDup (AttendanceRecord.date <$> history) ∧
    Scenario.rec1 ∈ history.
Proof.
  destruct (history_one_row_per_day (λ l, reverse l) (λ l, reverse_Permutation l)
              Scenario.db1 (Student.mk "s1" "Ann" "ann@x.com" None None))
    as (history & Hh & Hnd & Hin).
  exists history. split; [exact Hh|]. split; [exact Hnd|].
  apply Hin. eexists "2024-01-15", _, _.
  split; [reflexivity|]. split; reflexivity.
Defined.

Lemma save_then_history_witness :
  ∃ history rec,
    StudentAttendance.fetchStudentAttendance (λ l, reverse l)
      (handleSaveAll Scenario.db1 Scenario.roster1 Scenario.edits1 Scenario.day1 9)
      (Some (Student.mk "s2" "Bob" "bob@x.com" None None)) = Some history ∧
    rec ∈ history ∧
    AttendanceRecord.date rec = "2024-01-15" ∧
    AttendanceRecord.status rec = Present ∧
    AttendanceRecord.note rec = Some EmptyString.
Proof.
  apply (save_then_history (λ l, reverse l) (λ l, reverse_Permutation l)
           Scenario.db1 Scenario.roster1 Scenario.edits1
           (Student.mk "s2" "Bob" "bob@x.com" None None) (mkEntry Present None)
           Scenario.day1 9).
  - apply list_elem_of_here.
  - reflexivity.
Defined.

End AttendanceReaders.

(** ** Summary page: the daily view and the extremes of the percentage *)

Module SummaryDailyFacts.
Import SummaryPage SummaryDaily.
Local Open Scope nat_scope.
Local Open Scope list_scope.

Lemma group_default (l : list AttendanceRecord.t) acc s :
  default [] (foldl group_step acc l !! s)
  = default [] (acc !! s) ++ filter (λ rec, AttendanceRecord.studentId rec = s) l.
Proof.
  revert acc. induction l as [|rec l IH]; intros acc; simpl.
  - by rewrite filter_nil, app_nil_r.
  - rewrite IH, filter_cons. unfold group_step. case_decide as Hs.
    + subst s. rewrite lookup_insert_eq. simpl. by rewrite <- app_assoc.
    + by rewrite lookup_insert_ne.
Qed.

(** In a map whose values name their own key, the values naming [s] are the
    value under [s], if any. *)
Lemma filter_own_key {V} (g : V → string) (m : gmap string V) s :
  (∀ k v, m !! k = Some v → g v = k) →
  filter (λ v, g v = s) (map_to_list m).*2 = option_list (m !! s).
Proof.
  intros Hown.
  assert (filter (λ v, g v = s) (map_to_list m).*2 ≡ₚ option_list (m !! s)) as Hp.
  { induction m as [|i x m Hi IH] using map_ind.
    - by rewrite map_to_list_empty, lookup_empty.
    - rewrite (map_to_list_insert m i x Hi), fmap_cons, filter_cons. simpl.
      assert (g x = i) as Hx by (apply Hown; by rewrite lookup_insert_eq).
      assert (filter (λ v, g v = s) (map_to_list m).*2 ≡ₚ option_list (m !! s)) as IH'.
      { apply IH. intros k v Hk. apply Hown. rewrite lookup_insert_ne; [done|].
        intros ->. congruence. }
      destruct (decide (i = s)) as [->|Hne].
      + rewrite decide_True by done. rewrite IH', Hi, lookup_insert_eq. done.
      + rewrite decide_False by congruence. by rewrite IH', lookup_insert_ne. }
  destruct (m !! s); simpl in *.
  - by apply Permutation_singleton_r.
  - by apply Permutation_nil_r.
Qed.

(** In the daily view of a key-consistent day, the row of a student counts
    the student's one record of that day, if any: the total is at most 1
    and the percentage is 100 for [Present] and 0 otherwise. *)
Theorem daily_row db selectedDate d student :
  Db.attendance db !! DateFns.format selectedDate = Some d →
  MarkAttendance.key_consistent (DateFns.format selectedDate) d →
  let row := summary_row (fetchAttendance db selectedDate) student in
  match AttendanceDoc.records d !! Student.id student with
  | Some rec =>
      present row = indicator Present (AttendanceRecord.status rec) ∧
      absent row = indicator Absent (AttendanceRecord.status rec) ∧
      leave row = indicator Leave (AttendanceRecord.status rec) ∧
      total row = 1 ∧
      percentage row
        = (if decide (AttendanceRecord.status rec = Present) then 100 else 0)%Z
  | None =>
      present row = 0 ∧ absent row = 0 ∧ leave row = 0 ∧ total row = 0 ∧
      percentage row = 0%Z
  end.
Proof.
  intros Hd [_ Hkc]. unfold summary_row, fetchAttendance. rewrite Hd.
  rewrite group_default, lookup_empty. simpl.
  rewrite (filter_own_key AttendanceRecord.studentId (AttendanceDoc.records d));
    [|intros k v Hk; by apply (Hkc k v Hk)].
  destruct (AttendanceDoc.records d !! Student.id student) as [rec|]; simpl.
  - unfold count. rewrite !filter_cons, !filter_nil.
    destruct (AttendanceRecord.status rec); vm_compute; done.
  - vm_compute. done.
Qed.

Lemma daily_row_witness :
  let row := summary_row
               (fetchAttendance
                  (MarkAttendance.handleSaveAll Db.empty Scenario.roster1 Scenario.edits1
                     Scenario.day1 9) Scenario.day1)
               (Student.mk "s2" "Bob" "bob@x.com" None None) in
  total row = 1 ∧ percentage row = 100%Z.
Proof.
  pose proof (daily_row
    (MarkAttendance.handleSaveAll Db.empty Scenario.roster1 Scenario.edits1 Scenario.day1 9)
    Scenario.day1
    (MarkAttendance.docPayload Db.empty Scenario.roster1 Scenario.edits1 "2024-01-15" 9)
    (Student.mk "s2" "Bob" "bob@x.com" None None)) as H.
  destruct H as (_ & _ & _ & Ht & Hp).
  - apply (MarkAttendanceFacts.handleSaveAll_lookup Db.empty).
  - apply SaveDay.docPayload_key_consistent. intros d0 Hd0. discriminate Hd0.
  - split; [exact Ht | exact Hp].
Defined.

Lemma extremes_upto_199 : extremes_upto 199 = true.
Proof. vm_compute. reflexivity. Qed.

Lemma extremes_upto_spec bound (p d : nat) :
  extremes_upto bound = true →
  p ≤ d → 0 < d ≤ bound →
  (attendancePercentage p d = 100%Z ↔ p = d) ∧
  (attendancePercentage p d = 0%Z ↔ p = 0) ∧
  (0 ≤ attendancePercentage p d ≤ 100)%Z.
Proof.
  unfold extremes_upto. intros H Hp [Hd0 Hd].
  rewrite forallb_forall in H.
  destruct d as [|d]; [lia|].
  specialize (H d). rewrite forallb_forall in H.
  specialize (H ltac:(apply in_seq; lia) p ltac:(apply in_seq; lia)).
  cbv zeta in H. by apply bool_decide_eq_true_1 in H.
Qed.

(** With 200 counted records the rounding reaches the extremes early: 199
    of 200 shows as 100 percent, and 1 of 201 as 0 percent. *)
Lemma percentage_bound_sharp :
  attendancePercentage 199 200 = 100%Z ∧ attendancePercentage 1 201 = 0%Z.
Proof. vm_compute. done. Qed.

(** For up to 199 counted records the summary shows 100 percent only for a
    student who was present every time and 0 percent only for one who was
    never present, and the percentage is between 0 and 100. *)
Theorem percentage_extremes students attendanceRecords row :
  row ∈ processSummary students attendanceRecords →
  0 < total row ≤ 199 →
  (percentage row = 100%Z ↔ absent row = 0 ∧ leave row = 0) ∧
  (percentage row = 0%Z ↔ present row = 0) ∧
  (0 ≤ percentage row ≤ 100)%Z.
Proof.
  unfold processSummary. intros (student & -> & _)%list_elem_of_fmap. simpl.
  set (l := default [] (attendanceRecords !! Student.id student)).
  intros Hd.
  destruct (extremes_upto_spec 199 (count Present l)
              (count Present l + count Absent l + count Leave l) extremes_upto_199)
    as (H100 & H0 & Hrange); [lia|done|].
  split; [|done]. rewrite H100. lia.
Qed.

Lemma percentage_extremes_witness :
  ∃ row, processSummary [Scenario.student40] Scenario.records4 = [row] ∧
    percentage row ≠ 100%Z ∧ percentage row ≠ 0%Z.
Proof.
  eexists. split; [reflexivity|].
  destruct (percentage_extremes [Scenario.student40] Scenario.records4
              (summary_row Scenario.records4 Scenario.student40))
    as (H100 & H0 & _); [apply list_elem_of_here | vm_compute; lia |].
  split.
  - intros [Ha _]%H100. vm_compute in Ha. discriminate.
  - intros Hp%H0. vm_compute in Hp. discriminate.
Defined.

End SummaryDailyFacts.

(** ** Summary page: the percentage over the views of the page *)

Module SummaryViewFacts.
Import DateFns MarkAttendance MarkAttendanceFacts SummaryPage SummaryView.
Local Open Scope nat_scope.
Local Arguments dash : simpl never.

(** The numerals of a key contain no separator, so a key splits at its
    separators in one way only. *)
Lemma has_dash_app a b : has_dash (a +:+ b) = has_dash a || has_dash b.
Proof. induction a as [|c a IH]; [done|]. simpl. by case_decide. Qed.

Lemma has_dash_uint u : has_dash (NilEmpty.string_of_uint u) = false.
Proof. induction u; simpl; try done. Qed.

Lemma has_dash_numeral n : has_dash (NilZero.string_of_uint (Nat.to_uint n)) = false.
Proof.
  unfold NilZero.string_of_uint. destruct (Nat.to_uint n) eqn:E; try done;
    rewrite <- E; apply has_dash_uint.
Qed.

Lemma has_dash_zeros n : has_dash (zeros n) = false.
Proof. induction n; [done|]. simpl. done. Qed.

Lemma has_dash_pad n len : has_dash (addLeadingZeros n len) = false.
Proof.
  unfold addLeadingZeros. cbv zeta. by rewrite has_dash_app, has_dash_zeros, has_dash_numeral.
Qed.

Lemma split_dash x x' u u' :
  has_dash x = false → has_dash x' = false →
  x +:+ String dash u = x' +:+ String dash u' → x = x' ∧ u = u'.
Proof.
  revert x'. induction x as [|c x IH]; intros [|c' x']; simpl.
  - intros _ _ [= ->]. done.
  - case_decide; [done|]. intros _ _ [= ? ?]. congruence.
  - case_decide; [done|]. intros _ _ [= ? ?]. congruence.
  - repeat case_decide; try done. intros Hx Hx' [= -> Heq].
    destruct (IH x' Hx Hx' Heq) as [-> ->]. done.
Qed.

(** A string between two strings with a common prefix has that prefix. *)
Lemma between_prefix P a b k :
  String.leb (P +:+ a) k = true → String.leb k (P +:+ b) = true →
  ∃ r, k = P +:+ r.
Proof.
  revert k. induction P as [|c P IH]; intros k; [by exists k|].
  destruct k as [|c' k]; [done|].
  unfold String.leb. simpl.
  rewrite (Ascii.compare_antisym c c').
  destruct (Ascii.compare c' c) eqn:Hc; simpl; try done.
  apply Ascii.compare_eq_iff in Hc as ->.
  intros H1 H2. destruct (IH k H1 H2) as [r ->]. by exists r.
Qed.

Lemma append_nil (s : string) : EmptyString +:+ s = s.
Proof. reflexivity. Qed.

Lemma append_cons c (s t : string) : String c s +:+ t = String c (s +:+ t).
Proof. reflexivity. Qed.

Lemma app_dash_assoc y m u :
  (y +:+ String dash (m +:+ String dash EmptyString)) +:+ u
  = y +:+ String dash (m +:+ String dash u).
Proof.
  induction y as [|c y IH]; rewrite ?append_nil, ?append_cons.
  - f_equal. induction m as [|c m IH]; rewrite ?append_nil, ?append_cons; [done|].
    by rewrite IH.
  - by rewrite IH.
Qed.

Lemma format_month_day d :
  format d = (addLeadingZeros (year d) 4 +:+ String dash (addLeadingZeros (month d) 2
                +:+ String dash EmptyString)) +:+ addLeadingZeros (day d) 2.
Proof. by rewrite app_dash_assoc. Qed.

Lemma getDaysInMonth_le d : getDaysInMonth d ≤ 31.
Proof.
  unfold getDaysInMonth.
  destruct (month d) as [|[|[|[|[|[|[|[|[|[|[|[|?]]]]]]]]]]]]; try lia.
  destruct (isLeapYear (year d)); lia.
Qed.

(** A calendar day whose key lies between the keys of the first and the last
    day of a month is one of the at most 31 days of that month. *)
Lemma month_key selectedMonth d :
  calendar d →
  String.leb (format (startOfMonth selectedMonth)) (format d) = true →
  String.leb (format d) (format (endOfMonth selectedMonth)) = true →
  format d ∈ (λ n, format (mkDate (year selectedMonth) (month selectedMonth) n)) <$> seq 1 31.
Proof.
  intros [_ Hday] H1 H2.
  rewrite (format_month_day (startOfMonth selectedMonth)) in H1.
  rewrite (format_month_day (endOfMonth selectedMonth)) in H2. simpl in H1, H2.
  destruct (between_prefix _ _ _ _ H1 H2) as [r Hr].
  assert (format d = format (mkDate (year selectedMonth) (month selectedMonth) (day d))) as ->.
  { rewrite (format_month_day (mkDate _ _ _)). simpl.
    rewrite Hr. f_equal.
    rewrite format_month_day in Hr.
    revert Hr.
    generalize (addLeadingZeros (day d) 2). intros dd.
    rewrite !app_dash_assoc. intros Hr.
    apply split_dash in Hr as [_ Hr]; [|apply has_dash_pad..].
    apply split_dash in Hr as [_ Hr]; [|apply has_dash_pad..]. done. }
  apply list_elem_of_fmap. exists (day d). split; [done|].
  apply elem_of_seq. pose proof (getDaysInMonth_le d). lia.
Qed.

(** In every store the handlers can produce the day documents are
    key-consistent. *)
Lemma reachable_docs_consistent db :
  reachable db →
  ∀ dateStr d, Db.attendance db !! dateStr = Some d → key_consistent dateStr d.
Proof.
  unfold reachable. revert db.
  apply (rtc_ind_r (λ db, ∀ dateStr d, Db.attendance db !! dateStr = Some d → _));
    [done|].
  intros db' db2 Hrtc Hstep IH dateStr d Hd.
  apply SaveDay.step_attendance in Hstep as [Heq|(attendees & data & date & now & ->)].
  - rewrite Heq in Hd. by apply IH.
  - destruct (decide (dateStr = DateFns.format date)) as [->|Hne].
    + rewrite handleSaveAll_lookup in Hd. injection Hd as <-.
      apply SaveDay.docPayload_key_consistent. intros old Hold. by apply IH.
    + rewrite handleSaveAll_lookup_ne in Hd by done. by apply IH.
Qed.

(** Documents whose records sit under their own student ids hold at most one
    record of a student each. *)
Lemma own_records_le (l : list (string * AttendanceDoc.t)) s :
  (∀ kd, kd ∈ l → ∀ k rec, AttendanceDoc.records kd.2 !! k = Some rec →
                   AttendanceRecord.studentId rec = k) →
  length (filter (λ rec, AttendanceRecord.studentId rec = s)
            (l ≫= λ kd, (map_to_list (AttendanceDoc.records kd.2)).*2))
  ≤ length l.
Proof.
  induction l as [|kd l IH]; intros Hown; [done|].
  rewrite bind_cons, filter_app, length_app.
  rewrite (SummaryDailyFacts.filter_own_key AttendanceRecord.studentId
             (AttendanceDoc.records kd.2));
    [|apply Hown, list_elem_of_here].
  assert (length (option_list (AttendanceDoc.records kd.2 !! s)) ≤ 1) as H1
    by (destruct (AttendanceDoc.records kd.2 !! s); simpl; lia).
  specialize (IH (λ kd' Hin, Hown kd' (list_elem_of_further _ _ _ Hin))).
  simpl. lia.
Qed.

Lemma monthDocs_elem db selectedMonth k d :
  (k, d) ∈ SummaryMonthly.monthDocs db selectedMonth →
  Db.attendance db !! k = Some d ∧
  SummaryMonthly.inRange (format (startOfMonth selectedMonth))
    (format (endOfMonth selectedMonth)) (k, d).
Proof.
  unfold SummaryMonthly.monthDocs. cbv zeta.
  rewrite merge_sort_Permutation, list_elem_of_filter, elem_of_map_to_list. tauto.
Qed.

(** A month has at most 31 day documents. *)
Lemma monthDocs_length db selectedMonth :
  (∀ dateStr d, Db.attendance db !! dateStr = Some d → key_consistent dateStr d) →
  calendar_keys db →
  length (SummaryMonthly.monthDocs db selectedMonth) ≤ 31.
Proof.
  intros Hkc Hcal.
  rewrite <- (length_fmap fst).
  transitivity (length ((λ n, format (mkDate (year selectedMonth) (month selectedMonth) n))
                          <$> seq 1 31)); [|by rewrite length_fmap, length_seq].
  apply submseteq_length, NoDup_submseteq.
  - unfold SummaryMonthly.monthDocs. cbv zeta. rewrite merge_sort_Permutation.
    eapply sublist_NoDup; [|apply fmap_sublist, sublist_filter].
    apply NoDup_fst_map_to_list.
  - intros k ([k' d] & -> & Hin)%list_elem_of_fmap. simpl.
    apply monthDocs_elem in Hin as [Hd [H1 H2]]. simpl in H1, H2.
    destruct (Hkc k' d Hd) as [Hdate _]. rewrite Hdate in H1, H2.
    destruct (Hcal k') as (date & Hc & ->); [by eexists|].
    by apply month_key.
Qed.

(** No view gives a student more than 31 records. *)
Lemma view_records_le db viewMode selectedDate selectedMonth s :
  reachable db → calendar_keys db →
  length (default []
            (SummaryView.fetchAttendance db viewMode selectedDate selectedMonth !! s)) ≤ 31.
Proof.
  intros Hr Hcal. pose proof (reachable_docs_consistent db Hr) as Hkc.
  destruct viewMode; simpl.
  - unfold SummaryDaily.fetchAttendance.
    destruct (Db.attendance db !! format selectedDate) as [d|] eqn:Hd;
      [|rewrite lookup_empty; simpl; lia].
    rewrite SummaryDailyFacts.group_default, lookup_empty. simpl.
    rewrite (SummaryDailyFacts.filter_own_key AttendanceRecord.studentId
               (AttendanceDoc.records d));
      [|intros k v Hk; by apply (Hkc _ d Hd)].
    destruct (AttendanceDoc.records d !! s); simpl; lia.
  - unfold SummaryMonthly.fetchAttendance.
    rewrite SummaryDailyFacts.group_default, lookup_empty. simpl.
    etrans; [apply own_records_le|by apply monthDocs_length].
    intros [k d] [Hd _]%monthDocs_elem k' rec Hk'. simpl in *.
    by apply (Hkc k d Hd).
Qed.

(** C9. In every store the handlers can produce, with its day documents
    keyed by calendar dates, every row that [processSummary] makes from the
    records of a view of the summary page, daily or monthly, carries the
    percentage [present / (present + absent + leave) * 100] rounded to the
    nearest integer, halves upwards, when the student has a counted record,
    and 0 when the student has none; three present and one absent give
    75. *)
Theorem processSummary_percentage db viewMode selectedDate selectedMonth students row :
  reachable db → calendar_keys db →
  row ∈ processSummary students
          (SummaryView.fetchAttendance db viewMode selectedDate selectedMonth) →
  total row = present row + absent row + leave row ∧
  (0 < total row → percentage row = exact_percentage (present row) (total row)) ∧
  (total row = 0 → percentage row = 0%Z) ∧
  (present row = 3 → absent row = 1 → leave row = 0 → percentage row = 75%Z).
Proof.
  intros Hr Hcal. unfold processSummary. intros (student & -> & _)%list_elem_of_fmap. simpl.
  pose proof (view_records_le db viewMode selectedDate selectedMonth (Student.id student)
                Hr Hcal) as Hle.
  set (l := default [] (SummaryView.fetchAttendance db viewMode selectedDate selectedMonth
                          !! Student.id student)) in *.
  pose proof (count_partition l) as Hcount.
  split; [done|]. split; [|split].
  - intros Hd. apply Percentage.attendancePercentage_exact; lia.
  - intros ->. done.
  - intros -> -> ->. vm_compute. reflexivity.
Qed.

Lemma calendar_keys_empty : calendar_keys Db.empty.
Proof. intros k [d Hd]. simpl in Hd. by rewrite lookup_empty in Hd. Qed.

Lemma calendar_keys_save db attendees attendanceData selectedDate now :
  calendar_keys db → calendar selectedDate →
  calendar_keys (handleSaveAll db attendees attendanceData selectedDate now).
Proof.
  intros Hcal Hc k Hk. destruct (decide (k = format selectedDate)) as [->|Hne].
  - by exists selectedDate.
  - rewrite handleSaveAll_lookup_ne in Hk by done. by apply Hcal.
Qed.

Lemma processSummary_percentage_witness :
  ∃ row,
    processSummary [Scenario.student40]
      (SummaryView.fetchAttendance Scenario.db_january SummaryView.monthly
         Scenario.day1 (mkDate 2024 1 1)) = [row] ∧
    present row = 3 ∧ absent row = 1 ∧ leave row = 0 ∧ percentage row = 75%Z ∧
    percentage row = exact_percentage (present row) (total row).
Proof.
  eexists. split; [reflexivity|].
  assert (reachable Scenario.db_january) as Hr.
  { unfold Scenario.db_january. repeat (eapply Roster.reachable_step; [|apply step_save_all]).
    apply rtc_refl. }
  assert (calendar_keys Scenario.db_january) as Hcal.
  { unfold Scenario.db_january.
    repeat (apply calendar_keys_save; [|unfold calendar; vm_compute; lia]).
    apply calendar_keys_empty. }
  destruct (processSummary_percentage Scenario.db_january SummaryView.monthly Scenario.day1
              (mkDate 2024 1 1) [Scenario.student40]
              (summary_row
                 (SummaryView.fetchAttendance Scenario.db_january SummaryView.monthly
                    Scenario.day1 (mkDate 2024 1 1)) Scenario.student40) Hr Hcal)
    as (_ & Hexact & _ & H75); [apply list_elem_of_here|].
  assert (present (summary_row
                 (SummaryView.fetchAttendance Scenario.db_january SummaryView.monthly
                    Scenario.day1 (mkDate 2024 1 1)) Scenario.student40) = 3) as Hp
    by (vm_compute; reflexivity).
  split; [exact Hp|]. split; [vm_compute; reflexivity|]. split; [vm_compute; reflexivity|].
  split.
  - apply H75; vm_compute; reflexivity.
  - apply Hexact. vm_compute. lia.
Defined.

End SummaryViewFacts.

(** ** Attendees page and sign-up: e-mail uniqueness, editing, linking *)

Module AttendeesInvFacts.
Import Attendees AttendeesInv.

Lemma activeQ_elem db e k d :
  (k, d) ∈ activeQ db e ↔ Db.attendees db !! k = Some d ∧ AttendeeDoc.email d = e.
Proof.
  unfold activeQ. rewrite list_elem_of_filter, elem_of_getDocs. simpl. tauto.
Qed.

Lemma activeQ_head db e x l :
  activeQ db e = x :: l → Db.attendees db !! x.1 = Some x.2 ∧ AttendeeDoc.email x.2 = e.
Proof.
  intros H. apply activeQ_elem. destruct x. simpl. rewrite H. apply list_elem_of_here.
Qed.

Lemma activeQ_none db e k d :
  activeQ db e = [] → Db.attendees db !! k = Some d → AttendeeDoc.email d ≠ e.
Proof.
  intros H Hk He. assert ((k, d) ∈ activeQ db e) as Hin by (by apply activeQ_elem).
  rewrite H in Hin. by apply elem_of_nil in Hin.
Qed.

Lemma active_unique_insert db k dn :
  active_unique db →
  (∀ k' d', Db.attendees db !! k' = Some d' →
     AttendeeDoc.email d' = AttendeeDoc.email dn → k' = k) →
  active_unique (Db.with_attendees (insert k dn) db).
Proof.
  intros Hu Hnew k1 k2 d1 d2. simpl. rewrite !lookup_insert_Some.
  intros [[<- <-]|[Hn1 H1]] [[<- <-]|[Hn2 H2]] He; try done.
  - symmetry. by eapply Hnew.
  - by eapply Hnew.
  - by eapply Hu.
Qed.

Lemma active_unique_delete db k :
  active_unique db → active_unique (Db.with_attendees (delete k) db).
Proof.
  intros Hu k1 k2 d1 d2. simpl. rewrite !lookup_delete_Some.
  intros [_ H1] [_ H2]. by eapply Hu.
Qed.

(** Distinct e-mails in the listing make the active e-mails unique. *)
Lemma active_unique_NoDup db : NoDup (active_emails db) → active_unique db.
Proof.
  unfold active_emails. intros Hnd k1 k2 d1 d2 H1 H2 He.
  apply elem_of_map_to_list in H1, H2.
  assert ((k1, d1) = (k2, d2)) as Heq; [|congruence].
  by apply (NoDup_fmap_elem_inj
              (λ kd : string * AttendeeDoc.t, AttendeeDoc.email kd.2)
              (map_to_list (Db.attendees db))).
Qed.

(** When the check lets an edit through, no other active attendee holds the
    new e-mail. *)
Lemma emailExists_edit_false db a data :
  active_unique db → emailExists db (Some a) data = false →
  ∀ k d, Db.attendees db !! k = Some d → AttendeeDoc.email d = email data →
    k = Student.id a.
Proof.
  unfold emailExists. intros Hu He k d Hk Hd.
  destruct (activeQ db (email data)) as [|x l] eqn:HQ.
  - by destruct (activeQ_none db _ k d HQ Hk).
  - apply activeQ_head in HQ as [Hx Hxe].
    assert (k = x.1) as -> by (eapply Hu; [done..|congruence]).
    destruct (deletedQ db (email data)); [|done].
    apply bool_decide_eq_false in He. by destruct (decide (x.1 = Student.id a)).
Qed.

Lemma emailExists_add_false db data :
  emailExists db None data = false →
  ∀ k d, Db.attendees db !! k = Some d → AttendeeDoc.email d ≠ email data.
Proof.
  unfold emailExists. intros He k d Hk.
  destruct (activeQ db (email data)) as [|x l] eqn:HQ.
  - by apply (activeQ_none db _ k d HQ).
  - by destruct (deletedQ db (email data)).
Qed.

(** The attendees page never makes two active attendees share an e-mail:
    adding, editing, soft-deleting and restoring keep the active e-mails
    unique. *)
Theorem attendees_page_keeps_unique db :
  active_unique db →
  (∀ attendeeToEdit data newId now,
     active_unique (onSubmit db attendeeToEdit data newId now).1) ∧
  (∀ attendee now, active_unique (handleSoftDelete db attendee now).1) ∧
  (∀ attendee now, active_unique (handleRestore db attendee now).1).
Proof.
  intros Hu. split; [|split].
  - intros e data newId now. unfold onSubmit.
    destruct (emailExists db e data) eqn:He; [done|].
    destruct e as [a|].
    + destruct (Db.attendees db !! Student.id a) as [d|]; [|done]. simpl.
      apply active_unique_insert; [done|]. simpl. intros k' d' Hk' He'.
      by eapply emailExists_edit_false.
    + simpl. apply active_unique_insert; [done|]. simpl. intros k' d' Hk' He'.
      by destruct (emailExists_add_false db data He k' d' Hk').
  - intros a now. unfold handleSoftDelete. case_decide; [done|]. simpl.
    intros k1 k2 d1 d2. simpl. rewrite !lookup_delete_Some.
    intros [_ H1] [_ H2]. by eapply Hu.
  - intros a now. unfold handleRestore.
    destruct (activeQ db (ArchivedStudent.email a)) as [|x l] eqn:HQ; [|done].
    case_decide; [done|].
    assert (active_unique
              (Db.with_attendees (insert (restore_target a) (restored_doc a now)) db)) as Hu'.
    { apply active_unique_insert; [done|]. simpl. intros k' d' Hk' He'.
      by destruct (activeQ_none db _ k' d' HQ Hk'). }
    case_decide; [done|]. simpl. intros k1 k2 d1 d2. by apply Hu'.
Qed.

Lemma attendees_page_keeps_unique_witness :
  active_unique (onSubmit Scenario.db_A None Scenario.formBob "S2" 2).1 ∧
  active_unique (handleSoftDelete Scenario.db_A Scenario.studentA 3).1.
Proof.
  assert (active_unique Scenario.db_A) as Hu.
  { apply active_unique_NoDup. compute_done. }
  destruct (attendees_page_keeps_unique Scenario.db_A Hu) as (Hadd & Hdel & _).
  split; [apply Hadd | apply Hdel].
Defined.

(** Editing an attendee whose e-mails are unique among the active ones:
    an archived holder of the new e-mail blocks the edit, and so does any
    other active holder; otherwise the name and e-mail are replaced and the
    document keeps its key and its other fields. *)
Theorem edit_attendee db a data newId now d :
  active_unique db → Db.attendees db !! Student.id a = Some d →
  (archived_email db (email data) →
     onSubmit db (Some a) data newId now = (db, DuplicateEmail)) ∧
  ((∃ k d', k ≠ Student.id a ∧ Db.attendees db !! k = Some d' ∧
            AttendeeDoc.email d' = email data) →
     onSubmit db (Some a) data newId now = (db, DuplicateEmail)) ∧
  (¬ archived_email db (email data) →
   (∀ k d', Db.attendees db !! k = Some d' → AttendeeDoc.email d' = email data →
            k = Student.id a) →
     onSubmit db (Some a) data newId now =
       (Db.with_attendees
          (insert (Student.id a)
             (AttendeeDoc.mk (AttendeeDoc.id d) (name data) (email data)
                (AttendeeDoc.createdAt d) (AttendeeDoc.restoredAt d))) db,
        Success)).
Proof.
  intros Hu Hd. unfold onSubmit. split; [|split].
  - intros Harch.
    assert (emailExists db (Some a) data = true) as ->; [|done].
    unfold emailExists. destruct (deletedQ db (email data)) eqn:HQ; [|done].
    by apply Roster.deletedQ_nil in HQ.
  - intros (k & d' & Hne & Hk & He).
    destruct (emailExists db (Some a) data) eqn:Hex; [done|].
    by destruct Hne; eapply emailExists_edit_false.
  - intros Harch Hself.
    assert (emailExists db (Some a) data = false) as ->.
    { unfold emailExists. apply Roster.deletedQ_nil in Harch. rewrite Harch.
      destruct (activeQ db (email data)) as [|x l] eqn:HQ; [done|].
      apply activeQ_head in HQ as [Hx Hxe]. apply bool_decide_eq_false.
      intros Hne. apply Hne. by eapply Hself. }
    by rewrite Hd.
Qed.

Lemma edit_attendee_witness :
  onSubmit Scenario.db_roster2 (Some Scenario.studentA) (mkForm "Anne" "a@x.com") "n" 9
  = (Db.with_attendees
       (insert "S1" (AttendeeDoc.mk None "Anne" "a@x.com" (Some 1) None)) Scenario.db_roster2,
     Success) ∧
  onSubmit Scenario.db_roster2 (Some Scenario.studentA) (mkForm "Anne" "b@x.com") "n" 9
  = (Scenario.db_roster2, DuplicateEmail).
Proof.
  assert (active_unique Scenario.db_roster2) as Hu.
  { apply active_unique_NoDup. compute_done. }
  split.
  - destruct (edit_attendee Scenario.db_roster2 Scenario.studentA (mkForm "Anne" "a@x.com")
                "n" 9 (AttendeeDoc.mk None "Ann" "a@x.com" (Some 1) None) Hu eq_refl)
      as (_ & _ & Hok).
    apply Hok.
    + apply Roster.deletedQ_nil. reflexivity.
    + intros k d' Hk He. apply (Hu k "S1" d' _ Hk eq_refl). exact He.
  - destruct (edit_attendee Scenario.db_roster2 Scenario.studentA (mkForm "Anne" "b@x.com")
                "n" 9 (AttendeeDoc.mk None "Ann" "a@x.com" (Some 1) None) Hu eq_refl)
      as (_ & Hdup & _).
    apply Hdup. exists "S2", (AttendeeDoc.mk None "Bob" "b@x.com" (Some 2) None).
    split; [discriminate|]. split; reflexivity.
Defined.

(** The first document of the e-mail query is the active holder of the
    e-mail with the least document id. *)
Lemma activeQ_head_least db e x l :
  activeQ db e = x :: l →
  ∀ k d, Db.attendees db !! k = Some d → AttendeeDoc.email d = e →
    String.leb x.1 k = true.
Proof.
  unfold activeQ. intros H k d Hk He.
  by apply (getDocs_filter_head _ _ _ _ H) with d.
Qed.

(** A student who signs up is linked to an active attendee: the profile
    written names an attendee that is in [attendees] afterwards.  When
    active attendees hold the typed e-mail it is the one of them with the
    least document id, and nothing is written to [attendees]; otherwise it
    is a new attendee holding the e-mail of the account and named by the
    typed e-mail up to its [@].  The archive is neither read nor changed. *)
Theorem handleSignup_links_student db email uid userEmail newId now :
  ∃ profile sid d,
    LoginPage.handleSignup db student email (Some (uid, userEmail)) newId now
      = (if decide (activeQ db email = []) then
           Db.with_attendees
             (insert newId
                (AttendeeDoc.mk None (LoginPage.before_at email) userEmail (Some now) None)) db
         else db,
         Some (uid, profile), Success) ∧
    UserProfile.role profile = student ∧
    UserProfile.email profile = userEmail ∧
    UserProfile.studentId profile = Some sid ∧
    Db.attendees
      (LoginPage.handleSignup db student email (Some (uid, userEmail)) newId now).1.1
      !! sid = Some d ∧
    (active_email db email →
       Db.attendees db !! sid = Some d ∧ AttendeeDoc.email d = email ∧
       (LoginPage.handleSignup db student email (Some (uid, userEmail)) newId now).1.1 = db ∧
       ∀ k d', Db.attendees db !! k = Some d' → AttendeeDoc.email d' = email →
         String.leb sid k = true) ∧
    (¬ active_email db email →
       sid = newId ∧
       d = AttendeeDoc.mk None (LoginPage.before_at email) userEmail (Some now) None).
Proof.
  unfold LoginPage.handleSignup. simpl.
  destruct (activeQ db email) as [|x l] eqn:HQ.
  - rewrite decide_True by done. eexists _, _, _. split; [reflexivity|]. simpl.
    do 3 (split; [reflexivity|]). split; [apply lookup_insert_eq|]. split.
    + intros Ha. apply Roster.activeQ_nil in HQ. by destruct HQ.
    + intros _. by split.
  - rewrite decide_False by done.
    pose proof (activeQ_head_least db email x l HQ) as Hleast.
    apply activeQ_head in HQ as [Hx Hxe].
    eexists _, _, _. split; [reflexivity|]. simpl.
    do 3 (split; [reflexivity|]). split; [exact Hx|]. split.
    + intros _. done.
    + intros Hn. destruct Hn. by exists x.1, x.2.
Qed.

(** Operations on the roster leave the history alone: adding, editing,
    soft-deleting and restoring an attendee and signing up change no day
    of attendance, no assignment and no submission. *)
Theorem roster_ops_keep_history db :
  (∀ attendeeToEdit data newId now,
     let db' := (onSubmit db attendeeToEdit data newId now).1 in
     Db.attendance db' = Db.attendance db ∧ Db.assignments db' = Db.assignments db ∧
     Db.submissions db' = Db.submissions db) ∧
  (∀ attendee now,
     let db' := (handleSoftDelete db attendee now).1 in
     Db.attendance db' = Db.attendance db ∧ Db.assignments db' = Db.assignments db ∧
     Db.submissions db' = Db.submissions db) ∧
  (∀ attendee now,
     let db' := (handleRestore db attendee now).1 in
     Db.attendance db' = Db.attendance db ∧ Db.assignments db' = Db.assignments db ∧
     Db.submissions db' = Db.submissions db) ∧
  (∀ selectedRole email credential newId now,
     let db' := (LoginPage.handleSignup db selectedRole email credential newId now).1.1 in
     Db.attendance db' = Db.attendance db ∧ Db.assignments db' = Db.assignments db ∧
     Db.submissions db' = Db.submissions db).
Proof.
  split; [|split; [|split]].
  - intros e data newId now. unfold onSubmit. by repeat case_match.
  - intros a now. unfold handleSoftDelete. by repeat case_match.
  - intros a now. unfold handleRestore. by repeat case_match.
  - intros r e c newId now. unfold LoginPage.handleSignup. by repeat case_match.
Qed.

Lemma handleSignup_links_student_witness :
  ∃ profile,
    (LoginPage.handleSignup Scenario.db_two_holders student "a@x.com"
       (Some ("u2", "a@x.com")) "S9" 4)
    = (Scenario.db_two_holders, Some ("u2", profile), Success) ∧
    UserProfile.studentId profile = Some "b2" ∧
    AttendeeDoc.email <$> Db.attendees Scenario.db_two_holders !! "b2" = Some "a@x.com" ∧
    AttendeeDoc.email <$> Db.attendees Scenario.db_two_holders !! "c2" = Some "a@x.com".
Proof.
  destruct (handleSignup_links_student Scenario.db_two_holders "a@x.com" "u2" "a@x.com"
              "S9" 4)
    as (profile & sid & d & Hrun & _ & _ & Hsid & _ & Hold & _).
  destruct Hold as (Hd & _ & Hdb & Hleast).
  { exists "c2", (AttendeeDoc.mk None "Ann" "a@x.com" (Some 1) None).
    split; reflexivity. }
  assert (Db.attendees Scenario.db_two_holders
          = <["b2" := AttendeeDoc.mk None "A" "a@x.com" (Some 2) None]>
              (<["c2" := AttendeeDoc.mk None "Ann" "a@x.com" (Some 1) None]> ∅)) as Hatt.
  { vm_compute. reflexivity. }
  assert (sid = "b2") as ->.
  { pose proof (Hleast "b2" (AttendeeDoc.mk None "A" "a@x.com" (Some 2) None)
                  ltac:(rewrite Hatt; apply lookup_insert_eq) eq_refl) as Hb.
    rewrite Hatt in Hd.
    destruct (decide (sid = "b2")) as [->|Hne]; [done|].
    rewrite lookup_insert_ne in Hd by done.
    destruct (decide (sid = "c2")) as [->|Hne2];
      [vm_compute in Hb; discriminate Hb|].
    rewrite lookup_insert_ne, lookup_empty in Hd by done. discriminate Hd. }
  exists profile. split; [|split; [exact Hsid|split; reflexivity]].
  rewrite Hrun, decide_False; [reflexivity|].
  intros HQ. vm_compute in HQ. discriminate HQ.
Defined.

(** Sign-up queries the typed e-mail and stores the e-mail of the account,
    so the stores the handlers produce need not keep the active e-mails
    unique. *)
Lemma signup_two_holders :
  reachable Scenario.db_two_holders ∧ ¬ active_unique Scenario.db_two_holders.
Proof.
  split.
  - unfold Scenario.db_two_holders.
    eapply Roster.reachable_step; [|apply step_signup].
    eapply Roster.reachable_step; [apply rtc_refl|apply step_attendee_form].
  - intros Hu.
    assert ("b2" = "c2") as Heq; [|discriminate Heq].
    apply (Hu "b2" "c2" (AttendeeDoc.mk None "A" "a@x.com" (Some 2) None)
             (AttendeeDoc.mk None "Ann" "a@x.com" (Some 1) None)); reflexivity.
Qed.

End AttendeesInvFacts.

(** ** Track assignment page: counters, bulk update, saving *)

Module TrackPageFacts.
Import CreateAssignment TrackAssignment StatusMapFacts.
Local Open Scope nat_scope.

Lemma track_count_partition (values : list StudentAssignmentStatus.t) :
  TrackSummary.count Assigned values + TrackSummary.count Submitted values
    + TrackSummary.count Graded values = length values.
Proof.
  unfold TrackSummary.count. induction values as [|v values IH]; [done|].
  rewrite !filter_cons. destruct (StudentAssignmentStatus.status v);
    repeat case_decide; try done; simpl; lia.
Qed.

Lemma count_all s (values : list StudentAssignmentStatus.t) s' :
  (∀ v, v ∈ values → StudentAssignmentStatus.status v = s) →
  TrackSummary.count s' values = if decide (s' = s) then length values else 0.
Proof.
  unfold TrackSummary.count. induction values as [|v values IH]; intros Hall.
  - by case_decide.
  - rewrite filter_cons, (Hall v) by apply list_elem_of_here.
    specialize (IH (λ v' Hv', Hall v' (list_elem_of_further _ _ _ Hv'))).
    destruct (decide (s' = s)) as [->|Hne].
    + rewrite decide_True by done. simpl. by rewrite IH.
    + by rewrite decide_False by congruence.
Qed.

(** The counters above the table always add up: every entry is counted
    under exactly one of Assigned, Submitted and Graded, and Total is the
    number of entries. *)
Theorem track_summary_partition (statusMap : gmap string StudentAssignmentStatus.t) :
  TrackSummary.total (TrackSummary.summary statusMap) = size statusMap ∧
  TrackSummary.assigned (TrackSummary.summary statusMap)
    + TrackSummary.submitted (TrackSummary.summary statusMap)
    + TrackSummary.graded (TrackSummary.summary statusMap)
  = TrackSummary.total (TrackSummary.summary statusMap).
Proof.
  unfold TrackSummary.summary. simpl. split.
  - by rewrite length_fmap, length_map_to_list.
  - apply track_count_partition.
Qed.

(** Marking all entries with a status keeps the set of students, changes
    only the status and the time of each entry, and leaves the counters
    showing every entry under that status. *)
Theorem handleBulkUpdate_all status now p :
  let p' := handleBulkUpdate status now p in
  assignment p' = assignment p ∧
  dom (statusMap p') = dom (statusMap p) ∧
  (∀ k e, statusMap p !! k = Some e →
     ∃ e', statusMap p' !! k = Some e' ∧
       StudentAssignmentStatus.status e' = status ∧
       StudentAssignmentStatus.updatedAt e' = now ∧
       StudentAssignmentStatus.grade e' = StudentAssignmentStatus.grade e ∧
       StudentAssignmentStatus.note e' = StudentAssignmentStatus.note e ∧
       StudentAssignmentStatus.fileURL e' = StudentAssignmentStatus.fileURL e ∧
       StudentAssignmentStatus.studentName e' = StudentAssignmentStatus.studentName e) ∧
  TrackSummary.total (TrackSummary.summary (statusMap p')) = size (statusMap p) ∧
  TrackSummary.assigned (TrackSummary.summary (statusMap p'))
    = (if decide (status = Assigned) then size (statusMap p) else 0) ∧
  TrackSummary.submitted (TrackSummary.summary (statusMap p'))
    = (if decide (status = Submitted) then size (statusMap p) else 0) ∧
  TrackSummary.graded (TrackSummary.summary (statusMap p'))
    = (if decide (status = Graded) then size (statusMap p) else 0).
Proof.
  unfold handleBulkUpdate. simpl. split; [done|]. split; [apply dom_fmap_L|]. split.
  - intros k e Hk. rewrite lookup_fmap, Hk. simpl. by eexists.
  - unfold TrackSummary.summary. simpl.
    rewrite map_to_list_fmap, <- list_fmap_compose, !length_fmap, length_map_to_list.
    assert (∀ s', TrackSummary.count s'
                    (snd ∘ prod_map id
                       (λ e, StudentAssignmentStatus.mk
                               (StudentAssignmentStatus.studentId e)
                               (StudentAssignmentStatus.studentName e)
                               (StudentAssignmentStatus.email e) status
                               (StudentAssignmentStatus.grade e)
                               (StudentAssignmentStatus.note e)
                               (StudentAssignmentStatus.fileURL e)
                               (StudentAssignmentStatus.fileName e) now)
                     <$> map_to_list (statusMap p))
                  = if decide (s' = status) then size (statusMap p) else 0) as Hc.
    { intros s'. rewrite (count_all status).
      - by rewrite length_fmap, length_map_to_list.
      - intros v ([k e] & -> & _)%list_elem_of_fmap. done. }
    rewrite !Hc. repeat split; by repeat case_decide.
Qed.

Lemma handleBulkUpdate_all_witness :
  TrackSummary.summary
    (statusMap (handleBulkUpdate Graded 8 Scenario.synced.2))
  = TrackSummary.mk 3 0 0 3.
Proof.
  destruct (handleBulkUpdate_all Graded 8 Scenario.synced.2)
    as (_ & _ & _ & Ht & Ha & Hs & Hg).
  destruct (TrackSummary.summary (statusMap (handleBulkUpdate Graded 8 Scenario.synced.2))).
  cbn [TrackSummary.total TrackSummary.assigned TrackSummary.submitted
       TrackSummary.graded] in *.
  rewrite Ht, Ha, Hs, Hg. vm_compute. reflexivity.
Defined.

Lemma set_statusMap_id a : set_statusMap (Assignment.statusMap a) a = a.
Proof. by destruct a. Qed.

Lemma with_assignments_id db id a :
  Db.assignments db !! id = Some a → Db.with_assignments (insert id a) db = db.
Proof. intros H. destruct db. unfold Db.with_assignments. simpl in *. by rewrite insert_id. Qed.

(** Saving a page that shows the stored assignment, without an edit, leaves
    the store and the page exactly as they were: no time stamp is renewed. *)
Theorem save_without_edits id db a p0 now :
  Db.assignments db !! id = Some a →
  handleSaveChanges id db (fetchAssignment id db p0)
    (statusMap (fetchAssignment id db p0)) now
  = (db, fetchAssignment id db p0, Success).
Proof.
  intros Ha. unfold fetchAssignment. rewrite Ha. unfold handleSaveChanges. simpl.
  rewrite Ha, updatedStatusMap_fetched, set_statusMap_id.
  by rewrite with_assignments_id.
Qed.

Lemma save_without_edits_witness :
  handleSaveChanges "A1" Scenario.db_roster3 Scenario.page_loaded
    (statusMap Scenario.page_loaded) 9
  = (Scenario.db_roster3, Scenario.page_loaded, Success).
Proof.
  destruct (Db.assignments Scenario.db_roster3 !! "A1") as [a|] eqn:Ha;
    [|vm_compute in Ha; discriminate].
  exact (save_without_edits "A1" Scenario.db_roster3 a (mkPage None ∅) 9 Ha).
Defined.

(** Saving replaces the whole stored map by the one given: the stored map
    gets exactly its keys, each entry with the content given and with a new
    time stamp exactly when it differs from the entry the page last
    fetched; the other fields of the assignment stay.  When the assignment
    document is gone nothing is written. *)
Theorem handleSaveChanges_replaces id db p mapToSave now :
  match Db.assignments db !! id with
  | None => handleSaveChanges id db p mapToSave now = (db, p, Failed)
  | Some a =>
      ∃ a',
        handleSaveChanges id db p mapToSave now
          = (Db.with_assignments (insert id a') db,
             mkPage (set_statusMap (Assignment.statusMap a') <$> assignment p) (statusMap p),
             Success) ∧
        Assignment.title a' = Assignment.title a ∧
        Assignment.dueDate a' = Assignment.dueDate a ∧
        Assignment.createdAt a' = Assignment.createdAt a ∧
        dom (Assignment.statusMap a') = dom mapToSave ∧
        ∀ k e, mapToSave !! k = Some e →
          ∃ e', Assignment.statusMap a' !! k = Some e' ∧
            same_content e e' ∧
            (originalStatus p k = Some e → e' = e) ∧
            (originalStatus p k ≠ Some e → StudentAssignmentStatus.updatedAt e' = now)
  end.
Proof.
  unfold handleSaveChanges.
  destruct (Db.assignments db !! id) as [a|]; [|done].
  exists (set_statusMap (updatedStatusMap p mapToSave now) a).
  split; [reflexivity|]. simpl. do 3 (split; [done|]). split.
  - apply set_eq. intros k. rewrite !elem_of_dom, updatedStatusMap_lookup.
    by rewrite fmap_is_Some.
  - intros k e Hk. rewrite updatedStatusMap_lookup, Hk. simpl. eexists. split; [done|].
    case_decide; [done|]. split; [apply same_content_set_updatedAt|]. by split.
Qed.

Lemma handleSaveChanges_replaces_witness :
  ∃ a',
    Db.assignments
      (handleSaveChanges "A1" Scenario.db_roster3 Scenario.page_loaded ∅ 9).1.1 !! "A1"
      = Some a' ∧
    Assignment.title a' = "Essay" ∧ Assignment.statusMap a' = ∅.
Proof.
  assert (Db.assignments Scenario.db_roster3 !! "A1"
          = Some (Assignment.mk "Essay" None "2024-02-01" None 3
                    (Assignment.statusMap
                       (default Scenario.essay
                          (Db.assignments Scenario.db_roster3 !! "A1"))))) as Ha.
  { vm_compute. reflexivity. }
  pose proof (handleSaveChanges_replaces "A1" Scenario.db_roster3 Scenario.page_loaded ∅ 9)
    as H.
  rewrite Ha in H. destruct H as (a' & Hrun & Ht & _ & _ & Hdom & _).
  exists a'. rewrite Hrun. simpl. split; [apply lookup_insert_eq|]. split.
  - exact Ht.
  - apply dom_empty_iff_L. by rewrite Hdom, dom_empty_L.
Defined.

(** An assignment that has been deleted is never brought back by the pages
    that still show it: saving, syncing and editing it, submitting to it
    and reviewing a submission to it leave it absent. *)
Theorem deleted_assignment_stays_deleted db id :
  Db.assignments db !! id = None →
  (∀ p mapToSave now,
     Db.assignments (handleSaveChanges id db p mapToSave now).1.1 !! id = None) ∧
  (∀ p now, Db.assignments (handleSyncAttendees id db p now).1 !! id = None) ∧
  (∀ data, Db.assignments (Assignments.onEdit db id data).1 !! id = None) ∧
  (∀ a profile user note now,
     Db.assignments
       (StudentAssignments.handleSubmitAssignment db (Some (id, a)) profile user note now).1
       !! id = None) ∧
  (∀ reviews submission now,
     Db.assignments (ReviewAssignments.handleSaveReview id db reviews submission now).1
       !! id = None).
Proof.
  intros Hnone. split; [|split; [|split; [|split]]].
  - intros p m now. unfold handleSaveChanges. by rewrite Hnone.
  - intros p now. rewrite handleSyncAttendees_unfold. simpl. rewrite Hnone.
    by case_decide.
  - intros data. unfold Assignments.onEdit. by rewrite Hnone.
  - intros a profile user note now. unfold StudentAssignments.handleSubmitAssignment.
    destruct profile, user; simpl; try done. by rewrite Hnone.
  - intros reviews submission now. unfold ReviewAssignments.handleSaveReview.
    destruct (reviews !! submission.1); [|done].
    destruct (Db.submissions db !! submission.1); [|done]. simpl.
    by rewrite Hnone.
Qed.

Lemma deleted_assignment_stays_deleted_witness :
  Db.assignments
    (handleSyncAttendees "A1" (Assignments.handleDelete Scenario.db_roster3 "A1")
       Scenario.page_loaded 9).1 !! "A1" = None.
Proof.
  destruct (deleted_assignment_stays_deleted
              (Assignments.handleDelete Scenario.db_roster3 "A1") "A1") as (_ & Hsync & _).
  - apply lookup_delete_eq.
  - apply Hsync.
Defined.

(** Right after an assignment is created its roster snapshot is complete:
    the sync action finds nothing to add and changes nothing. *)
Theorem create_then_sync db data newId now p0 now' :
  let db' := CreateAssignment.onSubmit db data newId now in
  handleSyncAttendees newId db' (fetchAssignment newId db' p0) now'
  = (db', fetchAssignment newId db' p0).
Proof.
  intros db'. apply handleSyncAttendees_in_sync.
  unfold fetchAssignment, db', CreateAssignment.onSubmit. simpl.
  rewrite lookup_insert_eq. simpl. intros a Ha. rewrite seed_lookup.
  destruct (last_listed (getDocs_attendees db) (Student.id a)) as [a'|] eqn:Hl;
    [by eexists|].
  rewrite MarkAttendanceFacts.last_listed_None in Hl. by destruct (Hl a Ha).
Qed.

End TrackPageFacts.

(** ** Submitting again, failed second writes, and the review listing *)

Module SubmissionPageFacts.
Import StudentAssignments ReviewAssignments.

(** Submitting again keeps what the teacher has written: the submission
    goes back to [submitted] but keeps its grade and feedback, and the
    student's entry keeps its grade and identifying fields. *)
Theorem resubmit_keeps_grade db sel profile userEmail submissionNote now a s :
  Db.assignments db !! sel.1 = Some a →
  Db.submissions db !! submissionId sel.1 (Student.id profile) = Some s →
  let r := handleSubmitAssignment db (Some sel) (Some profile) (Some userEmail)
             submissionNote now in
  (∃ s', Db.submissions r.1 !! submissionId sel.1 (Student.id profile) = Some s' ∧
         Submission.status s' = submitted ∧
         Submission.grade s' = Submission.grade s ∧
         Submission.feedback s' = Submission.feedback s ∧
         Submission.fileURL s' = Submission.fileURL s ∧
         Submission.fileName s' = Submission.fileName s) ∧
  (∀ e, Assignment.statusMap a !! Student.id profile = Some e →
     ∃ a' e', Db.assignments r.1 !! sel.1 = Some a' ∧
       Assignment.statusMap a' !! Student.id profile = Some e' ∧
       StudentAssignmentStatus.status e' = Submitted ∧
       StudentAssignmentStatus.grade e' = StudentAssignmentStatus.grade e ∧
       StudentAssignmentStatus.studentId e' = StudentAssignmentStatus.studentId e ∧
       StudentAssignmentStatus.studentName e' = StudentAssignmentStatus.studentName e ∧
       StudentAssignmentStatus.email e' = StudentAssignmentStatus.email e).
Proof.
  intros Ha Hs r. unfold r, handleSubmitAssignment. simpl. rewrite Ha. simpl. split.
  - eexists. split; [apply lookup_insert_eq|]. by rewrite Hs.
  - intros e He. eexists _, _. split; [apply lookup_insert_eq|]. simpl.
    split; [apply lookup_insert_eq|]. by rewrite He.
Qed.

(** What [handleSubmitAssignment] does when it cannot complete: without a
    selected assignment, a student profile or a signed-in user it writes
    nothing; when the assignment document is gone it reports a failure
    after the submission has been written, and does not undo it. *)
Theorem handleSubmitAssignment_failures db sel profile userEmail submissionNote now :
  (∀ p u, handleSubmitAssignment db None p u submissionNote now = (db, None)) ∧
  (∀ a u, handleSubmitAssignment db a None u submissionNote now = (db, None)) ∧
  (∀ a p, handleSubmitAssignment db a p None submissionNote now = (db, None)) ∧
  (Db.assignments db !! sel.1 = None →
     let r := handleSubmitAssignment db (Some sel) (Some profile) (Some userEmail)
                submissionNote now in
     r.2 = Some Failed ∧
     Db.assignments r.1 = Db.assignments db ∧
     ∃ s', Db.submissions r.1 !! submissionId sel.1 (Student.id profile) = Some s' ∧
           Submission.status s' = submitted ∧
           Submission.notes s' = Some submissionNote).
Proof.
  split; [done|]. split; [by intros [?|] ?|]. split; [by intros [?|] [?|]|].
  intros Hnone r. unfold r, handleSubmitAssignment. simpl. rewrite Hnone. simpl.
  split; [done|]. split; [done|]. eexists. split; [apply lookup_insert_eq|]. done.
Qed.

Lemma handleSubmitAssignment_failures_witness :
  (handleSubmitAssignment (Assignments.handleDelete Scenario.db_assigned "A1")
     (Some ("A1", Scenario.essay)) (Some Scenario.studentA) (Some "a@x.com") "late" 6).2
  = Some Failed ∧
  is_Some
    (Db.submissions
       (handleSubmitAssignment (Assignments.handleDelete Scenario.db_assigned "A1")
          (Some ("A1", Scenario.essay)) (Some Scenario.studentA) (Some "a@x.com") "late" 6).1
       !! "A1_S1").
Proof.
  destruct (handleSubmitAssignment_failures
              (Assignments.handleDelete Scenario.db_assigned "A1")
              ("A1", Scenario.essay) Scenario.studentA "a@x.com" "late" 6)
    as (_ & _ & _ & Hgone).
  destruct Hgone as (Hout & _ & s' & Hs' & _); [apply lookup_delete_eq|].
  split; [exact Hout|]. exists s'. exact Hs'.
Defined.

(** What [handleSaveReview] does when it cannot complete: without a review
    for the submission on the page, or when the submission document is
    gone, it writes nothing; when only the assignment document is gone it
    reports a failure after the submission has been graded. *)
Theorem handleSaveReview_failures id db reviews submission now :
  (reviews !! submission.1 = None →
     handleSaveReview id db reviews submission now = (db, Failed)) ∧
  (Db.submissions db !! submission.1 = None →
     handleSaveReview id db reviews submission now = (db, Failed)) ∧
  (∀ r s, reviews !! submission.1 = Some r →
     Db.submissions db !! submission.1 = Some s →
     Db.assignments db !! id = None →
     handleSaveReview id db reviews submission now
       = (Db.with_submissions (insert submission.1 (graded_submission r s)) db, Failed)).
Proof.
  unfold handleSaveReview. split; [|split].
  - by intros ->.
  - intros ->. by destruct (reviews !! submission.1).
  - intros r s -> -> Hnone. simpl. by rewrite Hnone.
Qed.

Lemma handleSaveReview_failures_witness :
  handleSaveReview "A1" Scenario.db_submitted ∅ ("A1_S1", Scenario.submissionS1) 7
    = (Scenario.db_submitted, Failed) ∧
  (handleSaveReview "A1" (Assignments.handleDelete Scenario.db_submitted "A1")
     Scenario.reviews1 ("A1_S1", Scenario.submissionS1) 7).2 = Failed.
Proof.
  split.
  - destruct (handleSaveReview_failures "A1" Scenario.db_submitted ∅
                ("A1_S1", Scenario.submissionS1) 7) as (Hnone & _ & _).
    apply Hnone. reflexivity.
  - destruct (handleSaveReview_failures "A1"
                (Assignments.handleDelete Scenario.db_submitted "A1")
                Scenario.reviews1 ("A1_S1", Scenario.submissionS1) 7) as (_ & _ & Hgone).
    rewrite (Hgone (mkReview "well argued" "A") Scenario.submissionS1);
      [reflexivity | reflexivity | reflexivity | apply lookup_delete_eq].
Defined.

(** After a student has submitted, the submit dialog of the refreshed
    assignment opens with the note that was submitted. *)
Theorem submit_then_open_dialog db sel profile userEmail submissionNote now a :
  Db.assignments db !! sel.1 = Some a →
  ∃ a',
    Db.assignments
      (handleSubmitAssignment db (Some sel) (Some profile) (Some userEmail)
         submissionNote now).1 !! sel.1 = Some a' ∧
    SubmitDialog.handleOpenSubmitDialog (sel.1, a') (Some profile) = Some submissionNote.
Proof.
  intros Ha. unfold handleSubmitAssignment. simpl. rewrite Ha. simpl.
  eexists. split; [apply lookup_insert_eq|].
  unfold SubmitDialog.handleOpenSubmitDialog. simpl. rewrite lookup_insert_eq. simpl.
  f_equal. unfold or_str. case_decide; by subst.
Qed.

Lemma submit_then_open_dialog_witness :
  ∃ a',
    Db.assignments Scenario.db_submitted !! "A1" = Some a' ∧
    SubmitDialog.handleOpenSubmitDialog ("A1", a') (Some Scenario.studentA)
      = Some "my essay".
Proof.
  destruct (Db.assignments Scenario.db_assigned !! "A1") as [a|] eqn:Ha;
    [|vm_compute in Ha; discriminate].
  exact (submit_then_open_dialog Scenario.db_assigned ("A1", Scenario.essay)
           Scenario.studentA "a@x.com" "my essay" 6 a Ha).
Defined.

Lemma submissions_elem db id k s :
  (k, s) ∈ ReviewSnapshot.submissions db id ↔
  Db.submissions db !! k = Some s ∧ Submission.assignmentId s = id.
Proof.
  unfold ReviewSnapshot.submissions.
  rewrite list_elem_of_filter, elem_of_getDocs. simpl. tauto.
Qed.

Lemma submissions_NoDup db id : NoDup (ReviewSnapshot.submissions db id).*1.
Proof.
  apply NoDup_fmap_fst.
  - intros k s1 s2 [H1 _]%submissions_elem [H2 _]%submissions_elem. congruence.
  - apply NoDup_filter, NoDup_getDocs.
Qed.

Lemma initialReviews_lookup (subs : list (string * Submission.t)) k s :
  NoDup subs.*1 → (k, s) ∈ subs →
  ReviewSnapshot.initialReviews subs !! k
  = Some (mkReview (or_str (Submission.feedback s) EmptyString)
            (or_str (Submission.grade s) EmptyString)).
Proof.
  unfold ReviewSnapshot.initialReviews.
  induction subs as [|x subs IH] using rev_ind; [by intros _ ?%elem_of_nil|].
  rewrite fmap_app, NoDup_app, foldl_snoc. intros (Hnd & Hdisj & _).
  intros [Hin|Hin%list_elem_of_singleton]%elem_of_app.
  - rewrite lookup_insert_ne; [by apply IH|].
    intros Hx. apply (Hdisj k).
    + apply list_elem_of_fmap. by exists (k, s).
    + rewrite <- Hx. simpl. apply list_elem_of_here.
  - subst x. simpl. apply lookup_insert_eq.
Qed.

(** Every submission the review page lists has a review on the page, so
    saving the review of a listed submission succeeds as long as the
    assignment exists. *)
Theorem save_listed_review_succeeds id db submission now a :
  submission ∈ ReviewSnapshot.submissions db id →
  Db.assignments db !! id = Some a →
  (handleSaveReview id db
     (ReviewSnapshot.initialReviews (ReviewSnapshot.submissions db id)) submission now).2
  = Success.
Proof.
  destruct submission as [k s]. intros Hin Ha.
  unfold handleSaveReview. simpl.
  rewrite (initialReviews_lookup _ k s (submissions_NoDup db id) Hin).
  apply submissions_elem in Hin as [-> _]. simpl. by rewrite Ha.
Qed.

Lemma save_listed_review_succeeds_witness :
  (handleSaveReview "A1" Scenario.db_submitted
     (ReviewSnapshot.initialReviews (ReviewSnapshot.submissions Scenario.db_submitted "A1"))
     ("A1_S1", Scenario.submissionS1) 7).2 = Success.
Proof.
  destruct (Db.assignments Scenario.db_submitted !! "A1") as [a|] eqn:Ha;
    [|vm_compute in Ha; discriminate].
  apply (save_listed_review_succeeds "A1" Scenario.db_submitted
           ("A1_S1", Scenario.submissionS1) 7 a); [|exact Ha].
  apply submissions_elem. split; reflexivity.
Defined.

(** A saved review comes back: after the grade and the feedback of a listed
    submission are saved, the next listing of the assignment shows that
    grade and that feedback for it. *)
Theorem review_round_trip id db reviews submission now r a :
  submission ∈ ReviewSnapshot.submissions db id →
  reviews !! submission.1 = Some r →
  Db.assignments db !! id = Some a →
  ReviewSnapshot.initialReviews
    (ReviewSnapshot.submissions (handleSaveReview id db reviews submission now).1 id)
    !! submission.1
  = Some r.
Proof.
  destruct submission as [k s]. simpl.
  intros [Hs Hid]%submissions_elem Hr Ha.
  assert ((k, graded_submission r s)
          ∈ ReviewSnapshot.submissions (handleSaveReview id db reviews (k, s) now).1 id) as Hin.
  { apply submissions_elem. unfold handleSaveReview. simpl. rewrite Hr, Hs. simpl.
    rewrite Ha. simpl. by rewrite lookup_insert_eq. }
  rewrite (initialReviews_lookup _ k _ (submissions_NoDup _ id) Hin). simpl.
  destruct r as [f g]. simpl. unfold or_str. by repeat case_decide; subst.
Qed.

Lemma review_round_trip_witness :
  ReviewSnapshot.initialReviews
    (ReviewSnapshot.submissions
       (handleSaveReview "A1" Scenario.db_submitted Scenario.reviews1
          ("A1_S1", Scenario.submissionS1) 7).1 "A1")
    !! "A1_S1"
  = Some (mkReview "well argued" "A").
Proof.
  destruct (Db.assignments Scenario.db_submitted !! "A1") as [a|] eqn:Ha;
    [|vm_compute in Ha; discriminate].
  apply (review_round_trip "A1" Scenario.db_submitted Scenario.reviews1
           ("A1_S1", Scenario.submissionS1) 7 (mkReview "well argued" "A") a);
    [|reflexivity|exact Ha].
  apply submissions_elem. split; reflexivity.
Defined.

Lemma resubmit_keeps_grade_witness :
  ∃ s',
    Db.submissions
      (handleSubmitAssignment
         (handleSaveReview "A1" Scenario.db_submitted Scenario.reviews1
            ("A1_S1", Scenario.submissionS1) 7).1
         (Some ("A1", Scenario.essay)) (Some Scenario.studentA) (Some "a@x.com")
         "second try" 8).1 !! "A1_S1" = Some s' ∧
    Submission.status s' = submitted ∧
    Submission.grade s' = Some "A" ∧
    Submission.feedback s' = Some "well argued".
Proof.
  set (db := (handleSaveReview "A1" Scenario.db_submitted Scenario.reviews1
                ("A1_S1", Scenario.submissionS1) 7).1).
  destruct (Db.assignments db !! "A1") as [a|] eqn:Ha; [|vm_compute in Ha; discriminate].
  destruct (resubmit_keeps_grade db ("A1", Scenario.essay) Scenario.studentA "a@x.com"
              "second try" 8 a
              (graded_submission (mkReview "well argued" "A") Scenario.submissionS1) Ha)
    as [(s' & Hs' & Hst & Hg & Hf & _) _]; [reflexivity|].
  exists s'. split; [exact Hs'|]. split; [exact Hst|]. split; [exact Hg | exact Hf].
Defined.

End SubmissionPageFacts.

(** ** Route guard *)

Module AuthGuardFacts.
Import AuthGuard.

(** The guard never sends a user in circles: the path it redirects to is
    one on which, for the same user, it redirects no further. *)
Theorem redirect_is_final loading user userRole pathname target :
  target ∈ redirects loading user userRole pathname →
  redirects loading user userRole target = [].
Proof.
  unfold redirects.
  destruct loading; [by intros ?%elem_of_nil|].
  destruct user, userRole as [[|]|],
    (bool_decide (pathname ∈ publicPaths)),
    (isTeacherRoute pathname), (isStudentRoute pathname); cbn [andb negb app];
    intros Hin.
  all: try (by apply elem_of_nil in Hin).
  all: apply list_elem_of_singleton in Hin; subst target; vm_compute; reflexivity.
Qed.

Lemma redirect_is_final_witness :
  redirects false true (Some student) "/summary" = ["/student"] ∧
  redirects false true (Some student) "/student" = [].
Proof.
  assert (redirects false true (Some student) "/summary" = ["/student"]) as H
    by reflexivity.
  split; [exact H|].
  apply (redirect_is_final false true (Some student) "/summary" "/student").
  rewrite H. apply list_elem_of_here.
Defined.

Lemma prefix_cons_inv a s1 b s2 :
  String.prefix (String a s1) (String b s2) = true → a = b ∧ String.prefix s1 s2 = true.
Proof.
  change (String.prefix (String a s1) (String b s2))
    with (if Ascii.ascii_dec a b then String.prefix s1 s2 else false).
  by destruct (Ascii.ascii_dec a b).
Qed.

Lemma prefix_three a1 a2 a3 s pathname :
  String.prefix (String a1 (String a2 (String a3 s))) pathname = true →
  ∃ rest, pathname = String a1 (String a2 (String a3 rest)).
Proof.
  destruct pathname as [|c1 [|c2 [|c3 rest]]]; [done| | |].
  - intros [_ H]%prefix_cons_inv. done.
  - intros [_ [_ H]%prefix_cons_inv]%prefix_cons_inv. done.
  - intros [-> [-> [-> _]%prefix_cons_inv]%prefix_cons_inv]%prefix_cons_inv.
    by exists rest.
Qed.

Lemma student_route_prefix pathname :
  isStudentRoute pathname = true → ∃ rest, pathname = "/st" +:+ rest.
Proof.
  change (isStudentRoute pathname)
    with (startsWith pathname "/student"
          || (startsWith pathname "/student/attendance"
              || (startsWith pathname "/student/assignments" || false))).
  unfold startsWith.
  intros [H|[H|[H|H]%orb_true_iff]%orb_true_iff]%orb_true_iff;
    [by apply prefix_three in H..|done].
Qed.

(** The guard keeps the two roles apart: no path is both a student route
    and a teacher route, a student on a teacher route is sent to
    [/student], a teacher on a student route is sent to [/], and whoever is
    not signed in is sent to [/login] from every other path. *)
Theorem guard_separates_roles pathname :
  (isStudentRoute pathname = true → isTeacherRoute pathname = false) ∧
  (isTeacherRoute pathname = true →
     redirects false true (Some student) pathname = ["/student"]) ∧
  (isStudentRoute pathname = true →
     redirects false true (Some teacher) pathname = ["/"]) ∧
  (pathname ≠ "/login" →
     ∀ userRole, redirects false false userRole pathname = ["/login"]).
Proof.
  assert (isStudentRoute pathname = true →
          isTeacherRoute pathname = false ∧ bool_decide (pathname ∈ publicPaths) = false)
    as Hstudent.
  { intros [rest ->]%student_route_prefix. split; vm_compute; reflexivity. }
  split; [by intros [? _]%Hstudent|]. split; [|split].
  - intros Ht. unfold redirects. rewrite Ht.
    destruct (bool_decide (pathname ∈ publicPaths)) eqn:Hpub; [|done].
    apply bool_decide_eq_true_1, list_elem_of_singleton in Hpub. subst pathname.
    vm_compute in Ht. discriminate.
  - intros Hs. destruct (Hstudent Hs) as [Ht Hpub].
    unfold redirects. by rewrite Hs, Ht, Hpub.
  - intros Hne userRole. unfold redirects.
    rewrite bool_decide_eq_false_2; [done|].
    by intros ?%list_elem_of_singleton.
Qed.

Lemma guard_separates_roles_witness :
  redirects false true (Some student) "/assignments/track/A1" = ["/student"] ∧
  redirects false true (Some teacher) "/student/attendance" = ["/"] ∧
  redirects false false None "/summary" = ["/login"].
Proof.
  destruct (guard_separates_roles "/assignments/track/A1") as (_ & Hteacher & _ & _).
  destruct (guard_separates_roles "/student/attendance") as (_ & _ & Hstudent & _).
  destruct (guard_separates_roles "/summary") as (_ & _ & _ & Hout).
  split; [apply Hteacher; reflexivity|].
  split; [apply Hstudent; reflexivity|].
  apply Hout. discriminate.
Defined.

End AuthGuardFacts.

(** ** Exporting the summary *)

Module CsvFacts.
Import Csv.

Lemma split_nocomma c x : includes c x = false → split c x = [x].
Proof.
  induction x as [|a x IH]; [done|]. simpl. case_decide; [done|].
  intros Hx. by rewrite IH.
Qed.

Lemma split_app c x rest :
  includes c x = false → split c (x +:+ String c rest) = x :: split c rest.
Proof.
  induction x as [|a x IH]; simpl.
  - by rewrite decide_True.
  - case_decide; [done|]. intros Hx. by rewrite IH.
Qed.

Lemma split_join c l :
  l ≠ [] → Forall (λ x, includes c x = false) l →
  split c (join (String c EmptyString) l) = l.
Proof.
  intros Hne Hall. induction Hall as [|x l Hx Hall IH]; [done|].
  destruct l as [|y l]; [by apply split_nocomma|].
  change (join (String c EmptyString) (x :: y :: l))
    with (x +:+ String c EmptyString +:+ join (String c EmptyString) (y :: l)).
  change (String c EmptyString +:+ join (String c EmptyString) (y :: l))
    with (String c (join (String c EmptyString) (y :: l))).
  rewrite split_app by done. by rewrite IH.
Qed.

Lemma uint_nocomma u : includes comma (NilEmpty.string_of_uint u) = false.
Proof. induction u; simpl; try done. Qed.

Lemma number_nocomma n : includes comma (number_to_string n) = false.
Proof.
  unfold number_to_string, NilZero.string_of_int, NilZero.string_of_uint.
  destruct (Z.to_int n) as [u|u]; destruct u; simpl; try apply uint_nocomma; done.
Qed.

(** The exported file starts with the header line and has one line per row
    of the summary; a line whose student name and e-mail contain no comma
    reads back, split at its commas, as the six fields of the row.  With no
    row nothing is exported. *)
Theorem export_round_trip d ds :
  handleExport [] = None ∧
  ∃ lines, handleExport (d :: ds) = Some (join CRLF ("Student,Email,Present,Absent,Leave,Attendance %" :: lines)) ∧
   length lines = S (length ds) ∧
   ∀ i row line, (d :: ds) !! i = Some row → lines !! i = Some line →
     includes comma (SummaryPage.studentName row) = false →
     includes comma (SummaryPage.email row) = false →
     split comma line =
       [SummaryPage.studentName row; SummaryPage.email row;
        number_to_string (Z.of_nat (SummaryPage.present row));
        number_to_string (Z.of_nat (SummaryPage.absent row));
        number_to_string (Z.of_nat (SummaryPage.leave row));
        number_to_string (SummaryPage.percentage row)].
Proof.
  split; [done|].
  eexists. split; [reflexivity|]. split; [by rewrite !length_fmap|].
  intros i row line Hrow. rewrite <- list_fmap_compose, list_lookup_fmap, Hrow. simpl.
  intros [= <-] Hn He.
  change (field (exportRow row) <$> (exportRow d).*1)
    with [field (exportRow row) "Student"; field (exportRow row) "Email";
          field (exportRow row) "Present"; field (exportRow row) "Absent";
          field (exportRow row) "Leave"; field (exportRow row) "Attendance %"].
  assert (field (exportRow row) "Student" = SummaryPage.studentName row) as ->.
  { unfold field. change (get (exportRow row) "Student") with (Some (VString (SummaryPage.studentName row))). cbv beta iota. by rewrite Hn. }
  assert (field (exportRow row) "Email" = SummaryPage.email row) as ->.
  { unfold field. change (get (exportRow row) "Email") with (Some (VString (SummaryPage.email row))). cbv beta iota. by rewrite He. }
  change (field (exportRow row) "Present") with (number_to_string (Z.of_nat (SummaryPage.present row))).
  change (field (exportRow row) "Absent") with (number_to_string (Z.of_nat (SummaryPage.absent row))).
  change (field (exportRow row) "Leave") with (number_to_string (Z.of_nat (SummaryPage.leave row))).
  change (field (exportRow row) "Attendance %") with (number_to_string (SummaryPage.percentage row)).
  apply (split_join comma
           [SummaryPage.studentName row; SummaryPage.email row;
            number_to_string (Z.of_nat (SummaryPage.present row));
            number_to_string (Z.of_nat (SummaryPage.absent row));
            number_to_string (Z.of_nat (SummaryPage.leave row));
            number_to_string (SummaryPage.percentage row)]); [done|].
  repeat constructor; try done; apply number_nocomma.
Qed.

Lemma export_round_trip_witness :
  ∃ csv line,
    handleExport (SummaryPage.processSummary [Scenario.student40] Scenario.records4)
      = Some csv ∧
    csv = "Student,Email,Present,Absent,Leave,Attendance %" +:+ CRLF +:+ line ∧
    split comma line = ["Ann"; "a@x.com"; "3"; "1"; "0"; "75"].
Proof.
  destruct (export_round_trip
              (SummaryPage.summary_row Scenario.records4 Scenario.student40) [])
    as (_ & lines & Hcsv & Hlen & Hsplit).
  destruct lines as [|line [|? ?]]; try discriminate Hlen.
  eexists. exists line. split; [exact Hcsv|]. split; [reflexivity|].
  apply (Hsplit 0 (SummaryPage.summary_row Scenario.records4 Scenario.student40) line);
    reflexivity.
Defined.

End CsvFacts.
